(** * Bibip car service: fixed-width record files, key indexes, repository

    A shallow embedding of [src/bibip_car_service.py] (class [CarService]).

    Modelling conventions.
    - Python [str] values are lists of characters ([list ascii]).  Every
      character is taken to occupy one storage unit, so that the character
      offsets used by [seek]/[read]/[write] coincide with byte offsets (the
      service opens its files as UTF-8 text; the embedding covers the
      single-unit fragment).
    - A record file is its content, or [None] when the file does not exist.
      Files are opened in text mode with the default newline handling of a
      POSIX host: writing emits the line feed as it is, reading translates
      carriage returns ([universal_newlines]).
    - An index file is the dictionary that [json.load] returns for it: an
      insertion-ordered association list from text keys to record numbers.
      A missing or unparsable index file is the empty dictionary, exactly as
      [_load_index] treats it.
    - Exceptions are values of [exn]; an operation of the service is a
      function from stores to a result and the store it leaves behind, so
      that the writes performed before a [raise] stay visible. *)

From Stdlib Require Import String.
From Stdlib Require Import List Ascii Arith ZArith QArith Lia Bool.
From Stdlib Require Import DecimalString.
From Stdlib Require Import Sorting.Sorted Sorting.Permutation.
Import ListNotations.
Close Scope Q_scope.
Close Scope Z_scope.
Open Scope nat_scope.

Set Implicit Arguments.

(** ** Text *)

Definition str := list ascii.

Definition lit (s : String.string) : str := String.list_ascii_of_string s.
Arguments lit s%_string.

Definition SPACE : ascii := " "%char.
Definition LF : ascii := ascii_of_nat 10.
Definition CR : ascii := ascii_of_nat 13.
Definition NUL : ascii := ascii_of_nat 0.
Definition PIPE : ascii := "|"%char.

Fixpoint str_eqb (a b : str) : bool :=
  match a, b with
  | [], [] => true
  | x :: a', y :: b' => Ascii.eqb x y && str_eqb a' b'
  | _, _ => false
  end.

(** [c.isspace()] for a one-character string: the ASCII white space, the
    four information separators and the two Latin-1 spaces. *)
Definition isspace (c : ascii) : bool :=
  let n := nat_of_ascii c in
  ((9 <=? n) && (n <=? 13)) || ((28 <=? n) && (n <=? 32))
  || (n =? 133) || (n =? 160).

(** [s.lstrip()], [s.rstrip()] and [s.strip()] without arguments. *)
Fixpoint lstrip (s : str) : str :=
  match s with
  | [] => []
  | c :: t => if isspace c then lstrip t else s
  end.

Definition rstrip (s : str) : str := rev (lstrip (rev s)).

Definition strip (s : str) : str := rstrip (lstrip s).

(** [s.ljust(width)]: pad on the right with spaces; a string that is
    already [width] long or longer is returned as it is. *)
Definition ljust (s : str) (width : nat) : str :=
  s ++ repeat SPACE (width - length s).

(** [s.startswith(prefix)]. *)
Fixpoint startswith (s prefix : str) : bool :=
  match prefix, s with
  | [], _ => true
  | p :: prefix', c :: s' => Ascii.eqb p c && startswith s' prefix'
  | _ :: _, [] => false
  end.

(** [s.split(sep)] for a one-character separator: never empty, one more
    part than there are separators. *)
Fixpoint split (sep : ascii) (s : str) : list str :=
  match s with
  | [] => [[]]
  | c :: t =>
      if Ascii.eqb c sep then [] :: split sep t
      else match split sep t with
           | [] => [[c]]
           | p :: ps => (c :: p) :: ps
           end
  end.

(** [sep.join(parts)], the shape of every f-string of the service. *)
Fixpoint join (sep : ascii) (parts : list str) : str :=
  match parts with
  | [] => []
  | [p] => p
  | p :: ps => p ++ sep :: join sep ps
  end.

(** Text-mode input: [\r\n] and a lone [\r] both arrive as [\n]. *)
Fixpoint universal_newlines (s : str) : str :=
  match s with
  | [] => []
  | c :: t =>
      if Ascii.eqb c CR then
        match t with
        | d :: t' =>
            if Ascii.eqb d LF then LF :: universal_newlines t'
            else LF :: universal_newlines t
        | [] => [LF]
        end
      else c :: universal_newlines t
  end.

(** ** Exceptions *)

(** Every failure the service raises itself is a [ValueError] with a
    message; the constructor records which message family it is, under the
    names the specification gives them.  [BadLiteral] is the [ValueError] of
    [int(...)], [datetime.fromisoformat(...)] and [CarStatus(...)];
    [ReadFailed] is the re-raise of [update_vin] and [revert_sale] around a
    failed record read. *)
Inductive ValueErrorKind : Type :=
| DuplicateKey
| ReferenceNotFound
| NotFound
| InvalidState
| LengthExceeded
| Corrupt
| ReadFailed
| BadLiteral.

(** [InvalidOperation] is [decimal.InvalidOperation], an [ArithmeticError]
    and not a [ValueError]; [FileNotFoundError] is an [OSError]. *)
Inductive exn : Type :=
| ValueError (k : ValueErrorKind)
| IndexError
| InvalidOperation
| FileNotFoundError.

Inductive res (A : Type) : Type :=
| Ok (a : A)
| Raise (e : exn).
Arguments Ok {A} a.
Arguments Raise {A} e.

Definition is_ValueError (e : exn) : bool :=
  match e with ValueError _ => true | _ => false end.
Definition is_IndexError (e : exn) : bool :=
  match e with IndexError => true | _ => false end.
Definition is_FileNotFoundError (e : exn) : bool :=
  match e with FileNotFoundError => true | _ => false end.

(** ** Fixed-width record files *)

Definition File := str.

Definition LINE_DATA_LENGTH : nat := 500.
Definition LINE_TOTAL_LENGTH : nat := 501.

(** [f.seek(pos); f.write(block)] on a file opened with [r+]: the bytes
    before [pos] and after the block stay, a gap past the end of the file is
    filled with zero bytes. *)
Definition write_at (content : File) (pos : nat) (block : str) : File :=
  firstn pos (content ++ repeat NUL (pos - length content))
  ++ block ++ skipn (pos + length block) content.

(** [f.seek(pos); f.read(n)] on a file opened with [r]. *)
Definition read_at (content : File) (pos n : nat) : str :=
  firstn n (universal_newlines (skipn pos content)).

(** ** Dictionaries

    A Python [dict] keeps its keys in insertion order; assigning to a key
    that is present keeps its place. *)

Section Dict.
Variables K V : Type.
Variable eqb : K -> K -> bool.

Definition dict := list (K * V).

Fixpoint dict_get (d : dict) (k : K) : option V :=
  match d with
  | [] => None
  | (k', v) :: d' => if eqb k k' then Some v else dict_get d' k
  end.

Definition dict_mem (d : dict) (k : K) : bool :=
  match dict_get d k with Some _ => true | None => false end.

Fixpoint dict_set (d : dict) (k : K) (v : V) : dict :=
  match d with
  | [] => [(k, v)]
  | (k', v') :: d' =>
      if eqb k k' then (k, v) :: d' else (k', v') :: dict_set d' k v
  end.

Fixpoint dict_del (d : dict) (k : K) : dict :=
  match d with
  | [] => []
  | (k', v') :: d' => if eqb k k' then d' else (k', v') :: dict_del d' k
  end.

Definition dict_keys (d : dict) : list K := map fst d.

(** Building a dictionary member by member, from [acc]. *)
Definition dict_of_members (members : list (K * V)) (acc : dict) : dict :=
  fold_left (fun d kv => dict_set d (fst kv) (snd kv)) members acc.
End Dict.

(** ** Sorting

    [list.sort] and [sorted] are stable; they are embedded as the stable
    insertion sort on the "less than" of the keys.  With [reverse=True] the
    list is reversed, sorted and reversed again, as CPython does it. *)

Section Sort.
Variable A : Type.
Variable lt : A -> A -> bool.

Fixpoint insert_sorted (x : A) (l : list A) : list A :=
  match l with
  | [] => [x]
  | y :: l' => if lt y x then y :: insert_sorted x l' else x :: l
  end.

Fixpoint stable_sort (l : list A) : list A :=
  match l with
  | [] => []
  | x :: l' => insert_sorted x (stable_sort l')
  end.

Definition stable_sort_reverse (l : list A) : list A :=
  rev (stable_sort (rev l)).

(** "Not greater": the order the stable sort puts a list in. *)
Definition ngt (x y : A) : Prop := lt y x = false.
End Sort.

(** Order of [str] values: lexicographic on the character codes. *)
Fixpoint str_ltb (a b : str) : bool :=
  match a, b with
  | _, [] => false
  | [], _ :: _ => true
  | x :: a', y :: b' =>
      let m := nat_of_ascii x in
      let n := nat_of_ascii y in
      if m <? n then true else if n <? m then false else str_ltb a' b'
  end.

Definition sorted (keys : list str) : list str := stable_sort str_ltb keys.

(** ** The library the service calls

    [Decimal], [datetime] and [int] come from the Python library.  The
    service only moves their values between text and memory, adds and
    averages costs and compares averages, so they enter as an interface.
    A constructor that returns [None] raises: [Decimal(s)] raises
    [decimal.InvalidOperation], [datetime.fromisoformat(s)] and [int(s)]
    raise [ValueError].  The arithmetic of [Decimal] is taken on values for
    which the context signals nothing. *)
Class PyLib : Type := {
  Decimal : Type;
  Decimal_of_str : str -> option Decimal;
  str_of_Decimal : Decimal -> str;
  Decimal_zero : Decimal;
  Decimal_add : Decimal -> Decimal -> Decimal;
  Decimal_div_int : Decimal -> nat -> Decimal;
  Decimal_eqb : Decimal -> Decimal -> bool;
  Decimal_ltb : Decimal -> Decimal -> bool;
  datetime : Type;
  fromisoformat : str -> option datetime;
  isoformat : datetime -> str;
  int_of_str : str -> option Z;
  str_of_int : Z -> str
}.

(** The enumeration [CarStatus] is declared in [models.py], which is not
    among the sources: the service uses its members [available] and [sold],
    the constructor from a tag ([None] raises [ValueError]), the tag
    [.value] and equality. *)
Class CarStatusEnum : Type := {
  CarStatus : Type;
  CarStatus_of_value : str -> option CarStatus;
  value : CarStatus -> str;
  available : CarStatus;
  sold : CarStatus;
  CarStatus_eqb : CarStatus -> CarStatus -> bool;
  CarStatus_eqb_spec : forall a b, CarStatus_eqb a b = true <-> a = b
}.

(** ** Entities (the data holders of [models.py]) *)

Record Model : Type := mkModel {
  id : Z;
  name : str;
  brand : str
}.

Record Car `{PyLib} `{CarStatusEnum} : Type := mkCar {
  vin : str;
  model : Z;
  price : Decimal;
  date_start : datetime;
  status : CarStatus
}.
Arguments mkCar {_ _} _ _ _ _ _.

Record Sale `{PyLib} : Type := mkSale {
  sales_number : str;
  car_vin : str;
  sales_date : datetime;
  cost : Decimal
}.
Arguments mkSale {_} _ _ _ _.

Record CarFullInfo `{PyLib} `{CarStatusEnum} : Type := mkCarFullInfo {
  info_vin : str;
  info_car_model_name : str;
  info_car_model_brand : str;
  info_price : Decimal;
  info_date_start : datetime;
  info_status : CarStatus;
  info_sales_date : option datetime;
  info_sales_cost : option Decimal
}.
Arguments mkCarFullInfo {_ _} _ _ _ _ _ _ _ _.

Record ModelSaleStats : Type := mkModelSaleStats {
  stats_car_model_name : str;
  stats_brand : str;
  stats_sales_number : nat
}.

(** [Sale.index()] is declared in [models.py], which is not among the
    sources.  The service stores a sale in the sales index under
    [sale.index()]; which field that is stays a parameter. *)
Class SaleKey `{PyLib} : Type := {
  Sale_index : Sale -> str
}.

(** ** The store: three record files and three index files *)

Inductive RecPath : Type := models_txt | cars_txt | sales_txt.
Inductive IdxPath : Type :=
  models_index_txt | cars_index_txt | sales_index_txt.

(** The members of the JSON object of an index file, in file order. *)
Definition IndexFile := list (str * nat).
Definition Index := dict str nat.

Record Store : Type := mkStore {
  models_file : option File;
  cars_file : option File;
  sales_file : option File;
  models_index_file : IndexFile;
  cars_index_file : IndexFile;
  sales_index_file : IndexFile
}.

Definition empty_store : Store := mkStore None None None [] [] [].

Definition get_file (st : Store) (p : RecPath) : option File :=
  match p with
  | models_txt => models_file st
  | cars_txt => cars_file st
  | sales_txt => sales_file st
  end.

Definition set_file (st : Store) (p : RecPath) (c : File) : Store :=
  match p with
  | models_txt =>
      mkStore (Some c) (cars_file st) (sales_file st)
              (models_index_file st) (cars_index_file st) (sales_index_file st)
  | cars_txt =>
      mkStore (models_file st) (Some c) (sales_file st)
              (models_index_file st) (cars_index_file st) (sales_index_file st)
  | sales_txt =>
      mkStore (models_file st) (cars_file st) (Some c)
              (models_index_file st) (cars_index_file st) (sales_index_file st)
  end.

Definition get_index_file (st : Store) (p : IdxPath) : IndexFile :=
  match p with
  | models_index_txt => models_index_file st
  | cars_index_txt => cars_index_file st
  | sales_index_txt => sales_index_file st
  end.

Definition set_index_file (st : Store) (p : IdxPath) (i : IndexFile) : Store :=
  match p with
  | models_index_txt =>
      mkStore (models_file st) (cars_file st) (sales_file st)
              i (cars_index_file st) (sales_index_file st)
  | cars_index_txt =>
      mkStore (models_file st) (cars_file st) (sales_file st)
              (models_index_file st) i (sales_index_file st)
  | sales_index_txt =>
      mkStore (models_file st) (cars_file st) (sales_file st)
              (models_index_file st) (cars_index_file st) i
  end.

(** ** Computations on the store *)

Definition M (A : Type) : Type := Store -> res A * Store.

Definition ret {A} (a : A) : M A := fun st => (Ok a, st).
Definition raise {A} (e : exn) : M A := fun st => (Raise e, st).
Definition bind {A B} (m : M A) (k : A -> M B) : M B :=
  fun st =>
    match m st with
    | (Ok a, st') => k a st'
    | (Raise e, st') => (Raise e, st')
    end.
(** Reading the store. *)
Definition gets {A} (f : Store -> A) : M A := fun st => (Ok (f st), st).
(** A read that may raise. *)
Definition reads {A} (f : Store -> res A) : M A := fun st => (f st, st).

Notation "x <- c1 ;; c2" := (bind c1 (fun x => c2))
  (at level 61, c1 at next level, right associativity).
Notation "c1 ;; c2" := (bind c1 (fun _ => c2))
  (at level 61, right associativity).

(** The same sequencing for a block that only reads. *)
Definition rbind {A B} (r : res A) (k : A -> res B) : res B :=
  match r with
  | Ok a => k a
  | Raise e => Raise e
  end.
Notation "x <~ c1 ;; c2" := (rbind c1 (fun x => c2))
  (at level 61, c1 at next level, right associativity).

(** [os.path.exists(filepath)]. *)
Definition path_exists (st : Store) (p : RecPath) : bool :=
  match get_file st p with Some _ => true | None => false end.

(** [with open(filepath, 'w'): pass]. *)
Definition create_empty (p : RecPath) : M unit :=
  fun st => (Ok tt, set_file st p []).

(** [with open(filepath, 'r+') as f: f.seek(position); f.write(block)]. *)
Definition seek_write (p : RecPath) (position : nat) (block : str) : M unit :=
  fun st =>
    match get_file st p with
    | Some content => (Ok tt, set_file st p (write_at content position block))
    | None => (Raise FileNotFoundError, st)
    end.

Definition _write_fixed_length_line
  (filepath : RecPath) (line_number : nat) (data : str) : M unit :=
  if LINE_DATA_LENGTH <? length data then raise (ValueError LengthExceeded)
  else
    present <- gets (fun st => path_exists st filepath) ;;
    (if present then ret tt else create_empty filepath) ;;
    let formatted_data := ljust data LINE_DATA_LENGTH in
    let line_to_write := formatted_data ++ [LF] in
    let position := line_number * LINE_TOTAL_LENGTH in
    seek_write filepath position line_to_write.

Definition _read_fixed_length_line
  (st : Store) (filepath : RecPath) (line_number : nat) : res str :=
  match get_file st filepath with
  | None => Raise FileNotFoundError
  | Some content =>
      let position := line_number * LINE_TOTAL_LENGTH in
      let val := read_at content position LINE_DATA_LENGTH in
      Ok (rstrip val)
  end.

(** [f.seek(0, 2); f.tell()] and [os.path.getsize]. *)
Definition file_size (st : Store) (p : RecPath) : nat :=
  match get_file st p with Some content => length content | None => 0 end.

Definition _append_fixed_length_line (filepath : RecPath) (data : str)
  : M nat :=
  present <- gets (fun st => path_exists st filepath) ;;
  (if present then ret tt else create_empty filepath) ;;
  size <- gets (fun st => file_size st filepath) ;;
  let line_number := size / LINE_TOTAL_LENGTH in
  _write_fixed_length_line filepath line_number data ;;
  ret line_number.

(** [json.load] builds the dictionary member by member: of two members
    with one key the later value wins, at the place of the earlier. *)
Definition json_load (members : IndexFile) : Index :=
  dict_of_members str_eqb members [].

Definition _load_index (st : Store) (index_filepath : IdxPath) : Index :=
  json_load (get_index_file st index_filepath).

Definition _save_index (index_filepath : IdxPath) (index_data : Index)
  : M unit :=
  fun st => (Ok tt, set_index_file st index_filepath index_data).

Definition _get_file_line_count (st : Store) (filepath : RecPath) : nat :=
  if path_exists st filepath then file_size st filepath / LINE_TOTAL_LENGTH
  else 0.

(** What one iteration of a [for] loop does to the variables of the
    loop: go on to the next iteration ([continue] or the end of the body),
    leave the loop ([break]), or let an exception escape. *)
Inductive step (A : Type) : Type :=
| Continue (a : A)
| Break (a : A)
| Abort (e : exn).
Arguments Continue {A} a.
Arguments Break {A} a.
Arguments Abort {A} e.

(** ** The repository operations *)

Section Repository.
Context {lib : PyLib} {enum : CarStatusEnum} {key : SaleKey}.

(** Modelled from the spec: [Model.index()] of [models.py], which is not
    among the sources; the model index maps the model id, as text, to the
    record number ([add_car] and [get_car_info] look a model up under
    [str(car.model)]). *)
Definition Model_index (m : Model) : str := str_of_int (id m).

(** Modelled from the spec: [Car.index()] of [models.py], which is not
    among the sources; the car index maps the VIN to the record number
    (every lookup of the service is [cars_index.get(vin)]). *)
Definition Car_index (c : Car) : str := vin c.

(** [parts[i]]. *)
Definition getitem (parts : list str) (i : nat) : res str :=
  match nth_error parts i with
  | Some p => Ok p
  | None => Raise IndexError
  end.

Definition int (s : str) : res Z :=
  match int_of_str s with
  | Some n => Ok n
  | None => Raise (ValueError BadLiteral)
  end.

Definition Decimal_ (s : str) : res Decimal :=
  match Decimal_of_str s with
  | Some d => Ok d
  | None => Raise InvalidOperation
  end.

Definition datetime_fromisoformat (s : str) : res datetime :=
  match fromisoformat s with
  | Some d => Ok d
  | None => Raise (ValueError BadLiteral)
  end.

Definition CarStatus_ (s : str) : res CarStatus :=
  match CarStatus_of_value s with
  | Some d => Ok d
  | None => Raise (ValueError BadLiteral)
  end.

(** The block [Car(vin=parts[0], model=int(parts[1]),
    price=Decimal(parts[2]), date_start=datetime.fromisoformat(parts[3]),
    status=CarStatus(parts[4]))], its arguments evaluated left to right. *)
Definition Car_of_parts (parts : list str) : res Car :=
  p0 <~ getitem parts 0 ;;
  p1 <~ getitem parts 1 ;;
  m <~ int p1 ;;
  p2 <~ getitem parts 2 ;;
  p <~ Decimal_ p2 ;;
  p3 <~ getitem parts 3 ;;
  d <~ datetime_fromisoformat p3 ;;
  p4 <~ getitem parts 4 ;;
  s <~ CarStatus_ p4 ;;
  Ok (mkCar p0 m p d s).

(** [f'{car.vin}|{car.model}|{price_str}|{date_str}|{status_str}']. *)
Definition Car_data (car : Car) : str :=
  join PIPE [vin car; str_of_int (model car); str_of_Decimal (price car);
             isoformat (date_start car); value (status car)].

(** [f'{model.id}|{model.name}|{model.brand}']. *)
Definition Model_data (m : Model) : str :=
  join PIPE [str_of_int (id m); name m; brand m].

(** [f'{sale.sales_number}|{sale.car_vin}|{cost_str}|{date_str}']. *)
Definition Sale_data (sale : Sale) : str :=
  join PIPE [sales_number sale; car_vin sale; str_of_Decimal (cost sale);
             isoformat (sales_date sale)].

Definition set_status (car : Car) (s : CarStatus) : Car :=
  mkCar (vin car) (model car) (price car) (date_start car) s.

Definition set_vin (car : Car) (v : str) : Car :=
  mkCar v (model car) (price car) (date_start car) (status car).

(** [not s.strip()]. *)
Definition is_blank (s : str) : bool :=
  match strip s with [] => true | _ => false end.

Definition DELETED_ : str := lit "DELETED_".

(** *** add_model *)

Definition add_model (model : Model) : M Model :=
  index <- gets (fun st => _load_index st models_index_txt) ;;
  let model_key := Model_index model in
  if dict_mem str_eqb index model_key then raise (ValueError DuplicateKey)
  else
    let model_data := Model_data model in
    if LINE_DATA_LENGTH <? length model_data
    then raise (ValueError LengthExceeded)
    else
      line_number <- _append_fixed_length_line models_txt model_data ;;
      let index := dict_set str_eqb index model_key line_number in
      _save_index models_index_txt index ;;
      ret model.

(** *** add_car *)

Definition add_car (car : Car) : M Car :=
  cars_index <- gets (fun st => _load_index st cars_index_txt) ;;
  let car_key := Car_index car in
  if dict_mem str_eqb cars_index car_key then raise (ValueError DuplicateKey)
  else
    models_index <- gets (fun st => _load_index st models_index_txt) ;;
    let model_key := str_of_int (model car) in
    if negb (dict_mem str_eqb models_index model_key)
    then raise (ValueError ReferenceNotFound)
    else
      let car_data := Car_data car in
      if LINE_DATA_LENGTH <? length car_data
      then raise (ValueError LengthExceeded)
      else
        line_number <- _append_fixed_length_line cars_txt car_data ;;
        let cars_index := dict_set str_eqb cars_index car_key line_number in
        _save_index cars_index_txt cars_index ;;
        ret car.

(** *** sell_car *)

Definition sell_car (sale : Sale) : M Car :=
  sales_index <- gets (fun st => _load_index st sales_index_txt) ;;
  let sale_data := Sale_data sale in
  if LINE_DATA_LENGTH <? length sale_data
  then raise (ValueError LengthExceeded)
  else
    sale_line_number <- _append_fixed_length_line sales_txt sale_data ;;
    let sales_index :=
      dict_set str_eqb sales_index (Sale_index sale) sale_line_number in
    _save_index sales_index_txt sales_index ;;
    cars_index <- gets (fun st => _load_index st cars_index_txt) ;;
    match dict_get str_eqb cars_index (car_vin sale) with
    | None => raise (ValueError NotFound)
    | Some car_line_number =>
        car_data_str <-
          reads (fun st =>
                   _read_fixed_length_line st cars_txt car_line_number) ;;
        let parts := split PIPE car_data_str in
        car <- reads (fun _ => Car_of_parts parts) ;;
        if CarStatus_eqb (status car) sold
        then raise (ValueError InvalidState)
        else
          let car := set_status car sold in
          let updated_car_data := Car_data car in
          if LINE_DATA_LENGTH <? length updated_car_data
          then raise (ValueError LengthExceeded)
          else
            _write_fixed_length_line cars_txt car_line_number
                                     updated_car_data ;;
            ret car
    end.

(** *** get_cars *)

(** The body of the [try] of the scan: [Ok None] is [continue] or a car
    of another status, [Ok (Some car)] is [result_cars.append(car)]. *)
Definition get_cars_try (st : Store) (status_ : CarStatus)
  (line_number : nat) : res (option Car) :=
  car_data_str <~ _read_fixed_length_line st cars_txt line_number ;;
  if is_blank car_data_str then Ok None
  else
    let parts := split PIPE car_data_str in
    if negb (length parts =? 5) then Ok None
    else
      car <~ Car_of_parts parts ;;
      if CarStatus_eqb (status car) status_ then Ok (Some car)
      else Ok None.

(** [except (ValueError, IndexError, AttributeError): continue]. *)
Fixpoint get_cars_loop (st : Store) (status_ : CarStatus)
  (lines : list nat) (result_cars : list Car) : res (list Car) :=
  match lines with
  | [] => Ok result_cars
  | line_number :: lines' =>
      match get_cars_try st status_ line_number with
      | Ok (Some car) =>
          get_cars_loop st status_ lines' (result_cars ++ [car])
      | Ok None => get_cars_loop st status_ lines' result_cars
      | Raise e =>
          if is_ValueError e || is_IndexError e
          then get_cars_loop st status_ lines' result_cars
          else Raise e
      end
  end.

Definition get_cars (st : Store) (status_ : CarStatus) : res (list Car) :=
  if negb (path_exists st cars_txt) then Ok []
  else
    let total_lines := _get_file_line_count st cars_txt in
    get_cars_loop st status_ (seq 0 total_lines) [].

(** *** get_car_info *)

(** One iteration of the scan of the sale file: the two variables
    [sales_date] and [sales_cost] are the state of the loop. *)
Definition info_scan_body (st : Store) (vin_ : str)
  (vars : option datetime * option Decimal) (line_num : nat)
  : step (option datetime * option Decimal) :=
  match _read_fixed_length_line st sales_txt line_num with
  | Raise e =>
      if is_ValueError e || is_IndexError e then Continue vars else Abort e
  | Ok sale_data_str =>
      if is_blank sale_data_str then Continue vars
      else
        let sale_parts := split PIPE sale_data_str in
        if negb (length sale_parts =? 4) then Continue vars
        else if str_eqb (nth 1 sale_parts []) vin_ then
          match Decimal_of_str (nth 2 sale_parts []) with
          | None => Abort InvalidOperation
          | Some c =>
              (* [sales_cost] is assigned before the date is parsed *)
              match fromisoformat (nth 3 sale_parts []) with
              | None => Continue (fst vars, Some c)
              | Some d => Break (Some d, Some c)
              end
          end
        else Continue vars
  end.

Fixpoint info_scan (st : Store) (vin_ : str) (lines : list nat)
  (vars : option datetime * option Decimal)
  : res (option datetime * option Decimal) :=
  match lines with
  | [] => Ok vars
  | line_num :: lines' =>
      match info_scan_body st vin_ vars line_num with
      | Continue vars' => info_scan st vin_ lines' vars'
      | Break vars' => Ok vars'
      | Abort e => Raise e
      end
  end.

Definition get_car_info (st : Store) (vin_ : str)
  : res (option CarFullInfo) :=
  let cars_index := _load_index st cars_index_txt in
  match dict_get str_eqb cars_index vin_ with
  | None => Ok None
  | Some car_line_number =>
      match _read_fixed_length_line st cars_txt car_line_number with
      | Raise e =>
          if is_FileNotFoundError e || is_ValueError e then Ok None
          else Raise e
      | Ok car_data_str =>
          let parts := split PIPE car_data_str in
          if negb (length parts =? 5) then Ok None
          else
            car <~ Car_of_parts parts ;;
            let models_index := _load_index st models_index_txt in
            match dict_get str_eqb models_index (str_of_int (model car)) with
            | None => Ok None
            | Some model_line_number =>
                match _read_fixed_length_line st models_txt
                                              model_line_number with
                | Raise e =>
                    if is_FileNotFoundError e || is_ValueError e
                    then Ok None else Raise e
                | Ok model_data_str =>
                    let model_parts := split PIPE model_data_str in
                    if negb (length model_parts =? 3) then Ok None
                    else
                      model_id <~ int (nth 0 model_parts []) ;;
                      let model_ :=
                        mkModel model_id (nth 1 model_parts [])
                                (nth 2 model_parts []) in
                      vars <~
                        (if CarStatus_eqb (status car) sold then
                           if path_exists st sales_txt then
                             let total_sales_lines :=
                               _get_file_line_count st sales_txt in
                             info_scan st vin_ (seq 0 total_sales_lines)
                                       (None, None)
                           else Ok (None, None)
                         else Ok (None, None)) ;;
                      Ok (Some (mkCarFullInfo
                                  (vin car) (name model_) (brand model_)
                                  (price car) (date_start car) (status car)
                                  (fst vars) (snd vars)))
                end
            end
      end
  end.

(** *** update_vin *)

(** [try: ... = self._read_fixed_length_line(...)
     except (FileNotFoundError, ValueError): raise ValueError(...)]. *)
Definition read_or_fail (st : Store) (p : RecPath) (line_number : nat)
  : res str :=
  match _read_fixed_length_line st p line_number with
  | Ok s => Ok s
  | Raise e =>
      if is_FileNotFoundError e || is_ValueError e
      then Raise (ValueError ReadFailed) else Raise e
  end.

(** [for key in sorted(cars_index.keys()):
       sorted_index[key] = cars_index[key]]; every [key] is a key of
    [cars_index], so the subscript finds it. *)
Definition sort_index (cars_index : Index) : Index :=
  fold_left
    (fun sorted_index k =>
       match dict_get str_eqb cars_index k with
       | Some v => dict_set str_eqb sorted_index k v
       | None => sorted_index
       end)
    (sorted (dict_keys cars_index)) [].

Definition update_vin (vin_ new_vin : str) : M Car :=
  cars_index <- gets (fun st => _load_index st cars_index_txt) ;;
  if dict_mem str_eqb cars_index new_vin then raise (ValueError DuplicateKey)
  else
    match dict_get str_eqb cars_index vin_ with
    | None => raise (ValueError NotFound)
    | Some car_line_number =>
        car_data_str <-
          reads (fun st => read_or_fail st cars_txt car_line_number) ;;
        let parts := split PIPE car_data_str in
        if negb (length parts =? 5) then raise (ValueError Corrupt)
        else
          car <- reads (fun _ => Car_of_parts parts) ;;
          let car := set_vin car new_vin in
          let updated_car_data := Car_data car in
          if LINE_DATA_LENGTH <? length updated_car_data
          then raise (ValueError LengthExceeded)
          else
            _write_fixed_length_line cars_txt car_line_number
                                     updated_car_data ;;
            let cars_index := dict_del str_eqb cars_index vin_ in
            let cars_index :=
              dict_set str_eqb cars_index new_vin car_line_number in
            let sorted_index := sort_index cars_index in
            _save_index cars_index_txt sorted_index ;;
            ret car
    end.

(** *** revert_sale *)

(** The variables the scan of [revert_sale] assigns. *)
Record SaleVars : Type := mkSaleVars {
  sale_found : bool;
  sale_line_number : option nat;
  sale_vin : option str;
  sale_cost : option Decimal;
  sale_date : option datetime
}.

Definition revert_scan_body (st : Store) (sales_number_ : str)
  (vars : SaleVars) (line_num : nat) : step SaleVars :=
  match _read_fixed_length_line st sales_txt line_num with
  | Raise e =>
      if is_ValueError e || is_IndexError e then Continue vars else Abort e
  | Ok sale_data_str =>
      if is_blank sale_data_str then Continue vars
      else
        let parts := split PIPE sale_data_str in
        if negb (length parts =? 4) then Continue vars
        else if startswith (nth 0 parts []) DELETED_ then Continue vars
        else if str_eqb (nth 0 parts []) sales_number_ then
          match Decimal_of_str (nth 2 parts []) with
          | None => Abort InvalidOperation
          | Some c =>
              (* the assignments before the date is parsed stay *)
              let vars' :=
                mkSaleVars true (Some line_num) (Some (nth 1 parts []))
                           (Some c) (sale_date vars) in
              match fromisoformat (nth 3 parts []) with
              | None => Continue vars'
              | Some d =>
                  Break (mkSaleVars true (Some line_num)
                                    (Some (nth 1 parts [])) (Some c)
                                    (Some d))
              end
          end
        else Continue vars
  end.

Fixpoint revert_scan (st : Store) (sales_number_ : str) (lines : list nat)
  (vars : SaleVars) : res SaleVars :=
  match lines with
  | [] => Ok vars
  | line_num :: lines' =>
      match revert_scan_body st sales_number_ vars line_num with
      | Continue vars' => revert_scan st sales_number_ lines' vars'
      | Break vars' => Ok vars'
      | Abort e => Raise e
      end
  end.

(** [f'DELETED_{sales_number}|{sale_vin}|{sale_cost}|{sale_date.isoformat()}']. *)
Definition deleted_sale_data (sales_number_ sale_vin_ : str)
  (sale_cost_ : Decimal) (sale_date_ : datetime) : str :=
  join PIPE [DELETED_ ++ sales_number_; sale_vin_;
             str_of_Decimal sale_cost_; isoformat sale_date_].

Definition revert_sale (sales_number_ : str) : M Car :=
  present <- gets (fun st => path_exists st sales_txt) ;;
  if negb present then raise (ValueError NotFound)
  else
    total_sales_lines <-
      gets (fun st => _get_file_line_count st sales_txt) ;;
    vars <-
      reads (fun st =>
               revert_scan st sales_number_ (seq 0 total_sales_lines)
                           (mkSaleVars false None None None None)) ;;
    if negb (sale_found vars) then raise (ValueError NotFound)
    else
      match sale_line_number vars, sale_vin vars,
            sale_cost vars, sale_date vars with
      | None, _, _, _ => raise (ValueError Corrupt)
      | _, None, _, _ => raise (ValueError Corrupt)
      | _, _, None, _ => raise (ValueError Corrupt)
      | _, _, _, None => raise (ValueError Corrupt)
      | Some sale_line_number_, Some sale_vin_,
        Some sale_cost_, Some sale_date_ =>
          cars_index <- gets (fun st => _load_index st cars_index_txt) ;;
          match dict_get str_eqb cars_index sale_vin_ with
          | None => raise (ValueError NotFound)
          | Some car_line_number =>
              car_data_str <-
                reads (fun st =>
                         read_or_fail st cars_txt car_line_number) ;;
              let parts := split PIPE car_data_str in
              if negb (length parts =? 5) then raise (ValueError Corrupt)
              else
                car <- reads (fun _ => Car_of_parts parts) ;;
                if negb (CarStatus_eqb (status car) sold)
                then raise (ValueError InvalidState)
                else
                  let deleted :=
                    deleted_sale_data sales_number_ sale_vin_
                                      sale_cost_ sale_date_ in
                  if LINE_DATA_LENGTH <? length deleted
                  then raise (ValueError LengthExceeded)
                  else
                    _write_fixed_length_line sales_txt sale_line_number_
                                             deleted ;;
                    sales_index <-
                      gets (fun st => _load_index st sales_index_txt) ;;
                    (if dict_mem str_eqb sales_index sale_vin_
                     then _save_index sales_index_txt
                                      (dict_del str_eqb sales_index sale_vin_)
                     else ret tt) ;;
                    let car := set_status car available in
                    let updated_car_data := Car_data car in
                    if LINE_DATA_LENGTH <? length updated_car_data
                    then raise (ValueError LengthExceeded)
                    else
                      _write_fixed_length_line cars_txt car_line_number
                                               updated_car_data ;;
                      ret car
          end
      end.

(** *** top_models_by_sales *)

(** The two dictionaries of the scan: [model_sales_count] and
    [model_total_price]. *)
Definition Counts := dict Z nat.
Definition Totals := dict Z Decimal.

(** [d.get(k, default)]. *)
Definition get_default {K V} (eqb : K -> K -> bool) (d : dict K V) (k : K)
  (default : V) : V :=
  match dict_get eqb d k with Some v => v | None => default end.

(** The body of the [try] of the scan; [Ok None] is [continue]. *)
Definition top_scan_try (st : Store) (cars_index : Index)
  (vars : Counts * Totals) (line_num : nat) : res (option (Counts * Totals)) :=
  sale_data_str <~ _read_fixed_length_line st sales_txt line_num ;;
  let is_empty := is_blank sale_data_str in
  let is_deleted := startswith sale_data_str DELETED_ in
  if is_empty || is_deleted then Ok None
  else
    let parts := split PIPE sale_data_str in
    if negb (length parts =? 4) then Ok None
    else
      let car_vin_ := nth 1 parts [] in
      sale_price <~ Decimal_ (nth 2 parts []) ;;
      match dict_get str_eqb cars_index car_vin_ with
      | None => Ok None
      | Some car_line_number =>
          car_data_str <~
            _read_fixed_length_line st cars_txt car_line_number ;;
          let car_parts := split PIPE car_data_str in
          if length car_parts <? 2 then Ok None
          else
            model_id <~ int (nth 1 car_parts []) ;;
            let model_sales_count := fst vars in
            let model_total_price := snd vars in
            let current_count :=
              get_default Z.eqb model_sales_count model_id 0 in
            let model_sales_count :=
              dict_set Z.eqb model_sales_count model_id (current_count + 1) in
            let model_total_price :=
              dict_set Z.eqb model_total_price model_id
                (Decimal_add
                   (get_default Z.eqb model_total_price model_id Decimal_zero)
                   sale_price) in
            Ok (Some (model_sales_count, model_total_price))
      end.

(** [except (ValueError, IndexError): continue]. *)
Fixpoint top_scan (st : Store) (cars_index : Index) (lines : list nat)
  (vars : Counts * Totals) : res (Counts * Totals) :=
  match lines with
  | [] => Ok vars
  | line_num :: lines' =>
      match top_scan_try st cars_index vars line_num with
      | Ok (Some vars') => top_scan st cars_index lines' vars'
      | Ok None => top_scan st cars_index lines' vars
      | Raise e =>
          if is_ValueError e || is_IndexError e
          then top_scan st cars_index lines' vars
          else Raise e
      end
  end.

(** The list [models_for_sorting] of triples
    [(model_id, sales_count, avg_price)]. *)
Definition models_for_sorting (vars : Counts * Totals)
  : list (Z * nat * Decimal) :=
  map (fun item : Z * nat =>
         let model_id := fst item in
         let sales_count := snd item in
         let total_price :=
           get_default Z.eqb (snd vars) model_id Decimal_zero in
         let avg_price :=
           if 0 <? sales_count then Decimal_div_int total_price sales_count
           else Decimal_zero in
         (model_id, sales_count, avg_price))
      (fst vars).

(** The "less than" of the sort keys [(x[1], x[2])]: tuples compare at
    the first position where they differ. *)
Definition key_ltb (x y : Z * nat * Decimal) : bool :=
  let '(_, c1, a1) := x in
  let '(_, c2, a2) := y in
  if c1 =? c2 then
    if Decimal_eqb a1 a2 then false else Decimal_ltb a1 a2
  else c1 <? c2.

(** The loop that resolves the model of each of the top entries. *)
Fixpoint top_resolve (st : Store) (models_index : Index)
  (top_models : list (Z * nat * Decimal)) (result : list ModelSaleStats)
  : res (list ModelSaleStats) :=
  match top_models with
  | [] => Ok result
  | (model_id, sales_count, _) :: rest =>
      match dict_get str_eqb models_index (str_of_int model_id) with
      | None => top_resolve st models_index rest result
      | Some model_line_number =>
          match _read_fixed_length_line st models_txt model_line_number with
          | Raise e =>
              if is_ValueError e || is_IndexError e
              then top_resolve st models_index rest result
              else Raise e
          | Ok model_data_str =>
              let model_parts := split PIPE model_data_str in
              if negb (length model_parts =? 3)
              then top_resolve st models_index rest result
              else
                top_resolve st models_index rest
                  (result ++ [mkModelSaleStats (nth 1 model_parts [])
                                               (nth 2 model_parts [])
                                               sales_count])
          end
      end
  end.

Definition top_models_by_sales (st : Store) : res (list ModelSaleStats) :=
  let cars_index := _load_index st cars_index_txt in
  if negb (path_exists st sales_txt) then Ok []
  else
    let total_sales_lines := _get_file_line_count st sales_txt in
    vars <~ top_scan st cars_index (seq 0 total_sales_lines) ([], []) ;;
    let sorted_models :=
      stable_sort_reverse key_ltb (models_for_sorting vars) in
    let top_models := firstn 3 sorted_models in
    let models_index := _load_index st models_index_txt in
    top_resolve st models_index top_models [].
End Repository.

(** ** The vocabulary of the statements

    Stores and values the properties below speak of: the store a write
    leaves behind, the outcome of an operation path by path, and what the
    scans compute, said on lists. *)

(** The content of a record file, empty when the file is absent. *)
Definition content_of (st : Store) (p : RecPath) : File :=
  match get_file st p with Some c => c | None => [] end.

(** The fixed-width block of a record. *)
Definition block (data : str) : str := ljust data LINE_DATA_LENGTH ++ [LF].

(** The store after record [n] of file [p] was written with [data]. *)
Definition put_line (st : Store) (p : RecPath) (n : nat) (data : str)
  : Store :=
  set_file st p (write_at (content_of st p) (n * LINE_TOTAL_LENGTH)
                          (block data)).

(** The record file an index file describes. *)
Definition rec_of (i : IdxPath) : RecPath :=
  match i with
  | models_index_txt => models_txt
  | cars_index_txt => cars_txt
  | sales_index_txt => sales_txt
  end.

(** The store after [data] is appended to [p] and saved in the index [i]
    under [k]. *)
Definition inserted (st : Store) (p : RecPath) (i : IdxPath) (k data : str)
  : Store :=
  let n := _get_file_line_count st p in
  set_index_file (put_line st p n data) i
                 (dict_set str_eqb (_load_index st i) k n).

(** Every value stored in an index file is less than the line count of the
    record file the index describes. *)
Definition records_in_range (st : Store) : Prop :=
  forall (i : IdxPath) (kv : str * nat),
    In kv (get_index_file st i) ->
    snd kv < _get_file_line_count st (rec_of i).

(** The entries of [d] under the keys [ks], in the order of [ks]. *)
Definition entries_of (d : Index) (ks : list str) : Index :=
  flat_map (fun k => match dict_get str_eqb d k with
                     | Some v => [(k, v)]
                     | None => []
                     end) ks.

(** The car index [update_vin] saves. *)
Definition renamed_index (cars_index : Index) (vin_ new_vin : str) (n : nat)
  : Index :=
  sort_index (dict_set str_eqb (dict_del str_eqb cars_index vin_) new_vin n).

(** The library's order of decimals, on numbers: "less than" is a strict
    weak order and two decimals are equal when neither is less. *)
Class DecimalOrder `{PyLib} : Prop := {
  Decimal_ltb_asym :
    forall a b, Decimal_ltb a b = true -> Decimal_ltb b a = false;
  Decimal_ngt_trans :
    forall a b c,
      Decimal_ltb b a = false -> Decimal_ltb c b = false ->
      Decimal_ltb c a = false;
  Decimal_eqb_ltb :
    forall a b,
      Decimal_eqb a b = true
      <-> Decimal_ltb a b = false /\ Decimal_ltb b a = false
}.

Section Vocabulary.
Context {lib : PyLib} {enum : CarStatusEnum} {key : SaleKey}.

(** The store once the sale is appended and its index entry saved. *)
Definition sale_recorded (sale : Sale) (st : Store) : Store :=
  let n := _get_file_line_count st sales_txt in
  set_index_file (put_line st sales_txt n (Sale_data sale)) sales_index_txt
    (dict_set str_eqb (_load_index st sales_index_txt) (Sale_index sale) n).

(** The paths of [sell_car], one line each. *)
Definition sell_car_paths (sale : Sale) (st : Store) : res Car * Store :=
  if LINE_DATA_LENGTH <? length (Sale_data sale)
  then (Raise (ValueError LengthExceeded), st)
  else
    let st1 := sale_recorded sale st in
    match dict_get str_eqb (_load_index st cars_index_txt) (car_vin sale) with
    | None => (Raise (ValueError NotFound), st1)
    | Some n =>
        match _read_fixed_length_line st cars_txt n with
        | Raise e => (Raise e, st1)
        | Ok line =>
            match Car_of_parts (split PIPE line) with
            | Raise e => (Raise e, st1)
            | Ok car =>
                if CarStatus_eqb (status car) sold
                then (Raise (ValueError InvalidState), st1)
                else if LINE_DATA_LENGTH
                        <? length (Car_data (set_status car sold))
                then (Raise (ValueError LengthExceeded), st1)
                else (Ok (set_status car sold),
                      put_line st1 cars_txt n
                               (Car_data (set_status car sold)))
            end
        end
    end.

(** The paths of [update_vin]. *)
Definition update_vin_paths (vin_ new_vin : str) (st : Store)
  : res Car * Store :=
  let cars_index := _load_index st cars_index_txt in
  if dict_mem str_eqb cars_index new_vin
  then (Raise (ValueError DuplicateKey), st)
  else
    match dict_get str_eqb cars_index vin_ with
    | None => (Raise (ValueError NotFound), st)
    | Some n =>
        match read_or_fail st cars_txt n with
        | Raise e => (Raise e, st)
        | Ok line =>
            if negb (length (split PIPE line) =? 5)
            then (Raise (ValueError Corrupt), st)
            else
              match Car_of_parts (split PIPE line) with
              | Raise e => (Raise e, st)
              | Ok car =>
                  if LINE_DATA_LENGTH <? length (Car_data (set_vin car new_vin))
                  then (Raise (ValueError LengthExceeded), st)
                  else
                    (Ok (set_vin car new_vin),
                     set_index_file
                       (put_line st cars_txt n
                                 (Car_data (set_vin car new_vin)))
                       cars_index_txt
                       (renamed_index cars_index vin_ new_vin n))
              end
        end
    end.

(** The paths of [add_model]. *)
Definition add_model_paths (m : Model) (st : Store) : res Model * Store :=
  if dict_mem str_eqb (_load_index st models_index_txt) (Model_index m)
  then (Raise (ValueError DuplicateKey), st)
  else if LINE_DATA_LENGTH <? length (Model_data m)
  then (Raise (ValueError LengthExceeded), st)
  else (Ok m,
        inserted st models_txt models_index_txt (Model_index m)
                 (Model_data m)).

(** The paths of [add_car]. *)
Definition add_car_paths (c : Car) (st : Store) : res Car * Store :=
  if dict_mem str_eqb (_load_index st cars_index_txt) (Car_index c)
  then (Raise (ValueError DuplicateKey), st)
  else if negb (dict_mem str_eqb (_load_index st models_index_txt)
                         (str_of_int (model c)))
  then (Raise (ValueError ReferenceNotFound), st)
  else if LINE_DATA_LENGTH <? length (Car_data c)
  then (Raise (ValueError LengthExceeded), st)
  else (Ok c, inserted st cars_txt cars_index_txt (Car_index c) (Car_data c)).

(** The store [revert_sale] leaves once the sale found at record [ln],
    for the car [v], is rewritten with the deletion marker. *)
Definition sale_deleted (st : Store) (sales_number_ v : str) (ln : nat)
  (c : Decimal) (d : datetime) : Store :=
  let st1 := put_line st sales_txt ln (deleted_sale_data sales_number_ v c d) in
  let sales_index := _load_index st sales_index_txt in
  if dict_mem str_eqb sales_index v
  then set_index_file st1 sales_index_txt (dict_del str_eqb sales_index v)
  else st1.

(** The paths of [revert_sale]. *)
Definition revert_sale_paths (sales_number_ : str) (st : Store)
  : res Car * Store :=
  if negb (path_exists st sales_txt) then (Raise (ValueError NotFound), st)
  else
    match revert_scan st sales_number_
                      (seq 0 (_get_file_line_count st sales_txt))
                      (mkSaleVars false None None None None) with
    | Raise e => (Raise e, st)
    | Ok vars =>
        if negb (sale_found vars) then (Raise (ValueError NotFound), st)
        else
          match sale_line_number vars, sale_vin vars,
                sale_cost vars, sale_date vars with
          | None, _, _, _ => (Raise (ValueError Corrupt), st)
          | _, None, _, _ => (Raise (ValueError Corrupt), st)
          | _, _, None, _ => (Raise (ValueError Corrupt), st)
          | _, _, _, None => (Raise (ValueError Corrupt), st)
          | Some ln, Some v, Some c, Some d =>
              match dict_get str_eqb (_load_index st cars_index_txt) v with
              | None => (Raise (ValueError NotFound), st)
              | Some m =>
                  match read_or_fail st cars_txt m with
                  | Raise e => (Raise e, st)
                  | Ok line =>
                      if negb (length (split PIPE line) =? 5)
                      then (Raise (ValueError Corrupt), st)
                      else
                        match Car_of_parts (split PIPE line) with
                        | Raise e => (Raise e, st)
                        | Ok car =>
                            if negb (CarStatus_eqb (status car) sold)
                            then (Raise (ValueError InvalidState), st)
                            else if LINE_DATA_LENGTH
                                    <? length (deleted_sale_data
                                                 sales_number_ v c d)
                            then (Raise (ValueError LengthExceeded), st)
                            else
                              let st2 :=
                                sale_deleted st sales_number_ v ln c d in
                              if LINE_DATA_LENGTH
                                 <? length (Car_data
                                              (set_status car available))
                              then (Raise (ValueError LengthExceeded), st2)
                              else
                                (Ok (set_status car available),
                                 put_line st2 cars_txt m
                                   (Car_data (set_status car available)))
                        end
                  end
              end
          end
    end.

(** The car record [n] of the car file stands for: none for a blank
    record, a record that has not five fields and a record with a field
    that does not parse. *)
Definition stored_car (st : Store) (n : nat) : option Car :=
  match _read_fixed_length_line st cars_txt n with
  | Ok line =>
      if is_blank line then None
      else if length (split PIPE line) =? 5 then
        match Car_of_parts (split PIPE line) with
        | Ok car => Some car
        | Raise _ => None
        end
      else None
  | Raise _ => None
  end.

(** The cars of the records [lines] that have the status [status_], in the
    order of [lines]. *)
Definition cars_with_status (st : Store) (status_ : CarStatus)
  (lines : list nat) : list Car :=
  flat_map (fun n =>
              match stored_car st n with
              | Some car =>
                  if CarStatus_eqb (status car) status_ then [car] else []
              | None => []
              end) lines.

(** What a record of the sale file adds to the statistics: the model id of
    the car it sells and its cost; [Ok None] for a record the scan passes
    over. *)
Definition counted_sale (st : Store) (cars_index : Index) (line_num : nat)
  : res (option (Z * Decimal)) :=
  sale_data_str <~ _read_fixed_length_line st sales_txt line_num ;;
  if is_blank sale_data_str || startswith sale_data_str DELETED_ then Ok None
  else
    let parts := split PIPE sale_data_str in
    if negb (length parts =? 4) then Ok None
    else
      sale_price <~ Decimal_ (nth 2 parts []) ;;
      match dict_get str_eqb cars_index (nth 1 parts []) with
      | None => Ok None
      | Some car_line_number =>
          car_data_str <~
            _read_fixed_length_line st cars_txt car_line_number ;;
          let car_parts := split PIPE car_data_str in
          if length car_parts <? 2 then Ok None
          else
            model_id <~ int (nth 1 car_parts []) ;;
            Ok (Some (model_id, sale_price))
      end.

(** One more sale of model [m] at cost [p] in the two dictionaries. *)
Definition add_sale (vars : Counts * Totals) (s : Z * Decimal)
  : Counts * Totals :=
  (dict_set Z.eqb (fst vars) (fst s)
            (get_default Z.eqb (fst vars) (fst s) 0 + 1),
   dict_set Z.eqb (snd vars) (fst s)
            (Decimal_add (get_default Z.eqb (snd vars) (fst s) Decimal_zero)
                         (snd s))).

(** The sales the scan counts, in scan order. *)
Fixpoint live_sales (st : Store) (cars_index : Index) (lines : list nat)
  : list (Z * Decimal) :=
  match lines with
  | [] => []
  | line_num :: lines' =>
      match counted_sale st cars_index line_num with
      | Ok (Some s) => s :: live_sales st cars_index lines'
      | _ => live_sales st cars_index lines'
      end
  end.

(** The statistics of a list of sales: how many are of model [m], what
    their costs add up to from [Decimal("0")] in the order of the list, and
    the quotient of the two. *)
Definition sold_count (sales : list (Z * Decimal)) (m : Z) : nat :=
  length (filter (fun s => Z.eqb (fst s) m) sales).

Definition sold_total (sales : list (Z * Decimal)) (m : Z) : Decimal :=
  fold_left Decimal_add (map snd (filter (fun s => Z.eqb (fst s) m) sales))
            Decimal_zero.

Definition average (sales : list (Z * Decimal)) (m : Z) : Decimal :=
  Decimal_div_int (sold_total sales m) (sold_count sales m).

(** A candidate ranks before another when it has more sales, or as many
    and an average cost that is not less. *)
Definition ranks_before (x y : Z * nat * Decimal) : Prop :=
  snd (fst y) < snd (fst x)
  \/ (snd (fst x) = snd (fst y) /\ Decimal_ltb (snd x) (snd y) = false).

(** The name and brand the model index and the model file give for a
    model id; [None] when the index has no entry or the record has not
    three fields. *)
Definition model_record (st : Store) (m : Z) : option (str * str) :=
  match dict_get str_eqb (_load_index st models_index_txt) (str_of_int m) with
  | None => None
  | Some n =>
      match _read_fixed_length_line st models_txt n with
      | Ok line =>
          let model_parts := split PIPE line in
          if length model_parts =? 3
          then Some (nth 1 model_parts [], nth 2 model_parts [])
          else None
      | Raise _ => None
      end
  end.

Definition resolved (st : Store) (top : list (Z * nat * Decimal))
  : list ModelSaleStats :=
  flat_map (fun x =>
              match model_record st (fst (fst x)) with
              | Some (name_, brand_) =>
                  [mkModelSaleStats name_ brand_ (snd (fst x))]
              | None => []
              end) top.
End Vocabulary.

(** [c in s]. *)
Definition has (c : ascii) (s : str) : bool := existsb (Ascii.eqb c) s.

Section RecordsReadBack.
Context {lib : PyLib} {enum : CarStatusEnum} {key : SaleKey}.

(** The record of the car, once stored, is read and parsed back as the
    car: it has no carriage return, which a read would translate, no white
    space at its end, which a read would strip, and its five fields are
    the car's. *)
Definition reads_back (car : Car) : Prop :=
  has CR (Car_data car) = false
  /\ rstrip (Car_data car) = Car_data car
  /\ length (split PIPE (Car_data car)) = 5
  /\ Car_of_parts (split PIPE (Car_data car)) = Ok car.

(** The same for the record of a model, as [get_car_info] parses it. *)
Definition model_reads_back (m : Model) : Prop :=
  has CR (Model_data m) = false
  /\ rstrip (Model_data m) = Model_data m
  /\ split PIPE (Model_data m) = [str_of_int (id m); name m; brand m]
  /\ int_of_str (str_of_int (id m)) = Some (id m).

(** The same for the record of a sale, as [revert_sale] parses it; the
    sale number does not start with the deletion marker. *)
Definition sale_reads_back (sale : Sale) : Prop :=
  has CR (Sale_data sale) = false
  /\ rstrip (Sale_data sale) = Sale_data sale
  /\ is_blank (Sale_data sale) = false
  /\ split PIPE (Sale_data sale)
     = [sales_number sale; car_vin sale; str_of_Decimal (cost sale);
        isoformat (sales_date sale)]
  /\ startswith (sales_number sale) DELETED_ = false
  /\ Decimal_of_str (str_of_Decimal (cost sale)) = Some (cost sale)
  /\ fromisoformat (isoformat (sales_date sale)) = Some (sales_date sale).

(** The joined view with another VIN. *)
Definition set_info_vin (info : CarFullInfo) (v : str) : CarFullInfo :=
  mkCarFullInfo v (info_car_model_name info) (info_car_model_brand info)
                (info_price info) (info_date_start info) (info_status info)
                (info_sales_date info) (info_sales_cost info).
End RecordsReadBack.

(** ** A small instance of the library, to run the service

    Plain literals only: the constructors accept fewer texts than Python's
    do, and agree with Python on the texts they accept.  Sums and averages
    are exact rationals, which is what the library computes as long as the
    result has no more than the 28 digits of its default context; the
    service never prints them. *)

Module Plain.

(** Decimal digits. *)
Definition is_digit (c : ascii) : bool :=
  let n := nat_of_ascii c in (48 <=? n) && (n <=? 57).

Definition all_digits (s : str) : bool :=
  negb (length s =? 0) && forallb is_digit s.

Definition N_of_digits (s : str) : N :=
  fold_left (fun acc c => 10 * acc + (N_of_ascii c - 48))%N s 0%N.

Definition nat_of_digits (s : str) : nat := N.to_nat (N_of_digits s).

Definition digits_of_N (n : N) : str :=
  lit (NilZero.string_of_uint (N.to_uint n)).

(** [k] digits, zero-padded on the left. *)
Definition zfill (s : str) (k : nat) : str :=
  repeat "0"%char (k - length s) ++ s.

(** A decimal is a rational and the number of places it prints with:
    [digits] or [digits.digits] with at most six places, the texts
    [str] prints in positional notation. *)
Record Dec : Type := mkDec { dval : Q; places : nat }.

Definition Dec_of_str (s : str) : option Dec :=
  match split "."%char s with
  | [ip] =>
      if all_digits ip
      then Some (mkDec (inject_Z (Z.of_N (N_of_digits ip))) 0)
      else None
  | [ip; fp] =>
      if all_digits ip && all_digits fp && (length fp <=? 6)
      then Some (mkDec (Qmake (Z.of_N (N_of_digits (ip ++ fp)))
                              (10 ^ Pos.of_nat (length fp)))
                       (length fp))
      else None
  | _ => None
  end.

Definition str_of_Dec (d : Dec) : str :=
  let unit := (10 ^ N.of_nat (places d))%N in
  let scaled :=
    Z.to_N (Qnum (dval d) * Z.of_N unit / Zpos (Qden (dval d)))%Z in
  let ip := digits_of_N (scaled / unit) in
  if places d =? 0 then ip
  else ip ++ "."%char
          :: zfill (digits_of_N (scaled mod unit)) (places d).

Definition Dec_add (a b : Dec) : Dec :=
  mkDec (Qred (dval a + dval b)%Q) (Nat.max (places a) (places b)).

Definition Dec_div_int (a : Dec) (n : nat) : Dec :=
  mkDec (Qred (dval a / inject_Z (Z.of_nat n))%Q) (places a).

Definition Dec_eqb (a b : Dec) : bool := Qeq_bool (dval a) (dval b).
Definition Dec_ltb (a b : Dec) : bool := negb (Qle_bool (dval b) (dval a)).

(** [int]: an optional minus sign and digits. *)
Definition plain_int_of_str (s : str) : option Z :=
  match s with
  | c :: t =>
      if Ascii.eqb c "-"%char
      then if all_digits t then Some (- Z.of_N (N_of_digits t))%Z
           else None
      else if all_digits s then Some (Z.of_N (N_of_digits s))
           else None
  | [] => None
  end.

Definition plain_str_of_int (n : Z) : str :=
  lit (NilZero.string_of_int (Z.to_int n)).

(** [datetime]: the text [YYYY-MM-DDTHH:MM:SS] that [isoformat] prints
    for a time without microseconds and zone; the value is kept as that
    text. *)
Definition leap (y : nat) : bool :=
  ((y mod 4 =? 0) && negb (y mod 100 =? 0)) || (y mod 400 =? 0).

Definition days_in_month (y m : nat) : nat :=
  match m with
  | 2 => if leap y then 29 else 28
  | 4 | 6 | 9 | 11 => 30
  | _ => 31
  end.

Definition sub (s : str) (from len : nat) : str := firstn len (skipn from s).

Definition iso_ok (s : str) : bool :=
  let y := nat_of_digits (sub s 0 4) in
  let mo := nat_of_digits (sub s 5 2) in
  let d := nat_of_digits (sub s 8 2) in
  let h := nat_of_digits (sub s 11 2) in
  let mi := nat_of_digits (sub s 14 2) in
  let se := nat_of_digits (sub s 17 2) in
  (length s =? 19)
  && forallb is_digit (sub s 0 4 ++ sub s 5 2 ++ sub s 8 2
                       ++ sub s 11 2 ++ sub s 14 2 ++ sub s 17 2)
  && str_eqb (sub s 4 1) (lit "-") && str_eqb (sub s 7 1) (lit "-")
  && str_eqb (sub s 10 1) (lit "T")
  && str_eqb (sub s 13 1) (lit ":") && str_eqb (sub s 16 1) (lit ":")
  && (1 <=? y) && (1 <=? mo) && (mo <=? 12)
  && (1 <=? d) && (d <=? days_in_month y mo)
  && (h <? 24) && (mi <? 60) && (se <? 60).

Definition plain_fromisoformat (s : str) : option str :=
  if iso_ok s then Some s else None.

#[export] Instance lib : PyLib := {|
  Decimal := Dec;
  Decimal_of_str := Dec_of_str;
  str_of_Decimal := str_of_Dec;
  Decimal_zero := mkDec 0%Q 0;
  Decimal_add := Dec_add;
  Decimal_div_int := Dec_div_int;
  Decimal_eqb := Dec_eqb;
  Decimal_ltb := Dec_ltb;
  datetime := str;
  fromisoformat := plain_fromisoformat;
  isoformat := fun d => d;
  int_of_str := plain_int_of_str;
  str_of_int := plain_str_of_int
|}.

(** Modelled from the spec: the enumeration [CarStatus] of [models.py],
    which is not among the sources, with the two tags the specification
    names, [available] and [sold]. *)
Inductive Status : Type := st_available | st_sold.

Definition Status_of_value (s : str) : option Status :=
  if str_eqb s (lit "available") then Some st_available
  else if str_eqb s (lit "sold") then Some st_sold
  else None.

Definition Status_value (s : Status) : str :=
  match s with
  | st_available => lit "available"
  | st_sold => lit "sold"
  end.

Definition Status_eqb (a b : Status) : bool :=
  match a, b with
  | st_available, st_available | st_sold, st_sold => true
  | _, _ => false
  end.

Lemma Status_eqb_spec (a b : Status) : Status_eqb a b = true <-> a = b.
Proof. destruct a, b; simpl; split; congruence. Qed.

#[export] Instance enum : CarStatusEnum := {|
  CarStatus := Status;
  CarStatus_of_value := Status_of_value;
  value := Status_value;
  available := st_available;
  sold := st_sold;
  CarStatus_eqb := Status_eqb;
  CarStatus_eqb_spec := Status_eqb_spec
|}.

(** Modelled from the spec: [Sale.index()] of [models.py], which is not
    among the sources; the specification keys a sale by its sale
    number. *)
#[export] Instance by_number : SaleKey := {|
  Sale_index := fun sale => sales_number sale
|}.

(** The other key a sale can have: the VIN of its car, the key
    [revert_sale] deletes from the sales index. *)
Definition by_vin : SaleKey := {|
  Sale_index := fun sale => car_vin sale
|}.

(** The scenario of the specification. *)
Definition model_x : Model := mkModel 1%Z (lit "Model X") (lit "Tesla").

Definition vin1 : str := lit "5YJ3E1EA7KF000001".

Definition car1 : Car :=
  mkCar vin1 1%Z (mkDec (4200000 # 100) 2)
        (lit "2024-01-01T00:00:00") st_available.

Definition sale1 : Sale :=
  mkSale (lit "S-1") vin1 (lit "2024-02-01T00:00:00")
         (mkDec (4100000 # 100) 2).

(** The record [add_car] stores for [car1]. *)
Definition car1_record : str :=
  lit "5YJ3E1EA7KF000001|1|42000.00|2024-01-01T00:00:00|available".

(** The store an operation leaves behind, and its result. *)
Definition after {A} (m : M A) (st : Store) : Store := snd (m st).
Definition outcome {A} (m : M A) (st : Store) : res A := fst (m st).

Definition st1 : Store := after (add_model model_x) empty_store.
Definition st2 : Store := after (add_car car1) st1.
Definition st3 : Store := after (sell_car sale1) st2.
Definition st4 : Store := after (revert_sale (lit "S-1")) st3.

(** The car is sold again, under a new sale number. *)
Definition sale2 : Sale :=
  mkSale (lit "S-2") vin1 (lit "2024-03-01T00:00:00")
         (mkDec (4000000 # 100) 2).

Definition st5 : Store := after (sell_car sale2) st4.

(** A second car, and a sale of it under the number of the first sale. *)
Definition vin2 : str := lit "5YJ3E1EA7KF000002".

Definition car2 : Car :=
  mkCar vin2 1%Z (mkDec (4300000 # 100) 2)
        (lit "2024-01-02T00:00:00") st_available.

Definition sale1_again : Sale :=
  mkSale (lit "S-1") vin2 (lit "2024-02-02T00:00:00")
         (mkDec (4250000 # 100) 2).

Definition st2' : Store := after (add_car car2) st2.
Definition st3' : Store := after (sell_car sale1) st2'.

(** A sale of the second car whose number is the text of the first car's
    VIN, and the store with both cars sold, the first as "S-1", the sales
    indexed under [key]. *)
Definition sale_numbered_vin1 : Sale :=
  mkSale vin1 vin2 (lit "2024-02-02T00:00:00") (mkDec (4250000 # 100) 2).

Definition sold_both (key : SaleKey) : Store :=
  after (@sell_car lib enum key sale_numbered_vin1)
        (after (@sell_car lib enum key sale1) st2').

(** A car file whose second record has a price that is no number. *)
Definition bad_price_record : str :=
  lit "5YJ3E1EA7KF000002|1|abc|2024-01-02T00:00:00|available".

Definition st_bad_price : Store :=
  after (_write_fixed_length_line cars_txt 1 bad_price_record) st2.

End Plain.

(** * Properties *)

(** ** Text and fixed-width blocks *)

Lemma str_eqb_eq (a b : str) : str_eqb a b = true <-> a = b.
Proof.
  revert b; induction a as [|x a IH]; intros [|y b]; simpl;
    try (split; congruence).
  rewrite andb_true_iff, Ascii.eqb_eq, IH. split.
  - intros [-> ->]; reflexivity.
  - intros E; inversion E; auto.
Qed.

Lemma str_eqb_refl (a : str) : str_eqb a a = true.
Proof. apply str_eqb_eq; reflexivity. Qed.

Lemma str_eqb_neq (a b : str) : str_eqb a b = false <-> a <> b.
Proof.
  rewrite <- str_eqb_eq. destruct (str_eqb a b); split; congruence.
Qed.

Lemma str_eqb_sym (a b : str) : str_eqb a b = str_eqb b a.
Proof.
  destruct (str_eqb a b) eqn:E.
  - apply str_eqb_eq in E; subst; symmetry; apply str_eqb_refl.
  - symmetry; apply str_eqb_neq; apply str_eqb_neq in E; congruence.
Qed.

Lemma lstrip_spaces (k : nat) (t : str) :
  lstrip (repeat SPACE k ++ t) = lstrip t.
Proof. induction k as [|k IH]; simpl; auto. Qed.

Lemma rstrip_spaces (s : str) (k : nat) :
  rstrip (s ++ repeat SPACE k) = rstrip s.
Proof.
  unfold rstrip. rewrite rev_app_distr, rev_repeat, lstrip_spaces.
  reflexivity.
Qed.

Lemma rstrip_ljust (s : str) (w : nat) : rstrip (ljust s w) = rstrip s.
Proof. apply rstrip_spaces. Qed.

Lemma length_ljust (s : str) (w : nat) :
  length s <= w -> length (ljust s w) = w.
Proof. intros Hl. unfold ljust. rewrite length_app, repeat_length. lia. Qed.

Lemma universal_newlines_app (a b : str) :
  ~ In CR a -> universal_newlines (a ++ b) = a ++ universal_newlines b.
Proof.
  induction a as [|c a IH]; intros Hn; [reflexivity|].
  cbn [app universal_newlines].
  destruct (Ascii.eqb c CR) eqn:E.
  - apply Ascii.eqb_eq in E. exfalso; apply Hn; left; auto.
  - rewrite IH; [reflexivity|]. intros Hin; apply Hn; right; exact Hin.
Qed.

Lemma block_no_CR (data : str) (w : nat) :
  ~ In CR data -> ~ In CR (ljust data w ++ [LF]).
Proof.
  intros Hn Hin. unfold ljust in Hin.
  rewrite !in_app_iff in Hin. destruct Hin as [[Hin|Hin]|[Hin|[]]].
  - exact (Hn Hin).
  - apply repeat_spec in Hin. discriminate Hin.
  - discriminate Hin.
Qed.

Lemma length_block (data : str) :
  length data <= LINE_DATA_LENGTH ->
  length (ljust data LINE_DATA_LENGTH ++ [LF]) = LINE_TOTAL_LENGTH.
Proof.
  intros Hl. rewrite length_app, length_ljust by exact Hl. reflexivity.
Qed.

(** The block written at [pos] is what the file holds from [pos] on. *)
Lemma skipn_write_at (content : File) (pos : nat) (block : str) :
  skipn pos (write_at content pos block)
  = block ++ skipn (pos + length block) content.
Proof.
  unfold write_at.
  set (padded := content ++ repeat NUL (pos - length content)).
  assert (Hlen : length (firstn pos padded) = pos).
  { rewrite length_firstn. subst padded.
    rewrite length_app, repeat_length. lia. }
  rewrite skipn_app, Hlen, Nat.sub_diag. cbn [skipn].
  rewrite skipn_all2 by lia. reflexivity.
Qed.

Lemma length_write_at (content : File) (pos : nat) (block : str) :
  length (write_at content pos block)
  = Nat.max (length content) (pos + length block).
Proof.
  unfold write_at.
  rewrite !length_app, length_firstn, length_skipn, length_app, repeat_length.
  lia.
Qed.

(** Outside the block the file is as it was. *)
Lemma firstn_write_at (content : File) (pos : nat) (block : str) :
  pos <= length content ->
  firstn pos (write_at content pos block) = firstn pos content.
Proof.
  intros Hle. unfold write_at.
  replace (pos - length content) with 0 by lia. cbn [repeat].
  rewrite app_nil_r, firstn_app, length_firstn.
  replace (pos - Nat.min pos (length content)) with 0 by lia.
  cbn [firstn]. rewrite app_nil_r, firstn_firstn.
  f_equal. lia.
Qed.

Lemma read_at_write_at (content : File) (n : nat) (data : str) :
  length data <= LINE_DATA_LENGTH ->
  ~ In CR data ->
  read_at (write_at content (n * LINE_TOTAL_LENGTH)
                    (ljust data LINE_DATA_LENGTH ++ [LF]))
          (n * LINE_TOTAL_LENGTH) LINE_DATA_LENGTH
  = ljust data LINE_DATA_LENGTH.
Proof.
  intros Hl Hn. unfold read_at.
  rewrite skipn_write_at.
  rewrite universal_newlines_app by (apply block_no_CR; exact Hn).
  rewrite <- app_assoc, firstn_app.
  rewrite length_ljust by exact Hl. rewrite Nat.sub_diag. cbn [firstn].
  rewrite firstn_all2 by (rewrite length_ljust by exact Hl; lia).
  apply app_nil_r.
Qed.

(** ** The record-file primitives on the store *)

Lemma get_set_file_same (st : Store) (p : RecPath) (c : File) :
  get_file (set_file st p c) p = Some c.
Proof. destruct p; reflexivity. Qed.

Lemma get_set_file_other (st : Store) (p q : RecPath) (c : File) :
  p <> q -> get_file (set_file st p c) q = get_file st q.
Proof. destruct p, q; intros Hne; try reflexivity; congruence. Qed.

Lemma get_index_set_file (st : Store) (p : RecPath) (c : File) (i : IdxPath) :
  get_index_file (set_file st p c) i = get_index_file st i.
Proof. destruct p, i; reflexivity. Qed.

Lemma get_file_set_index (st : Store) (i : IdxPath) (x : IndexFile)
  (p : RecPath) :
  get_file (set_index_file st i x) p = get_file st p.
Proof. destruct p, i; reflexivity. Qed.

Lemma get_set_index_same (st : Store) (i : IdxPath) (x : IndexFile) :
  get_index_file (set_index_file st i x) i = x.
Proof. destruct i; reflexivity. Qed.

Lemma get_set_index_other (st : Store) (i j : IdxPath) (x : IndexFile) :
  i <> j -> get_index_file (set_index_file st i x) j = get_index_file st j.
Proof. destruct i, j; intros Hne; try reflexivity; congruence. Qed.

(** What a write that passes the length check does to the store. *)
Lemma write_line_ok (p : RecPath) (n : nat) (data : str) (st : Store) :
  length data <= LINE_DATA_LENGTH ->
  _write_fixed_length_line p n data st
  = (Ok tt,
     set_file st p
       (write_at (content_of st p) (n * LINE_TOTAL_LENGTH)
                 (ljust data LINE_DATA_LENGTH ++ [LF]))).
Proof.
  intros Hl. unfold _write_fixed_length_line.
  destruct (LINE_DATA_LENGTH <? length data) eqn:E;
    [apply Nat.ltb_lt in E; lia|].
  unfold bind, gets, path_exists, content_of, seek_write, create_empty, ret.
  destruct (get_file st p) as [c|] eqn:G.
  - rewrite G. reflexivity.
  - rewrite get_set_file_same. destruct p, st; simpl in *; reflexivity.
Qed.

Lemma write_line_too_long (p : RecPath) (n : nat) (data : str) (st : Store) :
  LINE_DATA_LENGTH < length data ->
  _write_fixed_length_line p n data st
  = (Raise (ValueError LengthExceeded), st).
Proof.
  intros Hl. unfold _write_fixed_length_line.
  apply Nat.ltb_lt in Hl. rewrite Hl. reflexivity.
Qed.

(** C5, as amended.  A block longer than 500 characters is refused with
    [LengthExceeded] and the store stays as it was.  Otherwise the file
    receives, at offset [n * 501], the data padded with spaces to 500
    characters and one line feed; for data without carriage returns, reading
    record [n] back returns the data with all its trailing white space
    stripped, hence the data itself when it does not end in white space. *)
Theorem write_then_read (p : RecPath) (n : nat) (data : str) (st : Store) :
  (LINE_DATA_LENGTH < length data ->
   _write_fixed_length_line p n data st
   = (Raise (ValueError LengthExceeded), st))
  /\ (length data <= LINE_DATA_LENGTH ->
      exists st',
        _write_fixed_length_line p n data st = (Ok tt, st')
        /\ get_file st' p
           = Some (write_at (content_of st p) (n * LINE_TOTAL_LENGTH)
                            (ljust data LINE_DATA_LENGTH ++ [LF]))
        /\ length (ljust data LINE_DATA_LENGTH) = LINE_DATA_LENGTH
        /\ (~ In CR data ->
            _read_fixed_length_line st' p n = Ok (rstrip data)
            /\ (rstrip data = data ->
                _read_fixed_length_line st' p n = Ok data))).
Proof.
  split; [apply write_line_too_long|].
  intros Hl. eexists. split; [apply write_line_ok; exact Hl|].
  rewrite get_set_file_same. split; [reflexivity|].
  split; [apply length_ljust; exact Hl|].
  intros Hn.
  assert (R : _read_fixed_length_line
                (set_file st p
                   (write_at (content_of st p) (n * LINE_TOTAL_LENGTH)
                             (ljust data LINE_DATA_LENGTH ++ [LF]))) p n
              = Ok (rstrip data)).
  { unfold _read_fixed_length_line. rewrite get_set_file_same.
    rewrite read_at_write_at by assumption. rewrite rstrip_ljust.
    reflexivity. }
  split; [exact R|]. intros E. rewrite R, E. reflexivity.
Qed.

(** ** Dictionaries *)

Section DictFacts.
Variables K V : Type.
Variable eqb : K -> K -> bool.
Hypothesis eqb_eq : forall a b, eqb a b = true <-> a = b.

Let eqb_refl (a : K) : eqb a a = true.
Proof. apply eqb_eq; reflexivity. Qed.

Let eqb_neq (a b : K) : a <> b -> eqb a b = false.
Proof.
  intros Hne. destruct (eqb a b) eqn:E; [|reflexivity].
  apply eqb_eq in E. contradiction.
Qed.

Implicit Types (d : dict K V) (k : K) (v : V).

Lemma dict_get_In d k v : dict_get eqb d k = Some v -> In (k, v) d.
Proof.
  induction d as [|[k' v'] d IH]; simpl; [discriminate|].
  destruct (eqb k k') eqn:E.
  - apply eqb_eq in E. intros [= ->]. left; congruence.
  - intros G; right; auto.
Qed.

Lemma dict_get_None d k :
  dict_get eqb d k = None <-> ~ In k (dict_keys d).
Proof.
  induction d as [|[k' v'] d IH]; simpl; [tauto|].
  destruct (eqb k k') eqn:E.
  - apply eqb_eq in E. split; [discriminate|]. intros Hn; exfalso; auto.
  - rewrite IH. split; [|tauto].
    intros Hn [Hk|Hk]; [|tauto]. subst. rewrite eqb_refl in E. discriminate.
Qed.

Lemma dict_mem_In d k :
  dict_mem eqb d k = true <-> In k (dict_keys d).
Proof.
  unfold dict_mem. destruct (dict_get eqb d k) eqn:G.
  - split; [intros _|reflexivity].
    apply dict_get_In in G. apply (in_map fst) in G. exact G.
  - apply dict_get_None in G. split; [discriminate|contradiction].
Qed.

Lemma dict_get_set_same d k v :
  dict_get eqb (dict_set eqb d k v) k = Some v.
Proof.
  induction d as [|[k' v'] d IH]; simpl.
  - rewrite eqb_refl; reflexivity.
  - destruct (eqb k k') eqn:E; simpl.
    + rewrite eqb_refl; reflexivity.
    + rewrite E; exact IH.
Qed.

Lemma dict_get_set_other d k k' v :
  k <> k' -> dict_get eqb (dict_set eqb d k v) k' = dict_get eqb d k'.
Proof.
  intros Hne. induction d as [|[k0 v0] d IH]; simpl.
  - rewrite eqb_neq by congruence. reflexivity.
  - destruct (eqb k k0) eqn:E; simpl.
    + apply eqb_eq in E; subst k0. rewrite eqb_neq by congruence.
      reflexivity.
    + destruct (eqb k' k0); [reflexivity|exact IH].
Qed.

Lemma dict_keys_set d k v :
  dict_keys (dict_set eqb d k v)
  = if dict_mem eqb d k then dict_keys d else dict_keys d ++ [k].
Proof.
  unfold dict_mem. induction d as [|[k' v'] d IH]; simpl; [reflexivity|].
  destruct (eqb k k') eqn:E; simpl.
  - apply eqb_eq in E; subst; reflexivity.
  - rewrite IH. destruct (dict_get eqb d k); reflexivity.
Qed.

Lemma length_dict_set d k v :
  length (dict_set eqb d k v)
  = if dict_mem eqb d k then length d else S (length d).
Proof.
  rewrite <- !(length_map fst). fold (dict_keys (dict_set eqb d k v)).
  fold (dict_keys d). rewrite dict_keys_set.
  destruct (dict_mem eqb d k); [reflexivity|].
  rewrite length_app; simpl; lia.
Qed.

Lemma NoDup_dict_set d k v :
  NoDup (dict_keys d) -> NoDup (dict_keys (dict_set eqb d k v)).
Proof.
  intros Hnd. rewrite dict_keys_set.
  destruct (dict_mem eqb d k) eqn:Hm; [exact Hnd|].
  assert (Hn : ~ In k (dict_keys d)).
  { intros Hin. apply dict_mem_In in Hin. congruence. }
  apply NoDup_rev in Hnd. rewrite <- (rev_involutive (dict_keys d ++ [k])).
  apply NoDup_rev. rewrite rev_app_distr. simpl. constructor; [|exact Hnd].
  rewrite <- in_rev. exact Hn.
Qed.

Lemma In_dict_set d k v kv :
  In kv (dict_set eqb d k v) -> kv = (k, v) \/ In kv d.
Proof.
  induction d as [|[k' v'] d IH]; simpl.
  - intros [E|[]]; left; congruence.
  - destruct (eqb k k'); simpl; intros [E|Hin]; auto.
    destruct (IH Hin); auto.
Qed.

Lemma In_dict_del d k kv : In kv (dict_del eqb d k) -> In kv d.
Proof.
  induction d as [|[k' v'] d IH]; simpl; [tauto|].
  destruct (eqb k k'); simpl; intros Hin; auto.
  destruct Hin; auto.
Qed.

Lemma dict_keys_del_incl d k x :
  In x (dict_keys (dict_del eqb d k)) -> In x (dict_keys d).
Proof.
  unfold dict_keys. rewrite !in_map_iff.
  intros (kv & E & Hin). exists kv; split; [exact E|].
  eapply In_dict_del; exact Hin.
Qed.

Lemma NoDup_dict_del d k :
  NoDup (dict_keys d) -> NoDup (dict_keys (dict_del eqb d k)).
Proof.
  induction d as [|[k' v'] d IH]; simpl; intros Hnd; [constructor|].
  inversion Hnd as [|? ? Hn Hnd']; subst.
  destruct (eqb k k'); simpl; [exact Hnd'|].
  constructor; [|auto]. intros Hin; apply Hn.
  eapply dict_keys_del_incl; exact Hin.
Qed.

Lemma dict_get_del_same d k :
  NoDup (dict_keys d) -> dict_get eqb (dict_del eqb d k) k = None.
Proof.
  induction d as [|[k' v'] d IH]; simpl; intros Hnd; [reflexivity|].
  inversion Hnd as [|? ? Hn Hnd']; subst.
  destruct (eqb k k') eqn:E; simpl.
  - apply eqb_eq in E; subst. apply dict_get_None; exact Hn.
  - rewrite E. auto.
Qed.

Lemma dict_get_del_other d k k' :
  k <> k' -> dict_get eqb (dict_del eqb d k) k' = dict_get eqb d k'.
Proof.
  intros Hne. induction d as [|[k0 v0] d IH]; simpl; [reflexivity|].
  destruct (eqb k k0) eqn:E; simpl.
  - apply eqb_eq in E; subst k0. rewrite eqb_neq by congruence.
    reflexivity.
  - destruct (eqb k' k0); [reflexivity|exact IH].
Qed.

Lemma length_dict_del d k :
  dict_mem eqb d k = true -> S (length (dict_del eqb d k)) = length d.
Proof.
  unfold dict_mem. induction d as [|[k' v'] d IH]; simpl; [discriminate|].
  destruct (eqb k k'); simpl; [reflexivity|].
  intros Hm. rewrite IH by exact Hm. reflexivity.
Qed.

Lemma NoDup_dict_of_members (members : list (K * V)) (acc : dict K V) :
  NoDup (dict_keys acc) -> NoDup (dict_keys (dict_of_members eqb members acc)).
Proof.
  revert acc; induction members as [|[k v] l IH]; simpl; intros acc Hnd;
    [exact Hnd|].
  apply IH. apply NoDup_dict_set. exact Hnd.
Qed.

Lemma In_dict_of_members (members : list (K * V)) (acc : dict K V) kv :
  In kv (dict_of_members eqb members acc) -> In kv members \/ In kv acc.
Proof.
  revert acc; induction members as [|[k v] l IH]; simpl; intros acc Hin;
    [auto|].
  destruct (IH _ Hin) as [H|H]; [auto|].
  destruct (In_dict_set _ _ _ _ H) as [E|H']; [left; left; congruence|auto].
Qed.

Lemma dict_set_fresh d k v :
  ~ In k (dict_keys d) -> dict_set eqb d k v = d ++ [(k, v)].
Proof.
  induction d as [|[k' v'] d IH]; simpl; intros Hn; [reflexivity|].
  rewrite eqb_neq by (intros ->; apply Hn; left; reflexivity).
  rewrite IH by tauto. reflexivity.
Qed.

Lemma dict_of_members_NoDup (members : list (K * V)) (acc : dict K V) :
  NoDup (dict_keys (acc ++ members)) ->
  dict_of_members eqb members acc = acc ++ members.
Proof.
  revert acc; induction members as [|[k v] l IH]; simpl; intros acc Hnd.
  - rewrite app_nil_r; reflexivity.
  - assert (Hn : ~ In k (dict_keys acc)).
    { unfold dict_keys in *. rewrite map_app in Hnd. simpl in Hnd.
      apply NoDup_remove_2 in Hnd. intros Hin; apply Hnd.
      apply in_or_app; left; exact Hin. }
    rewrite dict_set_fresh by exact Hn.
    rewrite IH; rewrite <- app_assoc; [reflexivity|exact Hnd].
Qed.
End DictFacts.

Arguments dict_get_In [K V eqb] eqb_eq.
Arguments dict_get_None [K V eqb] eqb_eq.
Arguments dict_mem_In [K V eqb] eqb_eq.
Arguments dict_get_set_same [K V eqb] eqb_eq.
Arguments dict_get_set_other [K V eqb] eqb_eq.
Arguments dict_keys_set [K V eqb] eqb_eq.
Arguments length_dict_set [K V eqb] eqb_eq.
Arguments NoDup_dict_set [K V eqb] eqb_eq.
Arguments dict_get_del_same [K V eqb] eqb_eq.
Arguments dict_get_del_other [K V eqb] eqb_eq.
Arguments dict_set_fresh [K V eqb] eqb_eq.

(** The index a saved dictionary loads back as. *)
Lemma NoDup_json_load (members : IndexFile) :
  NoDup (dict_keys (json_load members)).
Proof.
  apply (@NoDup_dict_of_members _ _ str_eqb str_eqb_eq members []). constructor.
Qed.

Lemma In_json_load (members : IndexFile) (kv : str * nat) :
  In kv (json_load members) -> In kv members.
Proof.
  intros Hin.
  destruct (@In_dict_of_members _ _ str_eqb members [] kv Hin) as [H|[]].
  exact H.
Qed.

Lemma json_load_dump (d : Index) :
  NoDup (dict_keys d) -> json_load d = d.
Proof.
  intros Hnd. apply (@dict_of_members_NoDup _ _ str_eqb str_eqb_eq d []).
  exact Hnd.
Qed.

(** ** Writes on the store *)

Lemma line_count_size (st : Store) (p : RecPath) :
  _get_file_line_count st p = file_size st p / LINE_TOTAL_LENGTH.
Proof.
  unfold _get_file_line_count, path_exists, file_size.
  destruct (get_file st p); reflexivity.
Qed.

Lemma file_size_content (st : Store) (p : RecPath) :
  file_size st p = length (content_of st p).
Proof. unfold file_size, content_of. destruct (get_file st p); reflexivity. Qed.

Lemma set_file_twice (st : Store) (p : RecPath) (c c' : File) :
  set_file (set_file st p c) p c' = set_file st p c'.
Proof. destruct p; reflexivity. Qed.

Lemma write_line_put (p : RecPath) (n : nat) (data : str) (st : Store) :
  length data <= LINE_DATA_LENGTH ->
  _write_fixed_length_line p n data st = (Ok tt, put_line st p n data).
Proof. apply write_line_ok. Qed.

Lemma append_line_put (p : RecPath) (data : str) (st : Store) :
  length data <= LINE_DATA_LENGTH ->
  _append_fixed_length_line p data st
  = (Ok (_get_file_line_count st p),
     put_line st p (_get_file_line_count st p) data).
Proof.
  intros Hl. rewrite line_count_size.
  unfold _append_fixed_length_line, bind, gets, path_exists, create_empty, ret.
  destruct (get_file st p) as [c|] eqn:G.
  - rewrite write_line_put by exact Hl. reflexivity.
  - rewrite write_line_put by exact Hl.
    unfold put_line, content_of, file_size.
    rewrite get_set_file_same, set_file_twice, G. reflexivity.
Qed.

Lemma get_file_put_line_same (st : Store) (p : RecPath) (n : nat)
  (data : str) :
  get_file (put_line st p n data) p
  = Some (write_at (content_of st p) (n * LINE_TOTAL_LENGTH) (block data)).
Proof. apply get_set_file_same. Qed.

Lemma get_file_put_line_other (st : Store) (p q : RecPath) (n : nat)
  (data : str) :
  p <> q -> get_file (put_line st p n data) q = get_file st q.
Proof. apply get_set_file_other. Qed.

Lemma get_index_put_line (st : Store) (p : RecPath) (n : nat) (data : str)
  (i : IdxPath) :
  get_index_file (put_line st p n data) i = get_index_file st i.
Proof. apply get_index_set_file. Qed.

Lemma load_index_put_line (st : Store) (p : RecPath) (n : nat) (data : str)
  (i : IdxPath) :
  _load_index (put_line st p n data) i = _load_index st i.
Proof. unfold _load_index. rewrite get_index_put_line. reflexivity. Qed.

Lemma load_index_saved (st : Store) (i : IdxPath) (d : Index) :
  NoDup (dict_keys d) -> _load_index (set_index_file st i d) i = d.
Proof.
  intros Hnd. unfold _load_index. rewrite get_set_index_same.
  apply json_load_dump; exact Hnd.
Qed.

Lemma load_index_saved_other (st : Store) (i j : IdxPath) (d : Index) :
  i <> j -> _load_index (set_index_file st i d) j = _load_index st j.
Proof.
  intros Hne. unfold _load_index. rewrite get_set_index_other by exact Hne.
  reflexivity.
Qed.

Lemma read_line_put_other (st : Store) (p q : RecPath) (n m : nat)
  (data : str) :
  p <> q ->
  _read_fixed_length_line (put_line st p n data) q m
  = _read_fixed_length_line st q m.
Proof.
  intros Hne. unfold _read_fixed_length_line.
  rewrite get_file_put_line_other by exact Hne. reflexivity.
Qed.

Lemma read_line_set_index (st : Store) (i : IdxPath) (d : IndexFile)
  (q : RecPath) (m : nat) :
  _read_fixed_length_line (set_index_file st i d) q m
  = _read_fixed_length_line st q m.
Proof.
  unfold _read_fixed_length_line. rewrite get_file_set_index. reflexivity.
Qed.

Lemma length_block_data (data : str) :
  length data <= LINE_DATA_LENGTH -> length (block data) = LINE_TOTAL_LENGTH.
Proof. apply length_block. Qed.

Lemma file_size_put_line (st : Store) (p : RecPath) (n : nat) (data : str) :
  length data <= LINE_DATA_LENGTH ->
  file_size (put_line st p n data) p
  = Nat.max (file_size st p) (S n * LINE_TOTAL_LENGTH).
Proof.
  intros Hl. unfold file_size at 1. rewrite get_file_put_line_same.
  rewrite length_write_at, length_block_data by exact Hl.
  rewrite file_size_content. unfold LINE_TOTAL_LENGTH. lia.
Qed.

Lemma file_size_put_line_other (st : Store) (p q : RecPath) (n : nat)
  (data : str) :
  p <> q -> file_size (put_line st p n data) q = file_size st q.
Proof.
  intros Hne. unfold file_size.
  rewrite get_file_put_line_other by exact Hne. reflexivity.
Qed.

Lemma line_count_put_line_other (st : Store) (p q : RecPath) (n : nat)
  (data : str) :
  p <> q ->
  _get_file_line_count (put_line st p n data) q = _get_file_line_count st q.
Proof.
  intros Hne. rewrite !line_count_size.
  rewrite file_size_put_line_other by exact Hne. reflexivity.
Qed.

Lemma line_count_set_index (st : Store) (i : IdxPath) (d : IndexFile)
  (q : RecPath) :
  _get_file_line_count (set_index_file st i d) q = _get_file_line_count st q.
Proof.
  unfold _get_file_line_count, path_exists, file_size.
  rewrite get_file_set_index. reflexivity.
Qed.

(** A write never shortens a file, and covers the record it writes. *)
Lemma line_count_put_line_ge (st : Store) (p q : RecPath) (n : nat)
  (data : str) :
  length data <= LINE_DATA_LENGTH ->
  _get_file_line_count st q <= _get_file_line_count (put_line st p n data) q.
Proof.
  intros Hl. rewrite !line_count_size.
  apply Nat.Div0.div_le_mono.
  destruct p, q;
    try (rewrite file_size_put_line_other by discriminate; lia);
    rewrite file_size_put_line by exact Hl; lia.
Qed.

Lemma line_count_put_line_lt (st : Store) (p : RecPath) (n : nat)
  (data : str) :
  length data <= LINE_DATA_LENGTH ->
  n < _get_file_line_count (put_line st p n data) p.
Proof.
  intros Hl. rewrite line_count_size, file_size_put_line by exact Hl.
  apply Nat.lt_le_trans with (S n * LINE_TOTAL_LENGTH / LINE_TOTAL_LENGTH).
  - rewrite Nat.div_mul by discriminate. lia.
  - apply Nat.Div0.div_le_mono. lia.
Qed.

(** An append makes the file one record longer. *)
Lemma line_count_append (st : Store) (p : RecPath) (data : str) :
  length data <= LINE_DATA_LENGTH ->
  _get_file_line_count (put_line st p (_get_file_line_count st p) data) p
  = S (_get_file_line_count st p).
Proof.
  intros Hl.
  rewrite (line_count_size (put_line _ _ _ _)).
  rewrite file_size_put_line by exact Hl.
  rewrite line_count_size.
  set (s := file_size st p).
  assert (Hlt : s < S (s / LINE_TOTAL_LENGTH) * LINE_TOTAL_LENGTH).
  { pose proof (Nat.div_mod_eq s LINE_TOTAL_LENGTH) as E.
    pose proof (Nat.mod_upper_bound s LINE_TOTAL_LENGTH) as B.
    unfold LINE_TOTAL_LENGTH in *. lia. }
  rewrite Nat.max_r by lia.
  apply Nat.div_mul. discriminate.
Qed.

(** ** sell_car *)

Section SellCar.
Context {lib : PyLib} {enum : CarStatusEnum} {key : SaleKey}.

Lemma sell_car_unfold (sale : Sale) (st : Store) :
  sell_car sale st = sell_car_paths sale st.
Proof.
  unfold sell_car, sell_car_paths.
  unfold bind at 1. unfold gets at 1.
  destruct (LINE_DATA_LENGTH <? length (Sale_data sale)) eqn:E;
    [reflexivity|].
  apply Nat.ltb_ge in E.
  unfold bind at 1. rewrite append_line_put by exact E.
  unfold bind at 1. unfold _save_index at 1.
  fold (sale_recorded sale st).
  set (st1 := sale_recorded sale st).
  unfold bind at 1. unfold gets at 1.
  assert (Hidx : _load_index st1 cars_index_txt
                 = _load_index st cars_index_txt).
  { unfold st1, sale_recorded.
    rewrite load_index_saved_other by discriminate.
    apply load_index_put_line. }
  assert (Hrd : forall n, _read_fixed_length_line st1 cars_txt n
                          = _read_fixed_length_line st cars_txt n).
  { intros n. unfold st1, sale_recorded.
    rewrite read_line_set_index.
    apply read_line_put_other; discriminate. }
  rewrite Hidx.
  destruct (dict_get str_eqb (_load_index st cars_index_txt)
                     (car_vin sale)) as [n|]; [|reflexivity].
  unfold bind at 1. unfold reads at 1. rewrite Hrd.
  destruct (_read_fixed_length_line st cars_txt n) as [line|e];
    [|reflexivity].
  unfold bind at 1. unfold reads at 1.
  destruct (Car_of_parts (split PIPE line)) as [car|e]; [|reflexivity].
  destruct (CarStatus_eqb (status car) sold); [reflexivity|].
  destruct (LINE_DATA_LENGTH <? length (Car_data (set_status car sold)))
    eqn:E2; [reflexivity|].
  apply Nat.ltb_ge in E2.
  unfold bind at 1. rewrite write_line_put by exact E2. reflexivity.
Qed.

Lemma sale_recorded_file (sale : Sale) (st : Store) :
  get_file (sale_recorded sale st) sales_txt
  = Some (write_at (content_of st sales_txt)
                   (_get_file_line_count st sales_txt * LINE_TOTAL_LENGTH)
                   (block (Sale_data sale))).
Proof.
  unfold sale_recorded. rewrite get_file_set_index.
  apply get_file_put_line_same.
Qed.

Lemma sale_recorded_index (sale : Sale) (st : Store) :
  _load_index (sale_recorded sale st) sales_index_txt
  = dict_set str_eqb (_load_index st sales_index_txt) (Sale_index sale)
             (_get_file_line_count st sales_txt).
Proof.
  unfold sale_recorded. apply load_index_saved.
  apply NoDup_dict_set; [exact str_eqb_eq|apply NoDup_json_load].
Qed.

Lemma sale_recorded_line_count (sale : Sale) (st : Store) :
  length (Sale_data sale) <= LINE_DATA_LENGTH ->
  _get_file_line_count (sale_recorded sale st) sales_txt
  = S (_get_file_line_count st sales_txt).
Proof.
  intros Hl. unfold sale_recorded. rewrite line_count_set_index.
  apply line_count_append; exact Hl.
Qed.

Lemma sale_recorded_cars_index (sale : Sale) (st : Store) :
  get_index_file (sale_recorded sale st) cars_index_txt
  = get_index_file st cars_index_txt.
Proof.
  unfold sale_recorded. rewrite get_set_index_other by discriminate.
  apply get_index_put_line.
Qed.


Lemma getitem_not_ValueError (parts : list str) (i : nat) (k : ValueErrorKind) :
  getitem parts i <> Raise (ValueError k).
Proof. unfold getitem. destruct (nth_error parts i); discriminate. Qed.

(** The constructors of a stored car raise [IndexError],
    [InvalidOperation] or the [ValueError] of a bad literal only. *)
Lemma Car_of_parts_raises (parts : list str) (e : exn) :
  Car_of_parts parts = Raise e ->
  e = IndexError \/ e = InvalidOperation \/ e = ValueError BadLiteral.
Proof.
  unfold Car_of_parts, rbind, getitem, int, Decimal_,
    datetime_fromisoformat, CarStatus_.
  destruct (nth_error parts 0); [|intros [= <-]; auto].
  destruct (nth_error parts 1) as [p1|]; [|intros [= <-]; auto].
  destruct (int_of_str p1); [|intros [= <-]; auto].
  destruct (nth_error parts 2) as [p2|]; [|intros [= <-]; auto].
  destruct (Decimal_of_str p2); [|intros [= <-]; auto].
  destruct (nth_error parts 3) as [p3|]; [|intros [= <-]; auto].
  destruct (fromisoformat p3); [|intros [= <-]; auto].
  destruct (nth_error parts 4) as [p4|]; [|intros [= <-]; auto].
  destruct (CarStatus_of_value p4); [discriminate|intros [= <-]; auto].
Qed.

Lemma read_line_raises (st : Store) (p : RecPath) (n : nat) (e : exn) :
  _read_fixed_length_line st p n = Raise e -> e = FileNotFoundError.
Proof.
  unfold _read_fixed_length_line. destruct (get_file st p);
    [discriminate|]. intros [= <-]; reflexivity.
Qed.

(** Whatever the outcome, [sell_car] leaves the store with the sale
    recorded, and at most one record of the car file rewritten. *)
Lemma sell_car_store (sale : Sale) (st : Store) :
  length (Sale_data sale) <= LINE_DATA_LENGTH ->
  fst (sell_car sale st) <> Raise (ValueError DuplicateKey)
  /\ (snd (sell_car sale st) = sale_recorded sale st
      \/ exists m data,
          length data <= LINE_DATA_LENGTH
          /\ m < _get_file_line_count
                   (put_line (sale_recorded sale st) cars_txt m data) cars_txt
          /\ snd (sell_car sale st)
             = put_line (sale_recorded sale st) cars_txt m data).
Proof.
  intros Hl. rewrite sell_car_unfold. unfold sell_car_paths.
  apply Nat.ltb_ge in Hl. rewrite Hl.
  destruct (dict_get _ _ _) as [m|]; [|split; [discriminate|left; auto]].
  destruct (_read_fixed_length_line st cars_txt m) as [line|e] eqn:R.
  2:{ apply read_line_raises in R; subst.
      split; [discriminate|left; auto]. }
  destruct (Car_of_parts (split PIPE line)) as [car|e] eqn:P.
  2:{ apply Car_of_parts_raises in P.
      split; [|left; auto].
      destruct P as [->|[->| ->]]; discriminate. }
  destruct (CarStatus_eqb (status car) sold);
    [split; [discriminate|left; auto]|].
  destruct (LINE_DATA_LENGTH <? length (Car_data (set_status car sold)))
    eqn:E2; [split; [discriminate|left; auto]|].
  apply Nat.ltb_ge in E2.
  split; [discriminate|]. right. exists m, (Car_data (set_status car sold)).
  split; [exact E2|]. split; [|reflexivity].
  apply line_count_put_line_lt; exact E2.
Qed.

(** C1, as amended.  [sell_car] makes no check for a sale key that is
    already in the sales index: a sale whose record fits is appended all
    the same, so that the sale file is one record longer, and the entry
    of its key now gives the new record number; the number of index
    entries is unchanged and the call never raises [DuplicateKey].  A
    sale whose record does not fit is refused with [LengthExceeded] and
    the store stays as it was. *)
Theorem sell_car_existing_key (sale : Sale) (st : Store) :
  dict_mem str_eqb (_load_index st sales_index_txt) (Sale_index sale) = true ->
  (LINE_DATA_LENGTH < length (Sale_data sale) ->
   sell_car sale st = (Raise (ValueError LengthExceeded), st))
  /\ (length (Sale_data sale) <= LINE_DATA_LENGTH ->
      let st' := snd (sell_car sale st) in
      fst (sell_car sale st) <> Raise (ValueError DuplicateKey)
      /\ _get_file_line_count st' sales_txt
         = S (_get_file_line_count st sales_txt)
      /\ dict_get str_eqb (_load_index st' sales_index_txt)
                  (Sale_index sale)
         = Some (_get_file_line_count st sales_txt)
      /\ length (_load_index st' sales_index_txt)
         = length (_load_index st sales_index_txt)).
Proof.
  intros Hm. split.
  - intros Hl. rewrite sell_car_unfold. unfold sell_car_paths.
    apply Nat.ltb_lt in Hl. rewrite Hl. reflexivity.
  - intros Hl st'.
    destruct (sell_car_store sale st Hl) as [Hne Hst].
    split; [exact Hne|].
    assert (Hrec :
              _get_file_line_count (sale_recorded sale st) sales_txt
              = S (_get_file_line_count st sales_txt)
              /\ dict_get str_eqb
                   (_load_index (sale_recorded sale st) sales_index_txt)
                   (Sale_index sale)
                 = Some (_get_file_line_count st sales_txt)
              /\ length (_load_index (sale_recorded sale st)
                                     sales_index_txt)
                 = length (_load_index st sales_index_txt)).
    { split; [apply sale_recorded_line_count; exact Hl|].
      rewrite sale_recorded_index. split.
      - apply dict_get_set_same; exact str_eqb_eq.
      - rewrite length_dict_set, Hm; [reflexivity|exact str_eqb_eq]. }
    unfold st'. destruct Hst as [-> | (m & data & _ & _ & ->)];
      [exact Hrec|].
    rewrite line_count_put_line_other by discriminate.
    rewrite load_index_put_line. exact Hrec.
Qed.
End SellCar.

(** ** Sorting *)

Section SortFacts.
Variable A : Type.
Variable lt : A -> A -> bool.

Hypothesis lt_asym : forall x y, lt x y = true -> lt y x = false.
Hypothesis ngt_trans : forall x y z, ngt lt x y -> ngt lt y z -> ngt lt x z.

Lemma Permutation_insert_sorted (x : A) (l : list A) :
  Permutation (insert_sorted lt x l) (x :: l).
Proof.
  induction l as [|y l IH]; simpl; [reflexivity|].
  destruct (lt y x); [|reflexivity].
  rewrite IH. apply perm_swap.
Qed.

Lemma Permutation_stable_sort (l : list A) :
  Permutation (stable_sort lt l) l.
Proof.
  induction l as [|x l IH]; simpl; [reflexivity|].
  rewrite Permutation_insert_sorted. constructor. exact IH.
Qed.

Lemma Forall_insert_sorted (P : A -> Prop) (x : A) (l : list A) :
  P x -> Forall P l -> Forall P (insert_sorted lt x l).
Proof.
  intros Hx Hl.
  eapply Permutation_Forall.
  - symmetry. apply Permutation_insert_sorted.
  - constructor; assumption.
Qed.

Lemma StronglySorted_insert_sorted (x : A) (l : list A) :
  StronglySorted (ngt lt) l -> StronglySorted (ngt lt) (insert_sorted lt x l).
Proof.
  induction 1 as [|y l Hs IH Hall]; simpl.
  - constructor; constructor.
  - destruct (lt y x) eqn:E.
    + constructor; [exact IH|].
      apply Forall_insert_sorted; [|exact Hall].
      unfold ngt. apply lt_asym. exact E.
    + constructor; [constructor; assumption|].
      constructor; [exact E|].
      eapply Forall_impl; [|exact Hall].
      intros z Hz. eapply ngt_trans; [exact E|exact Hz].
Qed.

Lemma StronglySorted_stable_sort (l : list A) :
  StronglySorted (ngt lt) (stable_sort lt l).
Proof.
  induction l as [|x l IH]; simpl; [constructor|].
  apply StronglySorted_insert_sorted. exact IH.
Qed.

Lemma StronglySorted_snoc (R : A -> A -> Prop) (l : list A) (x : A) :
  StronglySorted R l -> Forall (fun y => R y x) l ->
  StronglySorted R (l ++ [x]).
Proof.
  induction 1 as [|y l Hs IH Hall]; simpl; intros Hx.
  - constructor; constructor.
  - inversion Hx as [|? ? Hyx Hlx]; subst.
    constructor; [apply IH; exact Hlx|].
    apply Forall_app; split; [exact Hall|constructor; [exact Hyx|constructor]].
Qed.

Lemma StronglySorted_rev (R : A -> A -> Prop) (l : list A) :
  StronglySorted R l -> StronglySorted (fun x y => R y x) (rev l).
Proof.
  induction 1 as [|y l Hs IH Hall]; simpl; [constructor|].
  apply StronglySorted_snoc; [exact IH|].
  apply Forall_rev. exact Hall.
Qed.

(** With [reverse=True]: no element is less than a later one. *)
Lemma StronglySorted_stable_sort_reverse (l : list A) :
  StronglySorted (fun x y => lt x y = false) (stable_sort_reverse lt l).
Proof.
  unfold stable_sort_reverse.
  apply (StronglySorted_rev (R := ngt lt)).
  apply StronglySorted_stable_sort.
Qed.

Lemma Permutation_stable_sort_reverse (l : list A) :
  Permutation (stable_sort_reverse lt l) l.
Proof.
  unfold stable_sort_reverse.
  rewrite <- Permutation_rev, Permutation_stable_sort.
  symmetry. apply Permutation_rev.
Qed.
End SortFacts.

(** The order of texts is a strict total order. *)
Lemma nat_of_ascii_inj (a b : ascii) : nat_of_ascii a = nat_of_ascii b -> a = b.
Proof.
  intros E. rewrite <- (ascii_nat_embedding a), <- (ascii_nat_embedding b).
  rewrite E. reflexivity.
Qed.

Lemma str_ltb_asym (a b : str) : str_ltb a b = true -> str_ltb b a = false.
Proof.
  revert b; induction a as [|x a IH]; intros [|y b]; simpl; try congruence.
  destruct (nat_of_ascii x <? nat_of_ascii y) eqn:E1.
  - intros _. apply Nat.ltb_lt in E1.
    destruct (nat_of_ascii y <? nat_of_ascii x) eqn:E2; [|reflexivity].
    apply Nat.ltb_lt in E2. lia.
  - destruct (nat_of_ascii y <? nat_of_ascii x) eqn:E2; [discriminate|].
    apply IH.
Qed.

Lemma str_ltb_trans (a b c : str) :
  str_ltb a b = true -> str_ltb b c = true -> str_ltb a c = true.
Proof.
  revert b c; induction a as [|x a IH]; intros [|y b] [|z c]; simpl;
    try congruence.
  destruct (nat_of_ascii x <? nat_of_ascii y) eqn:E1;
    destruct (nat_of_ascii y <? nat_of_ascii x) eqn:E2;
    destruct (nat_of_ascii y <? nat_of_ascii z) eqn:E3;
    destruct (nat_of_ascii z <? nat_of_ascii y) eqn:E4;
    destruct (nat_of_ascii x <? nat_of_ascii z) eqn:E5;
    destruct (nat_of_ascii z <? nat_of_ascii x) eqn:E6;
    try discriminate; try reflexivity;
    repeat match goal with
           | H : (_ <? _) = true |- _ => apply Nat.ltb_lt in H
           | H : (_ <? _) = false |- _ => apply Nat.ltb_ge in H
           end;
    try lia.
  apply IH.
Qed.

Lemma str_ltb_total (a b : str) :
  str_ltb a b = false -> str_ltb b a = false -> a = b.
Proof.
  revert b; induction a as [|x a IH]; intros [|y b]; simpl; try congruence.
  destruct (nat_of_ascii x <? nat_of_ascii y) eqn:E1; [discriminate|].
  destruct (nat_of_ascii y <? nat_of_ascii x) eqn:E2; [discriminate|].
  intros H1 H2. apply Nat.ltb_ge in E1, E2.
  f_equal; [apply nat_of_ascii_inj; lia|apply IH; assumption].
Qed.

Lemma str_ngt_trans (a b c : str) :
  ngt str_ltb a b -> ngt str_ltb b c -> ngt str_ltb a c.
Proof.
  unfold ngt. intros H1 H2.
  destruct (str_ltb c a) eqn:E; [|reflexivity].
  destruct (str_ltb a b) eqn:E3.
  - rewrite (str_ltb_trans _ _ _ E E3) in H2. discriminate.
  - rewrite (str_ltb_total _ _ E3 H1) in E. congruence.
Qed.

(** [sorted] puts distinct keys in strictly ascending order. *)
Lemma sorted_ascending (keys : list str) :
  NoDup keys ->
  StronglySorted (fun a b => str_ltb a b = true) (sorted keys).
Proof.
  intros Hnd. unfold sorted.
  assert (Hs := StronglySorted_stable_sort str_ltb_asym str_ngt_trans keys).
  assert (Hnd' : NoDup (stable_sort str_ltb keys)).
  { eapply Permutation_NoDup; [|exact Hnd].
    symmetry. apply Permutation_stable_sort. }
  induction Hs as [|x l Hs IH Hall]; [constructor|].
  inversion Hnd' as [|? ? Hn Hnd'']; subst.
  constructor; [apply IH; exact Hnd''|].
  rewrite Forall_forall in *. intros y Hy.
  destruct (str_ltb x y) eqn:E; [reflexivity|].
  exfalso. apply Hn.
  rewrite (str_ltb_total _ _ E (Hall y Hy)). exact Hy.
Qed.

Lemma Permutation_sorted (keys : list str) : Permutation (sorted keys) keys.
Proof. apply Permutation_stable_sort. Qed.

(** ** update_vin *)

Lemma fold_sorted_index (d : Index) (ks : list str) (acc : Index) :
  NoDup (dict_keys acc ++ ks) ->
  fold_left
    (fun sorted_index k =>
       match dict_get str_eqb d k with
       | Some v => dict_set str_eqb sorted_index k v
       | None => sorted_index
       end) ks acc
  = acc ++ entries_of d ks.
Proof.
  revert acc; induction ks as [|k ks IH]; simpl; intros acc Hnd.
  - rewrite app_nil_r; reflexivity.
  - assert (Hn : ~ In k (dict_keys acc)).
    { apply NoDup_remove_2 in Hnd. intros Hin; apply Hnd.
      apply in_or_app; left; exact Hin. }
    destruct (dict_get str_eqb d k) as [v|].
    + rewrite (dict_set_fresh str_eqb_eq) by exact Hn.
      rewrite IH; [rewrite <- app_assoc; reflexivity|].
      unfold dict_keys. rewrite map_app. simpl. rewrite <- app_assoc.
      exact Hnd.
    + rewrite IH; [reflexivity|]. apply NoDup_remove_1 in Hnd. exact Hnd.
Qed.

Lemma dict_keys_entries_of (d : Index) (ks : list str) :
  (forall k, In k ks -> In k (dict_keys d)) ->
  dict_keys (entries_of d ks) = ks.
Proof.
  induction ks as [|k ks IH]; simpl; intros Hin; [reflexivity|].
  unfold dict_keys in *. rewrite map_app.
  rewrite IH by (intros k' Hk'; apply Hin; right; exact Hk').
  destruct (dict_get str_eqb d k) eqn:G; [reflexivity|].
  apply (dict_get_None str_eqb_eq) in G. exfalso; apply G.
  apply Hin; left; reflexivity.
Qed.

Lemma dict_get_entries_of (d : Index) (ks : list str) (k : str) :
  dict_get str_eqb (entries_of d ks) k
  = if in_dec (list_eq_dec ascii_dec) k ks then dict_get str_eqb d k
    else None.
Proof.
  induction ks as [|k' ks IH]; simpl; [reflexivity|].
  destruct (list_eq_dec ascii_dec k' k) as [->|Hne].
  - destruct (dict_get str_eqb d k) as [v|] eqn:G; simpl.
    + rewrite str_eqb_refl. reflexivity.
    + rewrite IH. destruct (in_dec (list_eq_dec ascii_dec) k ks); reflexivity.
  - destruct (dict_get str_eqb d k') as [v|]; simpl.
    + assert (E : str_eqb k k' = false) by (apply str_eqb_neq; congruence).
      rewrite E, IH. destruct (in_dec (list_eq_dec ascii_dec) k ks); reflexivity.
    + rewrite IH. destruct (in_dec (list_eq_dec ascii_dec) k ks); reflexivity.
Qed.

Lemma sort_index_entries (d : Index) :
  NoDup (dict_keys d) -> sort_index d = entries_of d (sorted (dict_keys d)).
Proof.
  intros Hnd. unfold sort_index.
  rewrite fold_sorted_index; [reflexivity|].
  simpl. eapply Permutation_NoDup; [|exact Hnd].
  symmetry. apply Permutation_sorted.
Qed.

Lemma dict_keys_sort_index (d : Index) :
  NoDup (dict_keys d) -> dict_keys (sort_index d) = sorted (dict_keys d).
Proof.
  intros Hnd. rewrite sort_index_entries by exact Hnd.
  apply dict_keys_entries_of. intros k Hk.
  eapply Permutation_in; [apply Permutation_sorted|exact Hk].
Qed.

Lemma dict_get_sort_index (d : Index) (k : str) :
  NoDup (dict_keys d) ->
  dict_get str_eqb (sort_index d) k = dict_get str_eqb d k.
Proof.
  intros Hnd. rewrite sort_index_entries by exact Hnd.
  rewrite dict_get_entries_of.
  destruct (in_dec (list_eq_dec ascii_dec) k (sorted (dict_keys d))) as [Hin|Hn]; [reflexivity|].
  symmetry. apply (dict_get_None str_eqb_eq). intros Hin; apply Hn.
  eapply Permutation_in; [symmetry; apply Permutation_sorted|exact Hin].
Qed.

Lemma NoDup_sort_index (d : Index) :
  NoDup (dict_keys d) -> NoDup (dict_keys (sort_index d)).
Proof.
  intros Hnd. rewrite dict_keys_sort_index by exact Hnd.
  eapply Permutation_NoDup; [|exact Hnd].
  symmetry. apply Permutation_sorted.
Qed.

Section UpdateVin.
Context {lib : PyLib} {enum : CarStatusEnum} {key : SaleKey}.

Lemma update_vin_unfold (vin_ new_vin : str) (st : Store) :
  update_vin vin_ new_vin st = update_vin_paths vin_ new_vin st.
Proof.
  unfold update_vin, update_vin_paths.
  unfold bind at 1. unfold gets at 1.
  destruct (dict_mem str_eqb (_load_index st cars_index_txt) new_vin);
    [reflexivity|].
  destruct (dict_get str_eqb (_load_index st cars_index_txt) vin_) as [n|];
    [|reflexivity].
  unfold bind at 1. unfold reads at 1.
  destruct (read_or_fail st cars_txt n) as [line|e]; [|reflexivity].
  destruct (negb (length (split PIPE line) =? 5)); [reflexivity|].
  unfold bind at 1. unfold reads at 1.
  destruct (Car_of_parts (split PIPE line)) as [car|e]; [|reflexivity].
  destruct (LINE_DATA_LENGTH <? length (Car_data (set_vin car new_vin)))
    eqn:E; [reflexivity|].
  apply Nat.ltb_ge in E.
  unfold bind at 1. rewrite write_line_put by exact E.
  reflexivity.
Qed.

(** C10.  Renaming a car to the VIN it already has is refused: the check
    of the new VIN comes first and finds the car's own entry. *)
Theorem update_vin_same (v : str) (st : Store) :
  dict_mem str_eqb (_load_index st cars_index_txt) v = true ->
  update_vin v v st = (Raise (ValueError DuplicateKey), st).
Proof.
  intros Hm. unfold update_vin, bind, gets. rewrite Hm. reflexivity.
Qed.

End UpdateVin.

(** ** add_model, add_car and revert_sale, path by path *)

Section Paths.
Context {lib : PyLib} {enum : CarStatusEnum} {key : SaleKey}.

Lemma add_model_unfold (m : Model) (st : Store) :
  add_model m st = add_model_paths m st.
Proof.
  unfold add_model, add_model_paths.
  unfold bind at 1. unfold gets at 1.
  destruct (dict_mem _ _ _); [reflexivity|].
  destruct (LINE_DATA_LENGTH <? length (Model_data m)) eqn:E;
    [reflexivity|].
  apply Nat.ltb_ge in E.
  unfold bind at 1. rewrite append_line_put by exact E.
  reflexivity.
Qed.

Lemma add_car_unfold (c : Car) (st : Store) :
  add_car c st = add_car_paths c st.
Proof.
  unfold add_car, add_car_paths.
  unfold bind at 1. unfold gets at 1.
  destruct (dict_mem _ _ (Car_index c)); [reflexivity|].
  unfold bind at 1. unfold gets at 1.
  destruct (negb _); [reflexivity|].
  destruct (LINE_DATA_LENGTH <? length (Car_data c)) eqn:E;
    [reflexivity|].
  apply Nat.ltb_ge in E.
  unfold bind at 1. rewrite append_line_put by exact E.
  reflexivity.
Qed.

Lemma revert_sale_unfold (sales_number_ : str) (st : Store) :
  revert_sale sales_number_ st = revert_sale_paths sales_number_ st.
Proof.
  unfold revert_sale, revert_sale_paths.
  unfold bind at 1. unfold gets at 1.
  destruct (negb (path_exists st sales_txt)); [reflexivity|].
  unfold bind at 1. unfold gets at 1.
  unfold bind at 1. unfold reads at 1.
  destruct (revert_scan _ _ _ _) as [vars|e]; [|reflexivity].
  destruct (negb (sale_found vars)); [reflexivity|].
  destruct (sale_line_number vars) as [ln|]; [|reflexivity].
  destruct (sale_vin vars) as [v|]; [|reflexivity].
  destruct (sale_cost vars) as [c|]; [|reflexivity].
  destruct (sale_date vars) as [d|]; [|reflexivity].
  unfold bind at 1. unfold gets at 1.
  destruct (dict_get _ _ v) as [m|]; [|reflexivity].
  unfold bind at 1. unfold reads at 1.
  destruct (read_or_fail st cars_txt m) as [line|e]; [|reflexivity].
  destruct (negb (length (split PIPE line) =? 5)); [reflexivity|].
  unfold bind at 1. unfold reads at 1.
  destruct (Car_of_parts (split PIPE line)) as [car|e]; [|reflexivity].
  destruct (negb (CarStatus_eqb (status car) sold)); [reflexivity|].
  destruct (LINE_DATA_LENGTH <? length (deleted_sale_data _ _ _ _)) eqn:E;
    [reflexivity|].
  apply Nat.ltb_ge in E.
  unfold bind at 1. rewrite write_line_put by exact E.
  unfold bind at 1. unfold gets at 1.
  rewrite load_index_put_line.
  unfold sale_deleted.
  set (st1 := put_line st sales_txt ln _).
  unfold bind at 1.
  destruct (dict_mem str_eqb (_load_index st sales_index_txt) v).
  - unfold _save_index at 1.
    destruct (LINE_DATA_LENGTH
              <? length (Car_data (set_status car available))) eqn:E2;
      [reflexivity|].
    apply Nat.ltb_ge in E2.
    unfold bind at 1. rewrite write_line_put by exact E2. reflexivity.
  - unfold ret at 1.
    destruct (LINE_DATA_LENGTH
              <? length (Car_data (set_status car available))) eqn:E2;
      [reflexivity|].
    apply Nat.ltb_ge in E2.
    unfold bind at 1. rewrite write_line_put by exact E2. reflexivity.
Qed.
End Paths.

(** ** get_car_info and the sale file *)

Section GetCarInfo.
Context {lib : PyLib} {enum : CarStatusEnum} {key : SaleKey}.

(** The scan of [get_car_info] stops at a record of four fields whose
    second field is the VIN and whose cost and date parse, whatever its
    first field is: a key with the deletion marker does not make the scan
    pass over the record. *)
Lemma info_scan_body_match (st : Store) (vin_ : str)
  (vars : option datetime * option Decimal) (n : nat) (line : str)
  (c : Decimal) (d : datetime) :
  _read_fixed_length_line st sales_txt n = Ok line ->
  is_blank line = false ->
  length (split PIPE line) = 4 ->
  nth 1 (split PIPE line) [] = vin_ ->
  Decimal_of_str (nth 2 (split PIPE line) []) = Some c ->
  fromisoformat (nth 3 (split PIPE line) []) = Some d ->
  info_scan_body st vin_ vars n = Break (Some d, Some c).
Proof.
  intros R B L V C D. unfold info_scan_body.
  rewrite R, B, L, V, C, D, str_eqb_refl. reflexivity.
Qed.
End GetCarInfo.

(** ** revert_sale and the sales index *)

Section RevertSale.
Context {lib : PyLib} {enum : CarStatusEnum} {key : SaleKey}.

Lemma sale_deleted_index (st : Store) (sales_number_ v : str) (ln : nat)
  (c : Decimal) (d : datetime) :
  let sales_index := _load_index (sale_deleted st sales_number_ v ln c d)
                                 sales_index_txt in
  dict_get str_eqb sales_index v = None
  /\ (forall k, k <> v ->
        dict_get str_eqb sales_index k
        = dict_get str_eqb (_load_index st sales_index_txt) k).
Proof.
  unfold sale_deleted.
  destruct (dict_mem str_eqb (_load_index st sales_index_txt) v) eqn:Hm.
  - rewrite load_index_saved
      by (apply NoDup_dict_del; apply NoDup_json_load).
    split.
    + apply (dict_get_del_same str_eqb_eq). apply NoDup_json_load.
    + intros k Hk. apply (dict_get_del_other str_eqb_eq). congruence.
  - rewrite load_index_put_line. split; [|reflexivity].
    unfold dict_mem in Hm.
    destruct (dict_get str_eqb (_load_index st sales_index_txt) v);
      [discriminate|reflexivity].
Qed.


(** The record number and the VIN the scan of [revert_sale] ends with are
    those of one record: its first field is the sale number looked for,
    its second field the VIN. *)
Lemma revert_scan_found (st : Store) (sales_number_ : str)
  (lines : list nat) (vars vars' : SaleVars) (ln : nat) (v : str) :
  revert_scan st sales_number_ lines vars = Ok vars' ->
  sale_line_number vars' = Some ln ->
  sale_vin vars' = Some v ->
  (sale_line_number vars = Some ln /\ sale_vin vars = Some v)
  \/ (In ln lines
      /\ exists line,
          _read_fixed_length_line st sales_txt ln = Ok line
          /\ nth 0 (split PIPE line) [] = sales_number_
          /\ nth 1 (split PIPE line) [] = v).
Proof.
  revert vars. induction lines as [|n lines IH]; intros vars H L V.
  - injection H as <-. left. split; assumption.
  - assert (Hgo : revert_scan st sales_number_ lines vars = Ok vars' ->
                  (sale_line_number vars = Some ln /\ sale_vin vars = Some v)
                  \/ (In ln (n :: lines)
                      /\ exists line,
                          _read_fixed_length_line st sales_txt ln = Ok line
                          /\ nth 0 (split PIPE line) [] = sales_number_
                          /\ nth 1 (split PIPE line) [] = v)).
    { intros H'. destruct (IH _ H' L V) as [G|[Hin Hex]];
        [left; exact G|right; split; [right; exact Hin|exact Hex]]. }
    cbn [revert_scan] in H. unfold revert_scan_body in H.
    destruct (_read_fixed_length_line st sales_txt n) as [line|e0] eqn:R.
    2:{ destruct (is_ValueError e0 || is_IndexError e0);
          [exact (Hgo H)|discriminate]. }
    destruct (is_blank line); [exact (Hgo H)|].
    destruct (negb (length (split PIPE line) =? 4)); [exact (Hgo H)|].
    destruct (startswith (nth 0 (split PIPE line) []) DELETED_);
      [exact (Hgo H)|].
    destruct (str_eqb (nth 0 (split PIPE line) []) sales_number_) eqn:Eq;
      [|exact (Hgo H)].
    apply str_eqb_eq in Eq.
    destruct (Decimal_of_str (nth 2 (split PIPE line) [])) as [c|];
      [|discriminate].
    destruct (fromisoformat (nth 3 (split PIPE line) [])) as [d|].
    + injection H as <-. cbn [sale_line_number sale_vin] in L, V.
      injection L as <-. injection V as <-.
      right. split; [left; reflexivity|].
      exists line. split; [exact R|]. split; [exact Eq|reflexivity].
    + destruct (IH _ H L V) as [[L' V']|[Hin Hex]].
      * cbn [sale_line_number sale_vin] in L', V'.
        injection L' as <-. injection V' as <-.
        right. split; [left; reflexivity|].
        exists line. split; [exact R|]. split; [exact Eq|reflexivity].
      * right. split; [right; exact Hin|exact Hex].
Qed.

End RevertSale.

(** ** Index entries are record numbers of their file *)

Lemma records_in_range_empty : records_in_range empty_store.
Proof. intros i kv Hin. destruct i; destruct Hin. Qed.

Lemma records_in_range_put_line (st : Store) (p : RecPath) (n : nat)
  (data : str) :
  length data <= LINE_DATA_LENGTH ->
  records_in_range st -> records_in_range (put_line st p n data).
Proof.
  intros Hl Hinv i kv Hin. rewrite get_index_put_line in Hin.
  eapply Nat.lt_le_trans; [apply Hinv; exact Hin|].
  apply line_count_put_line_ge; exact Hl.
Qed.

Lemma records_in_range_save (st : Store) (i : IdxPath) (d : IndexFile) :
  records_in_range st ->
  (forall kv, In kv d -> snd kv < _get_file_line_count st (rec_of i)) ->
  records_in_range (set_index_file st i d).
Proof.
  intros Hinv Hd j kv Hin. rewrite line_count_set_index.
  destruct i, j;
    try (rewrite get_set_index_same in Hin; apply Hd; exact Hin);
    rewrite get_set_index_other in Hin by discriminate;
    apply Hinv; exact Hin.
Qed.

Lemma loaded_in_range (st : Store) (i : IdxPath) (kv : str * nat) :
  records_in_range st -> In kv (_load_index st i) ->
  snd kv < _get_file_line_count st (rec_of i).
Proof. intros Hinv Hin. apply Hinv. apply In_json_load. exact Hin. Qed.

Lemma records_in_range_inserted (st : Store) (i : IdxPath) (k data : str) :
  length data <= LINE_DATA_LENGTH ->
  records_in_range st -> records_in_range (inserted st (rec_of i) i k data).
Proof.
  intros Hl Hinv. unfold inserted.
  apply records_in_range_save.
  - apply records_in_range_put_line; assumption.
  - intros kv Hin. apply In_dict_set in Hin. destruct Hin as [->|Hin].
    + simpl. apply line_count_put_line_lt; exact Hl.
    + eapply Nat.lt_le_trans; [apply loaded_in_range; eassumption|].
      apply line_count_put_line_ge; exact Hl.
Qed.

Lemma In_entries_of (d : Index) (ks : list str) (kv : str * nat) :
  In kv (entries_of d ks) -> In kv d.
Proof.
  unfold entries_of. rewrite in_flat_map. intros (k & _ & Hin).
  destruct (dict_get str_eqb d k) as [v|] eqn:G; [|destruct Hin].
  destruct Hin as [<-|[]]. apply (dict_get_In str_eqb_eq). exact G.
Qed.

Section Invariant.
Context {lib : PyLib} {enum : CarStatusEnum} {key : SaleKey}.

Lemma inserted_entry (st : Store) (p : RecPath) (i : IdxPath) (k data : str) :
  dict_get str_eqb (_load_index (inserted st p i k data) i) k
  = Some (_get_file_line_count st p).
Proof.
  unfold inserted. rewrite load_index_saved.
  - apply (dict_get_set_same str_eqb_eq).
  - apply (NoDup_dict_set str_eqb_eq). apply NoDup_json_load.
Qed.

Lemma records_in_range_add_model (m : Model) (st : Store) :
  records_in_range st -> records_in_range (snd (add_model m st)).
Proof.
  intros Hinv. rewrite add_model_unfold. unfold add_model_paths.
  destruct (dict_mem _ _ _); [exact Hinv|].
  destruct (LINE_DATA_LENGTH <? length (Model_data m)) eqn:E;
    [exact Hinv|].
  apply Nat.ltb_ge in E.
  apply (records_in_range_inserted models_index_txt); assumption.
Qed.

Lemma records_in_range_add_car (c : Car) (st : Store) :
  records_in_range st -> records_in_range (snd (add_car c st)).
Proof.
  intros Hinv. rewrite add_car_unfold. unfold add_car_paths.
  destruct (dict_mem _ _ (Car_index c)); [exact Hinv|].
  destruct (negb _); [exact Hinv|].
  destruct (LINE_DATA_LENGTH <? length (Car_data c)) eqn:E; [exact Hinv|].
  apply Nat.ltb_ge in E.
  apply (records_in_range_inserted cars_index_txt); assumption.
Qed.

Lemma records_in_range_sell_car (sale : Sale) (st : Store) :
  records_in_range st -> records_in_range (snd (sell_car sale st)).
Proof.
  intros Hinv.
  destruct (Nat.le_gt_cases (length (Sale_data sale)) LINE_DATA_LENGTH)
    as [Hl|Hl].
  - assert (Hrec : records_in_range (sale_recorded sale st))
      by (apply (records_in_range_inserted sales_index_txt); assumption).
    destruct (sell_car_store sale st Hl) as [_ [->|(m & data & Hd & _ & ->)]];
      [exact Hrec|].
    apply records_in_range_put_line; assumption.
  - rewrite sell_car_unfold. unfold sell_car_paths.
    apply Nat.ltb_lt in Hl. rewrite Hl. exact Hinv.
Qed.

Lemma records_in_range_update_vin (vin_ new_vin : str) (st : Store) :
  records_in_range st ->
  records_in_range (snd (update_vin vin_ new_vin st)).
Proof.
  intros Hinv. rewrite update_vin_unfold. unfold update_vin_paths.
  destruct (dict_mem _ _ _); [exact Hinv|].
  destruct (dict_get _ _ vin_) as [n|] eqn:G; [|exact Hinv].
  destruct (read_or_fail st cars_txt n) as [line|e]; [|exact Hinv].
  destruct (negb _); [exact Hinv|].
  destruct (Car_of_parts _) as [car|e]; [|exact Hinv].
  destruct (LINE_DATA_LENGTH <? length (Car_data (set_vin car new_vin)))
    eqn:E; [exact Hinv|].
  apply Nat.ltb_ge in E. cbn [snd].
  apply records_in_range_save.
  - apply records_in_range_put_line; assumption.
  - intros kv Hin. unfold renamed_index in Hin.
    rewrite sort_index_entries in Hin.
    2:{ apply (NoDup_dict_set str_eqb_eq). apply NoDup_dict_del.
        apply NoDup_json_load. }
    apply In_entries_of in Hin. apply In_dict_set in Hin.
    eapply Nat.lt_le_trans;
      [|apply line_count_put_line_ge; exact E].
    destruct Hin as [->|Hin].
    + apply (dict_get_In str_eqb_eq) in G.
      apply (loaded_in_range cars_index_txt _ Hinv G).
    + apply In_dict_del in Hin.
      apply (loaded_in_range cars_index_txt _ Hinv Hin).
Qed.

Lemma records_in_range_sale_deleted (st : Store) (sales_number_ v : str)
  (ln : nat) (c : Decimal) (d : datetime) :
  length (deleted_sale_data sales_number_ v c d) <= LINE_DATA_LENGTH ->
  records_in_range st ->
  records_in_range (sale_deleted st sales_number_ v ln c d).
Proof.
  intros Hl Hinv. unfold sale_deleted.
  destruct (dict_mem _ _ _).
  - apply records_in_range_save.
    + apply records_in_range_put_line; assumption.
    + intros kv Hin. apply In_dict_del in Hin.
      eapply Nat.lt_le_trans;
        [|apply line_count_put_line_ge; exact Hl].
      apply (loaded_in_range sales_index_txt _ Hinv Hin).
  - apply records_in_range_put_line; assumption.
Qed.

Lemma records_in_range_revert_sale (sales_number_ : str) (st : Store) :
  records_in_range st ->
  records_in_range (snd (revert_sale sales_number_ st)).
Proof.
  intros Hinv. rewrite revert_sale_unfold. unfold revert_sale_paths.
  destruct (negb (path_exists st sales_txt)); [exact Hinv|].
  destruct (revert_scan _ _ _ _) as [vars|e]; [|exact Hinv].
  destruct (negb (sale_found vars)); [exact Hinv|].
  destruct (sale_line_number vars) as [ln|]; [|exact Hinv].
  destruct (sale_vin vars) as [v|]; [|exact Hinv].
  destruct (sale_cost vars) as [c|]; [|exact Hinv].
  destruct (sale_date vars) as [d|]; [|exact Hinv].
  destruct (dict_get _ _ v) as [m|]; [|exact Hinv].
  destruct (read_or_fail st cars_txt m) as [line|e]; [|exact Hinv].
  destruct (negb (length (split PIPE line) =? 5)); [exact Hinv|].
  destruct (Car_of_parts (split PIPE line)) as [car|e]; [|exact Hinv].
  destruct (negb (CarStatus_eqb (status car) sold)); [exact Hinv|].
  destruct (LINE_DATA_LENGTH <? length (deleted_sale_data _ _ _ _)) eqn:E;
    [exact Hinv|].
  apply Nat.ltb_ge in E.
  assert (Hdel : records_in_range (sale_deleted st sales_number_ v ln c d))
    by (apply records_in_range_sale_deleted; assumption).
  destruct (LINE_DATA_LENGTH
            <? length (Car_data (set_status car available))) eqn:E2;
    [exact Hdel|].
  apply Nat.ltb_ge in E2.
  apply records_in_range_put_line; assumption.
Qed.

End Invariant.

(** ** top_models_by_sales *)

Lemma StronglySorted_firstn_skipn (A : Type) (R : A -> A -> Prop)
  (l : list A) (n : nat) (x y : A) :
  StronglySorted R l -> In x (firstn n l) -> In y (skipn n l) -> R x y.
Proof.
  intros Hs. revert n. induction Hs as [|a l Hs IH Hall]; intros n Hx Hy.
  - rewrite firstn_nil in Hx. destruct Hx.
  - destruct n as [|n]; [destruct Hx|].
    simpl in Hx, Hy. destruct Hx as [->|Hx].
    + rewrite Forall_forall in Hall. apply Hall.
      rewrite <- (firstn_skipn n l). apply in_or_app. right; exact Hy.
    + eapply IH; eassumption.
Qed.

Section TopModels.
Context {lib : PyLib} {enum : CarStatusEnum} {key : SaleKey}.

Lemma top_scan_try_counted (st : Store) (cars_index : Index)
  (vars : Counts * Totals) (line_num : nat) :
  top_scan_try st cars_index vars line_num
  = match counted_sale st cars_index line_num with
    | Ok (Some s) => Ok (Some (add_sale vars s))
    | Ok None => Ok None
    | Raise e => Raise e
    end.
Proof.
  unfold top_scan_try, counted_sale, rbind.
  destruct (_read_fixed_length_line st sales_txt line_num) as [line|e];
    [|reflexivity].
  destruct (is_blank line || startswith line DELETED_); [reflexivity|].
  destruct (negb (length (split PIPE line) =? 4)); [reflexivity|].
  destruct (Decimal_ (nth 2 (split PIPE line) [])) as [p|e]; [|reflexivity].
  destruct (dict_get str_eqb cars_index (nth 1 (split PIPE line) []))
    as [n|]; [|reflexivity].
  destruct (_read_fixed_length_line st cars_txt n) as [cline|e];
    [|reflexivity].
  destruct (length (split PIPE cline) <? 2); [reflexivity|].
  destruct (int (nth 1 (split PIPE cline) [])) as [m|e]; reflexivity.
Qed.

(** The scan runs to its end when the exceptions of its records are
    among those the [except] clause lists. *)
Lemma top_scan_live (st : Store) (cars_index : Index) (lines : list nat)
  (vars : Counts * Totals) :
  (forall n e, In n lines -> counted_sale st cars_index n = Raise e ->
               is_ValueError e || is_IndexError e = true) ->
  top_scan st cars_index lines vars
  = Ok (fold_left add_sale (live_sales st cars_index lines) vars).
Proof.
  revert vars; induction lines as [|n lines IH]; intros vars Hc;
    [reflexivity|].
  cbn [top_scan live_sales]. rewrite top_scan_try_counted.
  assert (Hc' : forall n e, In n lines ->
                            counted_sale st cars_index n = Raise e ->
                            is_ValueError e || is_IndexError e = true).
  { intros m e Hm. apply Hc. right; exact Hm. }
  destruct (counted_sale st cars_index n) as [[s|]|e] eqn:E.
  - rewrite IH by exact Hc'. reflexivity.
  - apply IH; exact Hc'.
  - rewrite (Hc n e (or_introl eq_refl) E). apply IH; exact Hc'.
Qed.

(** A record of an existing sale file raises nothing the scan does not
    catch, when the car file exists and the cost field of every record of
    four fields is a decimal. *)
Lemma counted_sale_caught (st : Store) (cars_index : Index) (n : nat)
  (e : exn) :
  path_exists st cars_txt = true ->
  (forall line,
      _read_fixed_length_line st sales_txt n = Ok line ->
      length (split PIPE line) = 4 ->
      Decimal_of_str (nth 2 (split PIPE line) []) <> None) ->
  path_exists st sales_txt = true ->
  counted_sale st cars_index n = Raise e ->
  is_ValueError e || is_IndexError e = true.
Proof.
  intros Hcars Hcost Hsales. unfold counted_sale, rbind.
  destruct (_read_fixed_length_line st sales_txt n) as [line|e0] eqn:R.
  2:{ unfold _read_fixed_length_line, path_exists in *.
      destruct (get_file st sales_txt); discriminate. }
  destruct (is_blank line || startswith line DELETED_); [discriminate|].
  destruct (length (split PIPE line) =? 4) eqn:L; [|discriminate].
  apply Nat.eqb_eq in L. cbn [negb].
  unfold Decimal_.
  destruct (Decimal_of_str (nth 2 (split PIPE line) [])) as [p|] eqn:P.
  2:{ exfalso. exact (Hcost line eq_refl L P). }
  destruct (dict_get str_eqb cars_index (nth 1 (split PIPE line) []))
    as [m|]; [|discriminate].
  destruct (_read_fixed_length_line st cars_txt m) as [cline|e0] eqn:R2.
  2:{ unfold _read_fixed_length_line, path_exists in *.
      destruct (get_file st cars_txt); discriminate. }
  destruct (length (split PIPE cline) <? 2); [discriminate|].
  unfold int. destruct (int_of_str _); [discriminate|].
  intros [= <-]. reflexivity.
Qed.

Lemma sold_count_snoc (sales : list (Z * Decimal)) (s : Z * Decimal) (m : Z) :
  sold_count (sales ++ [s]) m
  = if Z.eqb (fst s) m then S (sold_count sales m) else sold_count sales m.
Proof.
  unfold sold_count. rewrite filter_app, length_app. simpl.
  destruct (Z.eqb (fst s) m); simpl; lia.
Qed.

Lemma sold_total_snoc (sales : list (Z * Decimal)) (s : Z * Decimal) (m : Z) :
  sold_total (sales ++ [s]) m
  = if Z.eqb (fst s) m then Decimal_add (sold_total sales m) (snd s)
    else sold_total sales m.
Proof.
  unfold sold_total. rewrite filter_app, map_app, fold_left_app. simpl.
  destruct (Z.eqb (fst s) m); reflexivity.
Qed.

Lemma sold_count_pos (sales : list (Z * Decimal)) (m : Z) :
  0 < sold_count sales m <-> In m (map fst sales).
Proof.
  unfold sold_count. induction sales as [|s sales IH]; simpl; [lia|].
  destruct (Z.eqb (fst s) m) eqn:E; simpl.
  - apply Z.eqb_eq in E. split; [auto|lia].
  - rewrite IH. split; [auto|].
    intros [H|H]; [|exact H]. apply Z.eqb_neq in E. contradiction.
Qed.

(** The two dictionaries after the scan hold these statistics. *)
Lemma scan_statistics (sales : list (Z * Decimal)) :
  let vars := fold_left add_sale sales ([], []) in
  NoDup (dict_keys (fst vars))
  /\ (forall m,
        dict_get Z.eqb (fst vars) m
        = if sold_count sales m =? 0 then None
          else Some (sold_count sales m))
  /\ (forall m,
        get_default Z.eqb (snd vars) m Decimal_zero = sold_total sales m).
Proof.
  induction sales as [|s sales IH] using rev_ind.
  - simpl. split; [constructor|]. split; reflexivity.
  - rewrite fold_left_app. cbn [fold_left].
    set (vars := fold_left add_sale sales ([], [])) in *.
    destruct IH as (Hnd & Hc & Ht).
    unfold add_sale. cbn [fst snd].
    split; [apply (NoDup_dict_set Z.eqb_eq); exact Hnd|].
    split; intros m.
    + rewrite sold_count_snoc.
      destruct (Z.eqb (fst s) m) eqn:E.
      * apply Z.eqb_eq in E. subst m.
        rewrite (dict_get_set_same Z.eqb_eq). unfold get_default.
        rewrite Hc. cbn [Nat.eqb].
        destruct (sold_count sales (fst s)) as [|c]; simpl; f_equal; lia.
      * apply Z.eqb_neq in E.
        rewrite (dict_get_set_other Z.eqb_eq) by exact E. apply Hc.
    + rewrite sold_total_snoc. unfold get_default.
      destruct (Z.eqb (fst s) m) eqn:E.
      * apply Z.eqb_eq in E. subst m.
        rewrite (dict_get_set_same Z.eqb_eq).
        f_equal. apply Ht.
      * apply Z.eqb_neq in E.
        rewrite (dict_get_set_other Z.eqb_eq) by exact E. apply Ht.
Qed.

Lemma In_dict_get (d : Counts) (m : Z) (c : nat) :
  NoDup (dict_keys d) -> In (m, c) d -> dict_get Z.eqb d m = Some c.
Proof.
  induction d as [|[k v] d IH]; simpl; intros Hnd Hin; [destruct Hin|].
  inversion Hnd as [|? ? Hn Hnd']; subst.
  destruct Hin as [E|Hin].
  - inversion E; subst. rewrite Z.eqb_refl. reflexivity.
  - destruct (Z.eqb m k) eqn:E; [|auto].
    apply Z.eqb_eq in E. subst k. exfalso. apply Hn.
    apply (in_map fst) in Hin. exact Hin.
Qed.

(** The candidates of the ranking: one triple per model sold, with its
    number of sales and its average cost. *)
Lemma models_for_sorting_statistics (sales : list (Z * Decimal)) :
  let vars := fold_left add_sale sales ([], []) in
  models_for_sorting vars
  = map (fun m => (m, sold_count sales m, average sales m))
        (dict_keys (fst vars)).
Proof.
  intros vars. destruct (scan_statistics sales) as (Hnd & Hc & Ht).
  fold vars in Hnd, Hc, Ht.
  unfold models_for_sorting, dict_keys. rewrite map_map.
  apply map_ext_in. intros [m c] Hin. cbn [fst snd].
  pose proof (@In_dict_get _ _ _ Hnd Hin) as G. rewrite Hc in G.
  destruct (sold_count sales m =? 0) eqn:E; [discriminate|].
  injection G as <-. apply Nat.eqb_neq in E.
  assert (P : (0 <? sold_count sales m) = true) by (apply Nat.ltb_lt; lia).
  rewrite P, Ht. reflexivity.
Qed.

Lemma sold_models (sales : list (Z * Decimal)) (m : Z) :
  In m (dict_keys (fst (fold_left add_sale sales ([], []))))
  <-> In m (map fst sales).
Proof.
  destruct (scan_statistics sales) as (_ & Hc & _).
  rewrite <- sold_count_pos, <- (dict_mem_In Z.eqb_eq).
  unfold dict_mem. rewrite Hc.
  destruct (sold_count sales m =? 0) eqn:E.
  - apply Nat.eqb_eq in E. split; [discriminate|lia].
  - apply Nat.eqb_neq in E. split; [lia|reflexivity].
Qed.
End TopModels.

Section Ranking.
Context {lib : PyLib} {enum : CarStatusEnum} {key : SaleKey}.
Context {order : DecimalOrder}.

Implicit Types x y z : Z * nat * Decimal.

Lemma key_ltb_counts x y :
  key_ltb x y
  = if snd (fst x) =? snd (fst y) then Decimal_ltb (snd x) (snd y)
    else snd (fst x) <? snd (fst y).
Proof.
  destruct x as [[m1 c1] a1], y as [[m2 c2] a2]. cbn [key_ltb fst snd].
  destruct (c1 =? c2); [|reflexivity].
  destruct (Decimal_eqb a1 a2) eqn:E; [|reflexivity].
  apply Decimal_eqb_ltb in E. symmetry. apply E.
Qed.

Lemma key_ltb_false x y : key_ltb x y = false <-> ranks_before x y.
Proof.
  rewrite key_ltb_counts. unfold ranks_before.
  destruct (snd (fst x) =? snd (fst y)) eqn:E.
  - apply Nat.eqb_eq in E. split; [auto|].
    intros [H|[_ H]]; [lia|exact H].
  - apply Nat.eqb_neq in E. rewrite Nat.ltb_ge. split; [lia|].
    intros [H|[H _]]; [lia|contradiction].
Qed.

Lemma key_ltb_asym x y : key_ltb x y = true -> key_ltb y x = false.
Proof.
  rewrite !key_ltb_counts.
  destruct (snd (fst x) =? snd (fst y)) eqn:E.
  - apply Nat.eqb_eq in E. rewrite <- E, Nat.eqb_refl.
    apply Decimal_ltb_asym.
  - rewrite Nat.eqb_sym, E. rewrite Nat.ltb_lt, Nat.ltb_ge. lia.
Qed.

Lemma key_ngt_trans x y z :
  ngt key_ltb x y -> ngt key_ltb y z -> ngt key_ltb x z.
Proof.
  unfold ngt. rewrite !key_ltb_false. unfold ranks_before.
  intros [H1|[E1 L1]] [H2|[E2 L2]]; try (left; lia).
  right. split; [lia|].
  eapply Decimal_ngt_trans; eassumption.
Qed.

Lemma StronglySorted_impl (A : Type) (R R' : A -> A -> Prop) (l : list A) :
  (forall a b, R a b -> R' a b) -> StronglySorted R l -> StronglySorted R' l.
Proof.
  intros HR. induction 1 as [|a l Hs IH Hall]; constructor; [exact IH|].
  eapply Forall_impl; [|exact Hall]. intros b. apply HR.
Qed.

Lemma top_resolve_resolved (st : Store) (top : list (Z * nat * Decimal))
  (result : list ModelSaleStats) :
  path_exists st models_txt = true ->
  top_resolve st (_load_index st models_index_txt) top result
  = Ok (result ++ resolved st top).
Proof.
  intros Hm. revert result.
  induction top as [|[[m c] a] top IH]; intros result; simpl.
  - rewrite app_nil_r. reflexivity.
  - unfold model_record. cbn [fst snd].
    destruct (dict_get str_eqb (_load_index st models_index_txt)
                       (str_of_int m)) as [n|]; [|apply IH].
    destruct (_read_fixed_length_line st models_txt n) as [line|e] eqn:R.
    2:{ unfold _read_fixed_length_line, path_exists in *.
        destruct (get_file st models_txt); discriminate. }
    destruct (length (split PIPE line) =? 3); cbn [negb]; [|apply IH].
    rewrite IH, <- app_assoc. reflexivity.
Qed.

Lemma length_resolved (st : Store) (top : list (Z * nat * Decimal)) :
  length (resolved st top) <= length top.
Proof.
  induction top as [|x top IH]; simpl; [lia|].
  rewrite length_app.
  destruct (model_record st (fst (fst x))) as [[? ?]|]; simpl; lia.
Qed.

End Ranking.

(** ** get_cars *)

Section GetCars.
Context {lib : PyLib} {enum : CarStatusEnum} {key : SaleKey}.

Lemma get_cars_loop_scan (st : Store) (status_ : CarStatus)
  (lines : list nat) (result_cars : list Car) :
  (forall n e, In n lines -> get_cars_try st status_ n = Raise e ->
               is_ValueError e || is_IndexError e = true) ->
  get_cars_loop st status_ lines result_cars
  = Ok (result_cars ++ cars_with_status st status_ lines).
Proof.
  revert result_cars.
  induction lines as [|n lines IH]; intros result_cars Hc.
  - simpl. rewrite app_nil_r. reflexivity.
  - assert (Hc' : forall n e, In n lines ->
                              get_cars_try st status_ n = Raise e ->
                              is_ValueError e || is_IndexError e = true).
    { intros m e Hm. apply Hc. right; exact Hm. }
    cbn [get_cars_loop cars_with_status flat_map].
    fold (cars_with_status st status_ lines).
    pose proof (Hc n) as Hn.
    unfold get_cars_try, stored_car, rbind in *.
    destruct (_read_fixed_length_line st cars_txt n) as [line|e].
    2:{ rewrite (Hn e (or_introl eq_refl) eq_refl). apply IH; exact Hc'. }
    destruct (is_blank line); [apply IH; exact Hc'|].
    destruct (length (split PIPE line) =? 5); cbn [negb];
      [|apply IH; exact Hc'].
    destruct (Car_of_parts (split PIPE line)) as [car|e].
    + destruct (CarStatus_eqb (status car) status_).
      * rewrite IH by exact Hc'. rewrite <- app_assoc. reflexivity.
      * apply IH; exact Hc'.
    + rewrite (Hn e (or_introl eq_refl) eq_refl). apply IH; exact Hc'.
Qed.

(** X5.  What [get_cars] returns when no record aborts the scan: the cars
    of the requested status, in the order of their records.  The scan is not
    aborted when every record of five fields with an integer model id has a
    decimal in its price field. *)
Lemma get_cars_scan_order (st : Store) (status_ : CarStatus) :
  (path_exists st cars_txt = false -> get_cars st status_ = Ok [])
  /\ (path_exists st cars_txt = true ->
      (forall n line,
          n < _get_file_line_count st cars_txt ->
          _read_fixed_length_line st cars_txt n = Ok line ->
          length (split PIPE line) = 5 ->
          int_of_str (nth 1 (split PIPE line) []) <> None ->
          Decimal_of_str (nth 2 (split PIPE line) []) <> None) ->
      get_cars st status_
      = Ok (cars_with_status st status_
              (seq 0 (_get_file_line_count st cars_txt)))).
Proof.
  split.
  { intros Hp. unfold get_cars. rewrite Hp. reflexivity. }
  intros Hp Hprice. unfold get_cars. rewrite Hp. cbn [negb].
  rewrite get_cars_loop_scan; [reflexivity|].
  intros n e Hin. apply in_seq in Hin.
  unfold get_cars_try, rbind.
  destruct (_read_fixed_length_line st cars_txt n) as [line|e0] eqn:R.
  2:{ unfold _read_fixed_length_line, path_exists in *.
      destruct (get_file st cars_txt); discriminate. }
  destruct (is_blank line); [discriminate|].
  destruct (length (split PIPE line) =? 5) eqn:L; cbn [negb];
    [|discriminate].
  apply Nat.eqb_eq in L.
  assert (Hp2 := Hprice n line ltac:(lia) R L).
  destruct (Car_of_parts (split PIPE line)) as [car|e1] eqn:P.
  { destruct (CarStatus_eqb (status car) status_); discriminate. }
  intros [= <-].
  destruct (split PIPE line) as [|p0 [|p1 [|p2 [|p3 [|p4 [|]]]]]];
    try discriminate L.
  unfold Car_of_parts, rbind, getitem, int, Decimal_,
    datetime_fromisoformat, CarStatus_ in P.
  cbn [nth_error nth] in P, Hp2.
  destruct (int_of_str p1); [|injection P as <-; reflexivity].
  destruct (Decimal_of_str p2);
    [|exfalso; apply Hp2; [discriminate|reflexivity]].
  destruct (fromisoformat p3); [|injection P as <-; reflexivity].
  destruct (CarStatus_of_value p4);
    [discriminate|injection P as <-; reflexivity].
Qed.
End GetCars.

(** * Further properties of the service *)

(** ** Text: stripping, splitting and joining *)

Lemma lstrip_app (x y : str) :
  lstrip (x ++ y)
  = match lstrip x with [] => lstrip y | _ => lstrip x ++ y end.
Proof.
  induction x as [|c x IH]; [reflexivity|]. simpl.
  destruct (isspace c); [exact IH|reflexivity].
Qed.

Lemma rstrip_app (a b : str) :
  rstrip (a ++ b)
  = match rstrip b with [] => rstrip a | _ => a ++ rstrip b end.
Proof.
  unfold rstrip. rewrite rev_app_distr, lstrip_app.
  destruct (lstrip (rev b)) as [|c l] eqn:E; [reflexivity|].
  rewrite rev_app_distr, rev_involutive.
  destruct (rev (c :: l)) eqn:R; [|reflexivity].
  apply (f_equal (@length ascii)) in R. rewrite length_rev in R.
  discriminate R.
Qed.

Lemma lstrip_idem (s : str) : lstrip (lstrip s) = lstrip s.
Proof.
  induction s as [|c s IH]; [reflexivity|]. simpl.
  destruct (isspace c) eqn:E; [exact IH|]. simpl. rewrite E. reflexivity.
Qed.

Lemma rstrip_idem (s : str) : rstrip (rstrip s) = rstrip s.
Proof.
  unfold rstrip. rewrite rev_involutive, lstrip_idem. reflexivity.
Qed.

Lemma lstrip_suffix (s : str) : exists p, s = p ++ lstrip s.
Proof.
  induction s as [|c s [p IH]]; [exists []; reflexivity|]. simpl.
  destruct (isspace c).
  - exists (c :: p). simpl. f_equal. exact IH.
  - exists []. reflexivity.
Qed.

Lemma rstrip_prefix (s : str) : exists q, s = rstrip s ++ q.
Proof.
  unfold rstrip. destruct (lstrip_suffix (rev s)) as [p E].
  exists (rev p). rewrite <- rev_app_distr, <- E, rev_involutive.
  reflexivity.
Qed.

Lemma universal_newlines_no_CR (s : str) : ~ In CR (universal_newlines s).
Proof.
  assert (H : forall n s, length s <= n -> ~ In CR (universal_newlines s)).
  { clear s. induction n as [|n IH]; intros [|c s] Hl; simpl in *;
      try tauto; try lia.
    destruct (Ascii.eqb c CR) eqn:E.
    - destruct s as [|d s]; [intros [H|[]]; discriminate H|].
      destruct (Ascii.eqb d LF); intros [H|H]; try discriminate H.
      + revert H. apply IH. simpl in *. lia.
      + revert H. apply IH. simpl in *. lia.
    - intros [H|H].
      + subst c. rewrite Ascii.eqb_refl in E. discriminate.
      + revert H. apply IH. lia. }
  apply (H (length s)). lia.
Qed.

Lemma length_universal_newlines (s : str) :
  length (universal_newlines s) <= length s.
Proof.
  assert (H : forall n s, length s <= n ->
                          length (universal_newlines s) <= length s).
  { clear s. induction n as [|n IH]; intros [|c s] Hl; simpl in *;
      try lia.
    destruct (Ascii.eqb c CR).
    - destruct s as [|d s]; [simpl; lia|].
      destruct (Ascii.eqb d LF); simpl.
      + assert (length (universal_newlines s) <= length s)
          by (apply IH; simpl in Hl; lia). lia.
      + assert (length (universal_newlines (d :: s)) <= length (d :: s))
          by (apply IH; simpl in *; lia). simpl in *. lia.
    - simpl. assert (length (universal_newlines s) <= length s)
        by (apply IH; lia). lia. }
  apply (H (length s)). lia.
Qed.

(** [split] on a text without the separator, and before a separator. *)
Lemma split_no_sep (sep : ascii) (a : str) :
  ~ In sep a -> split sep a = [a].
Proof.
  induction a as [|c a IH]; intros Hn; [reflexivity|]. simpl.
  destruct (Ascii.eqb c sep) eqn:E.
  - apply Ascii.eqb_eq in E. exfalso. apply Hn. left; auto.
  - rewrite IH by (intros H; apply Hn; right; exact H). reflexivity.
Qed.

Lemma split_app_sep (sep : ascii) (a rest : str) :
  ~ In sep a -> split sep (a ++ sep :: rest) = a :: split sep rest.
Proof.
  induction a as [|c a IH]; intros Hn; simpl.
  - rewrite Ascii.eqb_refl. reflexivity.
  - destruct (Ascii.eqb c sep) eqn:E.
    + apply Ascii.eqb_eq in E. exfalso. apply Hn. left; auto.
    + rewrite IH by (intros H; apply Hn; right; exact H). reflexivity.
Qed.

(** Splitting a joined record at the separator gives back its fields,
    when there is at least one field and no field holds the separator. *)
Lemma split_join (sep : ascii) (parts : list str) :
  parts <> [] ->
  Forall (fun p => ~ In sep p) parts ->
  split sep (join sep parts) = parts.
Proof.
  intros Hne Hall. revert Hne.
  induction Hall as [|p ps Hp Hps IH]; intros Hne;
    [exfalso; apply Hne; reflexivity|].
  destruct ps as [|q ps].
  - simpl. apply split_no_sep. exact Hp.
  - change (join sep (p :: q :: ps)) with (p ++ sep :: join sep (q :: ps)).
    rewrite split_app_sep by exact Hp. f_equal. apply IH. discriminate.
Qed.

(** ** Records of a file: what a read returns, what a write leaves *)

Lemma read_put_line_same (st : Store) (p : RecPath) (n : nat) (data : str) :
  length data <= LINE_DATA_LENGTH -> ~ In CR data ->
  _read_fixed_length_line (put_line st p n data) p n = Ok (rstrip data).
Proof.
  intros Hl Hn. unfold _read_fixed_length_line.
  rewrite get_file_put_line_same. unfold block.
  rewrite read_at_write_at by assumption. rewrite rstrip_ljust.
  reflexivity.
Qed.

Lemma firstn_write_at_le (content : File) (pos k : nat) (blk : str) :
  k <= pos -> pos <= length content ->
  firstn k (write_at content pos blk) = firstn k content.
Proof.
  intros Hk Hp.
  rewrite <- (Nat.min_l k pos) by exact Hk.
  rewrite <- !firstn_firstn. f_equal. apply firstn_write_at. exact Hp.
Qed.

Lemma skipn_write_at_after (content : File) (pos k : nat) (blk : str) :
  pos <= length content -> pos + length blk <= k ->
  skipn k (write_at content pos blk) = skipn k content.
Proof.
  intros Hp Hk.
  replace k with ((k - pos) + pos) at 1 by lia.
  rewrite <- skipn_skipn, skipn_write_at.
  rewrite skipn_app.
  rewrite (skipn_all2 blk) by lia. cbn [app].
  rewrite skipn_skipn. f_equal. lia.
Qed.

(** A record without carriage returns that lies before [limit] is read
    from the bytes before [limit] only. *)
Lemma read_at_local (content : File) (m : nat) :
  m * LINE_TOTAL_LENGTH + LINE_DATA_LENGTH <= length content ->
  ~ In CR (firstn LINE_DATA_LENGTH (skipn (m * LINE_TOTAL_LENGTH) content)) ->
  read_at content (m * LINE_TOTAL_LENGTH) LINE_DATA_LENGTH
  = firstn LINE_DATA_LENGTH (skipn (m * LINE_TOTAL_LENGTH) content).
Proof.
  intros Hlen Hn. unfold read_at.
  set (tail := skipn (m * LINE_TOTAL_LENGTH) content) in *.
  assert (Ht : LINE_DATA_LENGTH <= length tail).
  { unfold tail. rewrite length_skipn. lia. }
  rewrite <- (firstn_skipn LINE_DATA_LENGTH tail) at 1.
  rewrite universal_newlines_app by exact Hn.
  rewrite firstn_app, length_firstn.
  replace (LINE_DATA_LENGTH - Nat.min LINE_DATA_LENGTH (length tail))
    with 0 by lia.
  cbn [firstn]. rewrite app_nil_r. apply firstn_all2.
  rewrite length_firstn. lia.
Qed.

(** X2.  Writing record [n] of a file, at or before its end, leaves every
    other record reading as before (an earlier record provided it holds no
    carriage return), leaves the other files and the indexes alone, and
    keeps the size of the file when record [n] was inside it. *)
Theorem write_keeps_other_records (st : Store) (p : RecPath) (n m : nat)
  (data : str) (content : File) :
  get_file st p = Some content ->
  length data <= LINE_DATA_LENGTH ->
  n * LINE_TOTAL_LENGTH <= length content ->
  m <> n ->
  (m < n ->
   ~ In CR (firstn LINE_DATA_LENGTH
                   (skipn (m * LINE_TOTAL_LENGTH) content))) ->
  exists st',
    _write_fixed_length_line p n data st = (Ok tt, st')
    /\ _read_fixed_length_line st' p m = _read_fixed_length_line st p m
    /\ (n < _get_file_line_count st p -> file_size st' p = file_size st p)
    /\ (forall q, q <> p -> get_file st' q = get_file st q)
    /\ (forall i, get_index_file st' i = get_index_file st i).
Proof.
  intros G Hl Hpos Hmn Hcr.
  exists (put_line st p n data).
  split; [apply write_line_put; exact Hl|].
  assert (Hc : content_of st p = content)
    by (unfold content_of; rewrite G; reflexivity).
  split; [|split; [|split]].
  - unfold _read_fixed_length_line.
    rewrite get_file_put_line_same, G, Hc. f_equal. f_equal.
    assert (Hb : length (block data) = LINE_TOTAL_LENGTH)
      by (apply length_block_data; exact Hl).
    destruct (Nat.lt_ge_cases m n) as [Hlt|Hge].
    + assert (Hin : m * LINE_TOTAL_LENGTH + LINE_DATA_LENGTH
                    <= n * LINE_TOTAL_LENGTH)
        by (unfold LINE_TOTAL_LENGTH, LINE_DATA_LENGTH; lia).
      assert (Hsame :
                firstn LINE_DATA_LENGTH
                  (skipn (m * LINE_TOTAL_LENGTH)
                     (write_at content (n * LINE_TOTAL_LENGTH) (block data)))
                = firstn LINE_DATA_LENGTH
                    (skipn (m * LINE_TOTAL_LENGTH) content)).
      { rewrite !firstn_skipn_comm. f_equal.
        apply firstn_write_at_le; [lia|exact Hpos]. }
      rewrite !read_at_local.
      * exact Hsame.
      * lia.
      * apply Hcr; exact Hlt.
      * rewrite length_write_at. lia.
      * rewrite Hsame. apply Hcr; exact Hlt.
    + unfold read_at. rewrite skipn_write_at_after; [reflexivity|exact Hpos|].
      rewrite Hb. unfold LINE_TOTAL_LENGTH. lia.
  - intros Hin. rewrite file_size_put_line by exact Hl.
    rewrite line_count_size in Hin.
    assert (S n * LINE_TOTAL_LENGTH <= file_size st p).
    { pose proof (Nat.div_mod_eq (file_size st p) LINE_TOTAL_LENGTH) as E.
      unfold LINE_TOTAL_LENGTH in *.
      assert (S n <= file_size st p / 501) by lia. nia. }
    lia.
  - intros q Hq. apply get_file_put_line_other. congruence.
  - intros i. apply get_index_put_line.
Qed.

(** X3.  Reading a record of a file that does not exist raises
    [FileNotFoundError]; reading a record that starts at or after the end
    of the file, any record number above the line count among them,
    returns the empty text. *)
Theorem read_missing_or_past_end (st : Store) (p : RecPath) (n : nat) :
  (get_file st p = None ->
   _read_fixed_length_line st p n = Raise FileNotFoundError)
  /\ (forall content,
        get_file st p = Some content ->
        (length content <= n * LINE_TOTAL_LENGTH
         \/ _get_file_line_count st p < n) ->
        _read_fixed_length_line st p n = Ok []).
Proof.
  unfold _read_fixed_length_line. split.
  - intros G. rewrite G. reflexivity.
  - intros content G Hn. rewrite G.
    assert (Hlen : length content <= n * LINE_TOTAL_LENGTH).
    { destruct Hn as [H|H]; [exact H|].
      rewrite line_count_size in H. unfold file_size in H. rewrite G in H.
      pose proof (Nat.div_mod_eq (length content) LINE_TOTAL_LENGTH) as E.
      pose proof (Nat.mod_upper_bound (length content) LINE_TOTAL_LENGTH) as B.
      unfold LINE_TOTAL_LENGTH in *.
      assert (S (length content / 501) <= n) by lia. nia. }
    unfold read_at. rewrite skipn_all2 by exact Hlen. reflexivity.
Qed.

(** X4.  Whatever a read returns has at most 500 characters, no carriage
    return and no white space at its end. *)
Theorem read_result_shape (st : Store) (p : RecPath) (n : nat) (s : str) :
  _read_fixed_length_line st p n = Ok s ->
  length s <= LINE_DATA_LENGTH /\ ~ In CR s /\ rstrip s = s.
Proof.
  unfold _read_fixed_length_line.
  destruct (get_file st p) as [content|]; [|discriminate].
  intros [= <-].
  set (val := read_at content (n * LINE_TOTAL_LENGTH) LINE_DATA_LENGTH).
  destruct (rstrip_prefix val) as [q E].
  assert (Hval : length val <= LINE_DATA_LENGTH).
  { unfold val, read_at. rewrite length_firstn. lia. }
  assert (Hcr : ~ In CR val).
  { unfold val, read_at. intros Hin.
    apply (universal_newlines_no_CR
             (skipn (n * LINE_TOTAL_LENGTH) content)).
    rewrite <- (firstn_skipn LINE_DATA_LENGTH (universal_newlines _)).
    apply in_or_app. left. exact Hin. }
  split; [|split].
  - apply (f_equal (@length ascii)) in E. rewrite length_app in E. lia.
  - intros Hin. apply Hcr. rewrite E. apply in_or_app. left. exact Hin.
  - apply rstrip_idem.
Qed.

(** X1.  An append of data that fits returns the line count the file had,
    makes the file exactly one record longer, touches no other file and no
    index, and the record reads back as the data without its trailing
    white space.  Oversized data is refused with [LengthExceeded]; the
    file then has the content it had (a file that did not exist is left
    behind empty). *)
Theorem append_then_read (p : RecPath) (data : str) (st : Store) :
  (length data <= LINE_DATA_LENGTH ->
   exists st',
     _append_fixed_length_line p data st
     = (Ok (_get_file_line_count st p), st')
     /\ _get_file_line_count st' p = S (_get_file_line_count st p)
     /\ (forall q, q <> p -> get_file st' q = get_file st q)
     /\ (forall i, get_index_file st' i = get_index_file st i)
     /\ (~ In CR data ->
         _read_fixed_length_line st' p (_get_file_line_count st p)
         = Ok (rstrip data)))
  /\ (LINE_DATA_LENGTH < length data ->
      exists st',
        _append_fixed_length_line p data st
        = (Raise (ValueError LengthExceeded), st')
        /\ content_of st' p = content_of st p
        /\ (forall q, q <> p -> get_file st' q = get_file st q)
        /\ (forall i, get_index_file st' i = get_index_file st i)).
Proof.
  split.
  - intros Hl. exists (put_line st p (_get_file_line_count st p) data).
    split; [apply append_line_put; exact Hl|].
    split; [apply line_count_append; exact Hl|].
    split; [intros q Hq; apply get_file_put_line_other; congruence|].
    split; [intros i; apply get_index_put_line|].
    intros Hn. apply read_put_line_same; assumption.
  - intros Hl.
    unfold _append_fixed_length_line, bind, gets, path_exists, create_empty,
      ret.
    destruct (get_file st p) as [c|] eqn:G.
    + rewrite write_line_too_long by exact Hl.
      exists st. repeat split.
    + rewrite write_line_too_long by exact Hl.
      exists (set_file st p []). split; [reflexivity|].
      split.
      { unfold content_of. rewrite get_set_file_same, G. reflexivity. }
      split.
      { intros q Hq. apply get_set_file_other. congruence. }
      intros i. apply get_index_set_file.
Qed.

(** ** The record codec *)

Lemma has_false (c : ascii) (s : str) : has c s = false <-> ~ In c s.
Proof.
  unfold has. induction s as [|d s IH]; simpl; [tauto|].
  rewrite orb_false_iff, IH. split.
  - intros [E Hn] [H|H]; [|tauto]. subst d.
    rewrite Ascii.eqb_refl in E. discriminate.
  - intros Hn. split; [|tauto].
    destruct (Ascii.eqb c d) eqn:E; [|reflexivity].
    apply Ascii.eqb_eq in E. exfalso. apply Hn. left. congruence.
Qed.

Lemma has_app (c : ascii) (a b : str) : has c (a ++ b) = has c a || has c b.
Proof. unfold has. apply existsb_app. Qed.

Lemma rstrip_before_PIPE (a v : str) :
  rstrip (a ++ PIPE :: v) = a ++ PIPE :: rstrip v.
Proof.
  assert (E : rstrip (PIPE :: v) = PIPE :: rstrip v).
  { change (PIPE :: v) with ([PIPE] ++ v). rewrite rstrip_app.
    destruct (rstrip v); reflexivity. }
  rewrite rstrip_app, E. reflexivity.
Qed.

Lemma join_cons (sep : ascii) (p q : str) (ps : list str) :
  join sep (p :: q :: ps) = p ++ sep :: join sep (q :: ps).
Proof. reflexivity. Qed.

Lemma has_join (c sep : ascii) (parts : list str) :
  Ascii.eqb c sep = false ->
  Forall (fun p => has c p = false) parts ->
  has c (join sep parts) = false.
Proof.
  intros Hs Hall. induction Hall as [|p ps Hp Hps IH]; [reflexivity|].
  destruct ps as [|q ps]; [exact Hp|].
  rewrite join_cons, has_app, Hp. cbn [orb].
  change (has c (sep :: join sep (q :: ps)))
    with (Ascii.eqb c sep || has c (join sep (q :: ps))).
  rewrite Hs, IH. reflexivity.
Qed.

Lemma rstrip_join_last (parts : list str) (v : str) :
  rstrip (join PIPE (parts ++ [v])) = join PIPE (parts ++ [rstrip v]).
Proof.
  induction parts as [|p ps IH]; [reflexivity|].
  destruct ps as [|q ps].
  - cbn [app]. rewrite !join_cons. cbn [join].
    apply rstrip_before_PIPE.
  - change ((p :: q :: ps) ++ [v]) with (p :: q :: (ps ++ [v])).
    change ((p :: q :: ps) ++ [rstrip v])
      with (p :: q :: (ps ++ [rstrip v])).
    rewrite !join_cons, rstrip_before_PIPE. f_equal. f_equal. exact IH.
Qed.

Section Codec.
Context {lib : PyLib} {enum : CarStatusEnum} {key : SaleKey}.

(** X6.  The record of a car parses back to the car: when no field holds
    the separator or a carriage return, the status tag does not end in
    white space, and the library reads back what it prints for the car's
    model id, price, date and status, the record has no carriage return
    and no white space at its end, splits into five fields, and the fields
    give the car. *)
Theorem Car_record_reads_back (car : Car) :
  has PIPE (vin car) = false -> has CR (vin car) = false ->
  has PIPE (str_of_int (model car)) = false ->
  has CR (str_of_int (model car)) = false ->
  has PIPE (str_of_Decimal (price car)) = false ->
  has CR (str_of_Decimal (price car)) = false ->
  has PIPE (isoformat (date_start car)) = false ->
  has CR (isoformat (date_start car)) = false ->
  has PIPE (value (status car)) = false ->
  has CR (value (status car)) = false ->
  rstrip (value (status car)) = value (status car) ->
  int_of_str (str_of_int (model car)) = Some (model car) ->
  Decimal_of_str (str_of_Decimal (price car)) = Some (price car) ->
  fromisoformat (isoformat (date_start car)) = Some (date_start car) ->
  CarStatus_of_value (value (status car)) = Some (status car) ->
  reads_back car.
Proof.
  intros P0 C0 P1 C1 P2 C2 P3 C3 P4 C4 R I D F S.
  assert (Hsplit : split PIPE (Car_data car)
                   = [vin car; str_of_int (model car);
                      str_of_Decimal (price car);
                      isoformat (date_start car); value (status car)]).
  { unfold Car_data. apply split_join; [discriminate|].
    repeat constructor; apply has_false; assumption. }
  unfold reads_back. rewrite Hsplit.
  split; [|split; [|split]].
  - unfold Car_data. apply has_join; [reflexivity|].
    repeat constructor; assumption.
  - unfold Car_data.
    change [vin car; str_of_int (model car); str_of_Decimal (price car);
            isoformat (date_start car); value (status car)]
      with ([vin car; str_of_int (model car); str_of_Decimal (price car);
             isoformat (date_start car)] ++ [value (status car)]).
    rewrite rstrip_join_last, R. reflexivity.
  - reflexivity.
  - unfold Car_of_parts, rbind, getitem, int, Decimal_,
      datetime_fromisoformat, CarStatus_. cbn [nth_error].
    rewrite I, D, F, S. destruct car; reflexivity.
Qed.
End Codec.

(** ** Inserts *)

Lemma load_index_inserted_other (st : Store) (p : RecPath) (i j : IdxPath)
  (k data : str) :
  i <> j -> _load_index (inserted st p i k data) j = _load_index st j.
Proof.
  intros Hne. unfold inserted.
  rewrite load_index_saved_other by exact Hne. apply load_index_put_line.
Qed.

Lemma read_inserted_other (st : Store) (p q : RecPath) (i : IdxPath)
  (k data : str) (n : nat) :
  p <> q ->
  _read_fixed_length_line (inserted st p i k data) q n
  = _read_fixed_length_line st q n.
Proof.
  intros Hne. unfold inserted. rewrite read_line_set_index.
  apply read_line_put_other. exact Hne.
Qed.

Lemma read_inserted_same (st : Store) (p : RecPath) (i : IdxPath)
  (k data : str) :
  length data <= LINE_DATA_LENGTH -> has CR data = false ->
  _read_fixed_length_line (inserted st p i k data) p
                          (_get_file_line_count st p)
  = Ok (rstrip data).
Proof.
  intros Hl Hc. unfold inserted. rewrite read_line_set_index.
  apply read_put_line_same; [exact Hl|]. apply has_false. exact Hc.
Qed.

Lemma dict_mem_inserted (st : Store) (p : RecPath) (i : IdxPath)
  (k data : str) :
  dict_mem str_eqb (_load_index (inserted st p i k data) i) k = true.
Proof. unfold dict_mem. rewrite inserted_entry. reflexivity. Qed.

Section Inserts.
Context {lib : PyLib} {enum : CarStatusEnum} {key : SaleKey}.

Lemma add_model_success (m r : Model) (st st' : Store) :
  add_model m st = (Ok r, st') ->
  r = m
  /\ length (Model_data m) <= LINE_DATA_LENGTH
  /\ st' = inserted st models_txt models_index_txt (Model_index m)
                    (Model_data m).
Proof.
  rewrite add_model_unfold. unfold add_model_paths.
  destruct (dict_mem _ _ _); [discriminate|].
  destruct (LINE_DATA_LENGTH <? length (Model_data m)) eqn:E;
    [discriminate|].
  apply Nat.ltb_ge in E. intros H.
  assert (H1 := f_equal fst H). assert (H2 := f_equal snd H).
  cbn [fst snd] in H1, H2. injection H1 as <-. subst st'. auto.
Qed.

Lemma add_car_success (c r : Car) (st st' : Store) :
  add_car c st = (Ok r, st') ->
  r = c
  /\ length (Car_data c) <= LINE_DATA_LENGTH
  /\ st' = inserted st cars_txt cars_index_txt (Car_index c) (Car_data c).
Proof.
  rewrite add_car_unfold. unfold add_car_paths.
  destruct (dict_mem _ _ (Car_index c)); [discriminate|].
  destruct (negb _); [discriminate|].
  destruct (LINE_DATA_LENGTH <? length (Car_data c)) eqn:E; [discriminate|].
  apply Nat.ltb_ge in E. intros H.
  assert (H1 := f_equal fst H). assert (H2 := f_equal snd H).
  cbn [fst snd] in H1, H2. injection H1 as <-. subst st'. auto.
Qed.

(** X7.  A key is inserted once: after a successful [add_model], adding
    any model with the same id fails with [DuplicateKey], and after a
    successful [add_car], adding any car with the same VIN does; the
    refused call leaves the store as it was. *)
Theorem insert_once (st : Store) :
  (forall m r st' m',
      add_model m st = (Ok r, st') -> id m' = id m ->
      add_model m' st' = (Raise (ValueError DuplicateKey), st'))
  /\ (forall c r st' c',
        add_car c st = (Ok r, st') -> vin c' = vin c ->
        add_car c' st' = (Raise (ValueError DuplicateKey), st')).
Proof.
  split.
  - intros m r st' m' H E. apply add_model_success in H.
    destruct H as (_ & _ & ->).
    assert (K : Model_index m' = Model_index m)
      by (unfold Model_index; rewrite E; reflexivity).
    rewrite add_model_unfold. unfold add_model_paths.
    rewrite K, dict_mem_inserted. reflexivity.
  - intros c r st' c' H E. apply add_car_success in H.
    destruct H as (_ & _ & ->).
    assert (K : Car_index c' = Car_index c) by exact E.
    rewrite add_car_unfold. unfold add_car_paths.
    rewrite K, dict_mem_inserted. reflexivity.
Qed.

(** X8.  [add_car] wants the model of the car in the model index: a car
    with a new VIN and a model id the index does not have is refused with
    [ReferenceNotFound] and nothing is written; once [add_model] has
    inserted a model, a car of that model with a new VIN and a record that
    fits is accepted, appended to the car file and indexed under its VIN at
    the record number of the append. *)
Theorem add_car_requires_model (car : Car) (st : Store) :
  dict_mem str_eqb (_load_index st cars_index_txt) (vin car) = false ->
  (dict_mem str_eqb (_load_index st models_index_txt)
            (str_of_int (model car)) = false ->
   add_car car st = (Raise (ValueError ReferenceNotFound), st))
  /\ (forall m r st1,
        add_model m st = (Ok r, st1) ->
        model car = id m ->
        length (Car_data car) <= LINE_DATA_LENGTH ->
        exists st2,
          add_car car st1 = (Ok car, st2)
          /\ dict_get str_eqb (_load_index st2 cars_index_txt) (vin car)
             = Some (_get_file_line_count st cars_txt)
          /\ _get_file_line_count st2 cars_txt
             = S (_get_file_line_count st cars_txt)
          /\ get_file st2 models_txt = get_file st1 models_txt).
Proof.
  intros Hv. split.
  - intros Hm. rewrite add_car_unfold. unfold add_car_paths, Car_index.
    rewrite Hv, Hm. reflexivity.
  - intros m r st1 H E Hl. apply add_model_success in H.
    destruct H as (_ & Hlm & ->).
    set (st1 := inserted st models_txt models_index_txt (Model_index m)
                         (Model_data m)).
    assert (Hc : _get_file_line_count st1 cars_txt
                 = _get_file_line_count st cars_txt).
    { unfold st1, inserted. rewrite line_count_set_index.
      apply line_count_put_line_other. discriminate. }
    exists (inserted st1 cars_txt cars_index_txt (Car_index car)
                     (Car_data car)).
    split; [|split; [|split]].
    + assert (K1 : dict_mem str_eqb (_load_index st1 cars_index_txt)
                              (Car_index car) = false).
      { unfold st1. rewrite load_index_inserted_other by discriminate.
        exact Hv. }
      assert (K2 : dict_mem str_eqb (_load_index st1 models_index_txt)
                            (str_of_int (model car)) = true).
      { rewrite E. apply dict_mem_inserted. }
      rewrite add_car_unfold. unfold add_car_paths.
      rewrite K1, K2. cbn [negb].
      apply Nat.ltb_ge in Hl. rewrite Hl. reflexivity.
    + rewrite <- Hc. apply inserted_entry.
    + unfold inserted at 1. rewrite line_count_set_index, <- Hc.
      apply line_count_append. exact Hl.
    + unfold inserted at 1. rewrite get_file_set_index.
      apply get_file_put_line_other. discriminate.
Qed.
End Inserts.

(** ** Failures and frames *)

Lemma file_size_put_line_inside (st : Store) (p : RecPath) (n : nat)
  (data : str) :
  length data <= LINE_DATA_LENGTH ->
  n < _get_file_line_count st p ->
  file_size (put_line st p n data) p = file_size st p.
Proof.
  intros Hl Hin. rewrite file_size_put_line by exact Hl.
  rewrite line_count_size in Hin.
  pose proof (Nat.div_mod_eq (file_size st p) LINE_TOTAL_LENGTH) as E.
  unfold LINE_TOTAL_LENGTH in *.
  assert (S n <= file_size st p / 501) by lia.
  assert (S n * 501 <= file_size st p) by nia. lia.
Qed.

Section Failures.
Context {lib : PyLib} {enum : CarStatusEnum} {key : SaleKey}.

(** X9.  [add_model], [add_car] and [update_vin] write nothing before
    their last check: whatever exception they raise, the store is the one
    they were called on. *)
Theorem failure_keeps_store (st : Store) :
  (forall m e st', add_model m st = (Raise e, st') -> st' = st)
  /\ (forall c e st', add_car c st = (Raise e, st') -> st' = st)
  /\ (forall v w e st', update_vin v w st = (Raise e, st') -> st' = st).
Proof.
  split; [|split].
  - intros m e st'. rewrite add_model_unfold. unfold add_model_paths.
    destruct (dict_mem _ _ _); [intros [= _ <-]; reflexivity|].
    destruct (LINE_DATA_LENGTH <? length (Model_data m));
      [intros [= _ <-]; reflexivity|discriminate].
  - intros c e st'. rewrite add_car_unfold. unfold add_car_paths.
    destruct (dict_mem _ _ (Car_index c));
      [intros [= _ <-]; reflexivity|].
    destruct (negb _); [intros [= _ <-]; reflexivity|].
    destruct (LINE_DATA_LENGTH <? length (Car_data c));
      [intros [= _ <-]; reflexivity|discriminate].
  - intros v w e st'. rewrite update_vin_unfold. unfold update_vin_paths.
    destruct (dict_mem _ _ _); [intros [= _ <-]; reflexivity|].
    destruct (dict_get _ _ v) as [n|]; [|intros [= _ <-]; reflexivity].
    destruct (read_or_fail st cars_txt n) as [line|e0];
      [|intros [= _ <-]; reflexivity].
    destruct (negb _); [intros [= _ <-]; reflexivity|].
    destruct (Car_of_parts _) as [car|e0]; [|intros [= _ <-]; reflexivity].
    destruct (LINE_DATA_LENGTH <? length (Car_data (set_vin car w)));
      [intros [= _ <-]; reflexivity|discriminate].
Qed.

(** X10.  [revert_sale] checks the sale, the car and the car's status
    before it writes: every exception other than [LengthExceeded] leaves
    the store as it was. *)
Theorem revert_sale_failure_keeps_store (sales_number_ : str)
  (st st' : Store) (e : exn) :
  revert_sale sales_number_ st = (Raise e, st') ->
  e <> ValueError LengthExceeded ->
  st' = st.
Proof.
  rewrite revert_sale_unfold. unfold revert_sale_paths.
  destruct (negb (path_exists st sales_txt));
    [intros [= _ <-]; reflexivity|].
  destruct (revert_scan _ _ _ _) as [vars|e0];
    [|intros [= _ <-]; reflexivity].
  destruct (negb (sale_found vars)); [intros [= _ <-]; reflexivity|].
  destruct (sale_line_number vars) as [ln|];
    [|intros [= _ <-]; reflexivity].
  destruct (sale_vin vars) as [v|]; [|intros [= _ <-]; reflexivity].
  destruct (sale_cost vars) as [c|]; [|intros [= _ <-]; reflexivity].
  destruct (sale_date vars) as [d|]; [|intros [= _ <-]; reflexivity].
  destruct (dict_get _ _ v) as [m|]; [|intros [= _ <-]; reflexivity].
  destruct (read_or_fail st cars_txt m) as [line|e0];
    [|intros [= _ <-]; reflexivity].
  destruct (negb (length (split PIPE line) =? 5));
    [intros [= _ <-]; reflexivity|].
  destruct (Car_of_parts (split PIPE line)) as [car|e0];
    [|intros [= _ <-]; reflexivity].
  destruct (negb (CarStatus_eqb (status car) sold));
    [intros [= _ <-]; reflexivity|].
  destruct (LINE_DATA_LENGTH <? length (deleted_sale_data _ _ _ _));
    [intros [= _ <-]; reflexivity|].
  destruct (LINE_DATA_LENGTH <? length (Car_data (set_status car available)));
    [|discriminate].
  intros [= <- _] Hne. exfalso. apply Hne. reflexivity.
Qed.

Lemma revert_scan_line (st : Store) (sales_number_ : str)
  (lines : list nat) (vars vars' : SaleVars) (ln : nat) :
  revert_scan st sales_number_ lines vars = Ok vars' ->
  sale_line_number vars' = Some ln ->
  sale_line_number vars = Some ln \/ In ln lines.
Proof.
  revert vars. induction lines as [|n lines IH]; intros vars H L.
  - injection H as <-. left. exact L.
  - cbn [revert_scan] in H. unfold revert_scan_body in H.
    destruct (_read_fixed_length_line st sales_txt n) as [line|e0].
    2:{ destruct (is_ValueError e0 || is_IndexError e0); [|discriminate].
        destruct (IH _ H L); [left; assumption|right; right; assumption]. }
    destruct (is_blank line);
      [destruct (IH _ H L); [left; assumption|right; right; assumption]|].
    destruct (negb (length (split PIPE line) =? 4));
      [destruct (IH _ H L); [left; assumption|right; right; assumption]|].
    destruct (startswith (nth 0 (split PIPE line) []) DELETED_);
      [destruct (IH _ H L); [left; assumption|right; right; assumption]|].
    destruct (str_eqb (nth 0 (split PIPE line) []) sales_number_);
      [|destruct (IH _ H L); [left; assumption|right; right; assumption]].
    destruct (Decimal_of_str (nth 2 (split PIPE line) [])) as [c|];
      [|discriminate].
    destruct (fromisoformat (nth 3 (split PIPE line) [])) as [d|].
    + injection H as <-. cbn [sale_line_number] in L.
      injection L as <-. right. left. reflexivity.
    + destruct (IH _ H L) as [E|Hin]; [|right; right; exact Hin].
      cbn [sale_line_number] in E. injection E as <-.
      right. left. reflexivity.
Qed.

(** X11.  [sell_car] never writes the model file, the model index or the
    car index, whatever its outcome. *)
Theorem sell_car_frame (sale : Sale) (st : Store) :
  let st' := snd (sell_car sale st) in
  get_file st' models_txt = get_file st models_txt
  /\ get_index_file st' models_index_txt = get_index_file st models_index_txt
  /\ get_index_file st' cars_index_txt = get_index_file st cars_index_txt.
Proof.
  intros st'.
  assert (Hrec :
            get_file (sale_recorded sale st) models_txt
            = get_file st models_txt
            /\ get_index_file (sale_recorded sale st) models_index_txt
               = get_index_file st models_index_txt
            /\ get_index_file (sale_recorded sale st) cars_index_txt
               = get_index_file st cars_index_txt).
  { unfold sale_recorded.
    rewrite get_file_set_index, !get_set_index_other by discriminate.
    rewrite get_file_put_line_other by discriminate.
    rewrite !get_index_put_line. auto. }
  destruct (Nat.le_gt_cases (length (Sale_data sale)) LINE_DATA_LENGTH)
    as [Hl|Hl].
  - unfold st'.
    destruct (sell_car_store sale st Hl) as [_ [->|(m & data & _ & _ & ->)]];
      [exact Hrec|].
    rewrite get_file_put_line_other by discriminate.
    rewrite !get_index_put_line. exact Hrec.
  - unfold st'. rewrite sell_car_unfold. unfold sell_car_paths.
    apply Nat.ltb_lt in Hl. rewrite Hl. auto.
Qed.

(** X12.  [revert_sale] never writes the model file, the model index or
    the car index, and never changes the size of the sale file: the record
    it rewrites is one the scan has read, so the line is neither removed
    nor added. *)
Theorem revert_sale_frame (sales_number_ : str) (st : Store) :
  let st' := snd (revert_sale sales_number_ st) in
  get_file st' models_txt = get_file st models_txt
  /\ get_index_file st' models_index_txt = get_index_file st models_index_txt
  /\ get_index_file st' cars_index_txt = get_index_file st cars_index_txt
  /\ file_size st' sales_txt = file_size st sales_txt
  /\ _get_file_line_count st' sales_txt = _get_file_line_count st sales_txt.
Proof.
  intros st'.
  assert (Hsame :
            forall s, s = st ->
            get_file s models_txt = get_file st models_txt
            /\ get_index_file s models_index_txt
               = get_index_file st models_index_txt
            /\ get_index_file s cars_index_txt
               = get_index_file st cars_index_txt
            /\ file_size s sales_txt = file_size st sales_txt
            /\ _get_file_line_count s sales_txt
               = _get_file_line_count st sales_txt).
  { intros s ->. auto. }
  unfold st'. rewrite revert_sale_unfold. unfold revert_sale_paths.
  destruct (negb (path_exists st sales_txt)); [apply Hsame; reflexivity|].
  destruct (revert_scan _ _ _ _) as [vars|e0] eqn:Hscan;
    [|apply Hsame; reflexivity].
  destruct (negb (sale_found vars)); [apply Hsame; reflexivity|].
  destruct (sale_line_number vars) as [ln|] eqn:Hln;
    [|apply Hsame; reflexivity].
  destruct (sale_vin vars) as [v|]; [|apply Hsame; reflexivity].
  destruct (sale_cost vars) as [c|]; [|apply Hsame; reflexivity].
  destruct (sale_date vars) as [d|]; [|apply Hsame; reflexivity].
  destruct (dict_get _ _ v) as [m|]; [|apply Hsame; reflexivity].
  destruct (read_or_fail st cars_txt m) as [line|e0];
    [|apply Hsame; reflexivity].
  destruct (negb (length (split PIPE line) =? 5));
    [apply Hsame; reflexivity|].
  destruct (Car_of_parts (split PIPE line)) as [car|e0];
    [|apply Hsame; reflexivity].
  destruct (negb (CarStatus_eqb (status car) sold));
    [apply Hsame; reflexivity|].
  destruct (LINE_DATA_LENGTH <? length (deleted_sale_data _ _ _ _)) eqn:E;
    [apply Hsame; reflexivity|].
  apply Nat.ltb_ge in E.
  assert (Hin : ln < _get_file_line_count st sales_txt).
  { destruct (revert_scan_line _ _ _ _ Hscan Hln) as [H|H];
      [discriminate H|].
    apply in_seq in H. lia. }
  assert (Hdel :
            get_file (sale_deleted st sales_number_ v ln c d) models_txt
            = get_file st models_txt
            /\ get_index_file (sale_deleted st sales_number_ v ln c d)
                              models_index_txt
               = get_index_file st models_index_txt
            /\ get_index_file (sale_deleted st sales_number_ v ln c d)
                              cars_index_txt
               = get_index_file st cars_index_txt
            /\ file_size (sale_deleted st sales_number_ v ln c d) sales_txt
               = file_size st sales_txt).
  { unfold sale_deleted.
    destruct (dict_mem str_eqb (_load_index st sales_index_txt) v).
    - assert (FS : forall s i f, file_size (set_index_file s i f) sales_txt
                                 = file_size s sales_txt).
      { intros s i f. unfold file_size. rewrite get_file_set_index.
        reflexivity. }
      rewrite FS.
      rewrite !get_file_set_index, !get_set_index_other by discriminate.
      rewrite get_file_put_line_other by discriminate.
      rewrite !get_index_put_line.
      split; [reflexivity|]. split; [reflexivity|]. split; [reflexivity|].
      apply file_size_put_line_inside; [exact E|exact Hin].
    - rewrite get_file_put_line_other by discriminate.
      rewrite !get_index_put_line.
      split; [reflexivity|]. split; [reflexivity|]. split; [reflexivity|].
      apply file_size_put_line_inside; [exact E|exact Hin]. }
  destruct Hdel as (D1 & D2 & D3 & D4).
  destruct (LINE_DATA_LENGTH <? length (Car_data (set_status car available)))
    eqn:E2; cbn [snd].
  - rewrite !line_count_size, D4. auto.
  - rewrite !line_count_size.
    rewrite file_size_put_line_other by discriminate.
    rewrite get_file_put_line_other by discriminate.
    rewrite !get_index_put_line, D4. auto.
Qed.
End Failures.

(** ** Operations in sequence *)

Lemma dict_get_renamed_index (d : Index) (old new k : str) (n : nat) :
  NoDup (dict_keys d) ->
  dict_get str_eqb (renamed_index d old new n) k
  = if str_eqb new k then Some n
    else if str_eqb old k then None
         else dict_get str_eqb d k.
Proof.
  intros Hnd. unfold renamed_index.
  rewrite dict_get_sort_index
    by (apply (NoDup_dict_set str_eqb_eq); apply NoDup_dict_del;
        exact Hnd).
  destruct (str_eqb new k) eqn:E1.
  - apply str_eqb_eq in E1. subst k. apply (dict_get_set_same str_eqb_eq).
  - apply str_eqb_neq in E1.
    rewrite (dict_get_set_other str_eqb_eq) by exact E1.
    destruct (str_eqb old k) eqn:E2.
    + apply str_eqb_eq in E2. subst k.
      apply (dict_get_del_same str_eqb_eq). exact Hnd.
    + apply str_eqb_neq in E2.
      apply (dict_get_del_other str_eqb_eq). exact E2.
Qed.

Lemma NoDup_renamed_index (d : Index) (old new : str) (n : nat) :
  NoDup (dict_keys d) -> NoDup (dict_keys (renamed_index d old new n)).
Proof.
  intros Hnd. unfold renamed_index. apply NoDup_sort_index.
  apply (NoDup_dict_set str_eqb_eq). apply NoDup_dict_del. exact Hnd.
Qed.

Section Sequences.
Context {lib : PyLib} {enum : CarStatusEnum} {key : SaleKey}.

Lemma sell_car_success (sale : Sale) (st st' : Store) (r : Car) :
  sell_car sale st = (Ok r, st') ->
  exists n line car,
    length (Sale_data sale) <= LINE_DATA_LENGTH
    /\ dict_get str_eqb (_load_index st cars_index_txt) (car_vin sale)
       = Some n
    /\ _read_fixed_length_line st cars_txt n = Ok line
    /\ Car_of_parts (split PIPE line) = Ok car
    /\ CarStatus_eqb (status car) sold = false
    /\ length (Car_data r) <= LINE_DATA_LENGTH
    /\ r = set_status car sold
    /\ st' = put_line (sale_recorded sale st) cars_txt n (Car_data r).
Proof.
  rewrite sell_car_unfold. unfold sell_car_paths.
  destruct (LINE_DATA_LENGTH <? length (Sale_data sale)) eqn:E0;
    [discriminate|].
  destruct (dict_get _ _ (car_vin sale)) as [n|] eqn:Hn; [|discriminate].
  destruct (_read_fixed_length_line st cars_txt n) as [line|e0] eqn:Hline;
    [|discriminate].
  destruct (Car_of_parts (split PIPE line)) as [car|e0] eqn:Hcar;
    [|discriminate].
  destruct (CarStatus_eqb (status car) sold) eqn:Es; [discriminate|].
  destruct (LINE_DATA_LENGTH <? length (Car_data (set_status car sold)))
    eqn:E1; [discriminate|].
  intros H. assert (H1 := f_equal fst H). assert (H2 := f_equal snd H).
  cbn [fst snd] in H1, H2. injection H1 as <-. subst st'.
  apply Nat.ltb_ge in E0, E1.
  exists n, line, car.
  do 7 (split; [first [assumption|reflexivity]|]). reflexivity.
Qed.

Lemma update_vin_success (vin_ new_vin : str) (st st' : Store) (r : Car) :
  update_vin vin_ new_vin st = (Ok r, st') ->
  exists n line car,
    dict_mem str_eqb (_load_index st cars_index_txt) new_vin = false
    /\ dict_get str_eqb (_load_index st cars_index_txt) vin_ = Some n
    /\ _read_fixed_length_line st cars_txt n = Ok line
    /\ length (split PIPE line) = 5
    /\ Car_of_parts (split PIPE line) = Ok car
    /\ length (Car_data r) <= LINE_DATA_LENGTH
    /\ r = set_vin car new_vin
    /\ st' = set_index_file
               (put_line st cars_txt n (Car_data r)) cars_index_txt
               (renamed_index (_load_index st cars_index_txt)
                              vin_ new_vin n).
Proof.
  rewrite update_vin_unfold. unfold update_vin_paths.
  destruct (dict_mem _ _ new_vin) eqn:Em; [discriminate|].
  destruct (dict_get _ _ vin_) as [n|] eqn:Hn; [|discriminate].
  unfold read_or_fail.
  destruct (_read_fixed_length_line st cars_txt n) as [line|e0] eqn:Hline.
  2:{ destruct (is_FileNotFoundError e0 || is_ValueError e0); discriminate. }
  destruct (length (split PIPE line) =? 5) eqn:E5; cbn [negb];
    [|discriminate].
  destruct (Car_of_parts (split PIPE line)) as [car|e0] eqn:Hcar;
    [|discriminate].
  destruct (LINE_DATA_LENGTH <? length (Car_data (set_vin car new_vin)))
    eqn:E1; [discriminate|].
  intros H. assert (H1 := f_equal fst H). assert (H2 := f_equal snd H).
  cbn [fst snd] in H1, H2. injection H1 as <-. subst st'.
  apply Nat.ltb_ge in E1. apply Nat.eqb_eq in E5.
  exists n, line, car.
  do 7 (split; [first [assumption|reflexivity]|]). reflexivity.
Qed.

(** X13.  A car that [add_car] has stored can be sold: when the car's
    record reads back as the car, the car is not sold and the two records
    to write fit, [sell_car] for the car's VIN returns the car with the
    status [sold]. *)
Theorem sell_car_after_add_car (car r : Car) (sale : Sale)
  (st st1 : Store) :
  add_car car st = (Ok r, st1) ->
  reads_back car ->
  CarStatus_eqb (status car) sold = false ->
  car_vin sale = vin car ->
  length (Sale_data sale) <= LINE_DATA_LENGTH ->
  length (Car_data (set_status car sold)) <= LINE_DATA_LENGTH ->
  fst (sell_car sale st1) = Ok (set_status car sold).
Proof.
  intros Hadd (Hcr & Hrs & _ & Hparse) Hs Hv Hl1 Hl2.
  destruct (add_car_success _ _ Hadd) as (_ & Hl & ->).
  rewrite sell_car_unfold. unfold sell_car_paths.
  apply Nat.ltb_ge in Hl1, Hl2. rewrite Hl1.
  rewrite Hv. change (vin car) with (Car_index car).
  rewrite inserted_entry.
  rewrite read_inserted_same by assumption.
  rewrite Hrs, Hparse, Hs, Hl2. reflexivity.
Qed.

(** X14.  A car cannot be sold twice: after a [sell_car] that succeeded,
    returning a car whose record reads back, every further [sell_car] for
    the same VIN raises [InvalidState]. *)
Theorem sell_car_twice (sale sale2 : Sale) (st st' : Store) (r : Car) :
  sell_car sale st = (Ok r, st') ->
  reads_back r ->
  car_vin sale2 = car_vin sale ->
  length (Sale_data sale2) <= LINE_DATA_LENGTH ->
  fst (sell_car sale2 st') = Raise (ValueError InvalidState).
Proof.
  intros Hsell (Hcr & Hrs & _ & Hparse) Hv Hl2.
  destruct (sell_car_success _ _ Hsell)
    as (n & line & car & _ & Hn & _ & _ & _ & Hl & Hr & ->).
  rewrite sell_car_unfold. unfold sell_car_paths.
  apply Nat.ltb_ge in Hl2. rewrite Hl2.
  rewrite load_index_put_line. unfold _load_index at 1.
  rewrite sale_recorded_cars_index. fold (_load_index st cars_index_txt).
  rewrite Hv, Hn.
  rewrite read_put_line_same by (try apply has_false; assumption).
  rewrite Hrs, Hparse.
  assert (Es : CarStatus_eqb (status r) sold = true).
  { apply CarStatus_eqb_spec. rewrite Hr. reflexivity. }
  rewrite Es. reflexivity.
Qed.

(** X15.  After [update_vin] has renamed a car, [get_car_info] finds
    nothing under the old VIN; and for a car that is not sold and whose
    new record reads back, it gives under the new VIN what it gave under
    the old one, with the VIN replaced. *)
Theorem get_car_info_after_update_vin (vin_ new_vin : str)
  (st st' : Store) (r : Car) :
  update_vin vin_ new_vin st = (Ok r, st') ->
  get_car_info st' vin_ = Ok None
  /\ (reads_back r ->
      CarStatus_eqb (status r) sold = false ->
      get_car_info st' new_vin
      = match get_car_info st vin_ with
        | Ok (Some info) => Ok (Some (set_info_vin info new_vin))
        | other => other
        end).
Proof.
  intros Hup.
  apply update_vin_success in Hup. destruct Hup
    as (n & line & car & Hm & Hn & Hline & H5 & Hcar & Hl & Hr & ->).
  assert (Hne : vin_ <> new_vin).
  { intros E. subst new_vin. unfold dict_mem in Hm. rewrite Hn in Hm.
    discriminate. }
  assert (Hidx :
            _load_index
              (set_index_file (put_line st cars_txt n (Car_data r))
                 cars_index_txt
                 (renamed_index (_load_index st cars_index_txt)
                                vin_ new_vin n))
              cars_index_txt
            = renamed_index (_load_index st cars_index_txt) vin_ new_vin n).
  { apply load_index_saved. apply NoDup_renamed_index.
    apply NoDup_json_load. }
  split.
  - unfold get_car_info. rewrite Hidx.
    rewrite dict_get_renamed_index by apply NoDup_json_load.
    assert (E1 : str_eqb new_vin vin_ = false)
      by (apply str_eqb_neq; congruence).
    rewrite E1, str_eqb_refl. reflexivity.
  - intros (Hcr & Hrs & H5' & Hparse) Hs.
    unfold get_car_info. rewrite Hidx.
    rewrite dict_get_renamed_index by apply NoDup_json_load.
    rewrite str_eqb_refl, Hn, Hline.
    rewrite read_line_set_index.
    rewrite read_put_line_same by (try apply has_false; assumption).
    rewrite Hrs, H5', H5, Hparse, Hcar. cbn [Nat.eqb negb rbind].
    rewrite load_index_saved_other by discriminate.
    rewrite load_index_put_line.
    assert (Em : model r = model car) by (rewrite Hr; reflexivity).
    assert (Est : status r = status car) by (rewrite Hr; reflexivity).
    rewrite Em. rewrite <- Est, Hs.
    destruct (dict_get str_eqb (_load_index st models_index_txt)
                       (str_of_int (model car))) as [ml|]; [|reflexivity].
    rewrite read_line_set_index.
    rewrite read_line_put_other by discriminate.
    destruct (_read_fixed_length_line st models_txt ml) as [mline|e0];
      [|destruct (is_FileNotFoundError e0 || is_ValueError e0);
        reflexivity].
    destruct (negb (length (split PIPE mline) =? 3)); [reflexivity|].
    destruct (int (nth 0 (split PIPE mline) [])) as [mid|e0];
      [|reflexivity].
    cbn [rbind fst snd]. rewrite Hr. reflexivity.
Qed.
End Sequences.

(** ** Looking up what was stored, and reverting what was sold *)

Lemma startswith_app (pre x : str) : startswith (pre ++ x) pre = true.
Proof.
  induction pre as [|c pre IH]; [destruct x; reflexivity|].
  simpl. rewrite Ascii.eqb_refl. exact IH.
Qed.

Lemma split_prefix (sep : ascii) (pre x : str) :
  ~ In sep pre ->
  exists y rest, split sep (pre ++ x) = (pre ++ y) :: rest.
Proof.
  induction pre as [|c pre IH]; intros Hn.
  - simpl. destruct x as [|d x]; [exists [], []; reflexivity|].
    simpl. destruct (Ascii.eqb d sep); [exists [], (split sep x); reflexivity|].
    destruct (split sep x) as [|q qs];
      [exists [d], []|exists (d :: q), qs]; reflexivity.
  - destruct IH as (y & rest & E); [intros H; apply Hn; right; exact H|].
    simpl. destruct (Ascii.eqb c sep) eqn:Ec.
    + apply Ascii.eqb_eq in Ec. exfalso. apply Hn. left. exact Ec.
    + rewrite E. exists y, rest. reflexivity.
Qed.

Lemma read_put_line_prefix (st : Store) (p : RecPath) (n : nat)
  (pre t : str) :
  ~ In CR pre -> rstrip pre = pre ->
  length (pre ++ t) <= LINE_DATA_LENGTH ->
  exists x, _read_fixed_length_line (put_line st p n (pre ++ t)) p n
            = Ok (pre ++ x).
Proof.
  intros Hcr Hrs Hl. unfold _read_fixed_length_line.
  rewrite get_file_put_line_same. unfold read_at.
  rewrite skipn_write_at. unfold block, ljust.
  rewrite <- !app_assoc. rewrite universal_newlines_app by exact Hcr.
  rewrite firstn_app.
  rewrite length_app in Hl.
  rewrite (firstn_all2 (n := LINE_DATA_LENGTH) pre) by lia.
  rewrite rstrip_app, Hrs.
  destruct (rstrip (firstn _ _)) as [|c w].
  - exists []. rewrite app_nil_r. reflexivity.
  - exists (c :: w). reflexivity.
Qed.

Section Lookups.
Context {lib : PyLib} {enum : CarStatusEnum} {key : SaleKey}.

(** X16.  What [add_model] and [add_car] stored, [get_car_info] finds:
    for a model and a car of that model whose records read back, the car
    not sold, the view under the car's VIN joins the car's fields with the
    model's name and brand and has no sale. *)
Theorem get_car_info_after_add (m rm : Model) (car rc : Car)
  (st st1 st2 : Store) :
  add_model m st = (Ok rm, st1) ->
  add_car car st1 = (Ok rc, st2) ->
  model car = id m ->
  model_reads_back m ->
  reads_back car ->
  CarStatus_eqb (status car) sold = false ->
  get_car_info st2 (vin car)
  = Ok (Some (mkCarFullInfo (vin car) (name m) (brand m) (price car)
                            (date_start car) (status car) None None)).
Proof.
  intros Hm Hc Hmodel (Mcr & Mrs & Msplit & Mint)
         (Ccr & Crs & C5 & Cparse) Hs.
  apply add_model_success in Hm. destruct Hm as (_ & Hlm & ->).
  apply add_car_success in Hc. destruct Hc as (_ & Hlc & ->).
  unfold get_car_info.
  change (vin car) with (Car_index car) at 1.
  rewrite inserted_entry.
  rewrite read_inserted_same by assumption.
  rewrite Crs, C5, Cparse. cbn [Nat.eqb negb rbind].
  rewrite load_index_inserted_other by discriminate.
  rewrite Hmodel. change (str_of_int (id m)) with (Model_index m).
  rewrite inserted_entry.
  rewrite read_inserted_other by discriminate.
  rewrite read_inserted_same by assumption.
  rewrite Mrs, Msplit. cbn [length Nat.eqb negb nth].
  unfold int. change (Model_index m) with (str_of_int (id m)).
  rewrite Mint, Hs. cbn [rbind fst snd name brand]. reflexivity.
Qed.

Lemma revert_scan_skip (st : Store) (sales_number_ : str)
  (lines rest : list nat) (vars : SaleVars) :
  (forall k, In k lines ->
             revert_scan_body st sales_number_ vars k = Continue vars) ->
  revert_scan st sales_number_ (lines ++ rest) vars
  = revert_scan st sales_number_ rest vars.
Proof.
  induction lines as [|k lines IH]; intros H; [reflexivity|].
  cbn [app revert_scan]. rewrite (H k) by (left; reflexivity).
  apply IH. intros j Hj. apply H. right. exact Hj.
Qed.

Lemma revert_scan_body_other (st : Store) (sales_number_ : str)
  (vars : SaleVars) (k : nat) :
  path_exists st sales_txt = true ->
  (forall line, _read_fixed_length_line st sales_txt k = Ok line ->
                nth 0 (split PIPE line) [] <> sales_number_) ->
  revert_scan_body st sales_number_ vars k = Continue vars.
Proof.
  intros Hex Hne. unfold revert_scan_body.
  unfold _read_fixed_length_line in *. unfold path_exists in Hex.
  destruct (get_file st sales_txt) as [content|]; [|discriminate].
  destruct (is_blank _); [reflexivity|].
  destruct (negb _); [reflexivity|].
  destruct (startswith _ DELETED_); [reflexivity|].
  destruct (str_eqb _ sales_number_) eqn:E; [|reflexivity].
  apply str_eqb_eq in E. exfalso. exact (Hne _ eq_refl E).
Qed.

(** X17.  A sale can be taken back: after a [sell_car] that succeeded,
    when the records of the sale and of the sold car read back, no earlier
    record of the sale file carries the sale's number and the two records
    to write fit, [revert_sale] for that number returns the car with the
    status [available]. *)
Theorem revert_sale_after_sell_car (sale : Sale) (st st1 : Store)
  (r : Car) :
  sell_car sale st = (Ok r, st1) ->
  sale_reads_back sale ->
  reads_back r ->
  (forall k line,
      k < _get_file_line_count st sales_txt ->
      _read_fixed_length_line st1 sales_txt k = Ok line ->
      nth 0 (split PIPE line) [] <> sales_number sale) ->
  length (deleted_sale_data (sales_number sale) (car_vin sale)
                            (cost sale) (sales_date sale))
  <= LINE_DATA_LENGTH ->
  length (Car_data (set_status r available)) <= LINE_DATA_LENGTH ->
  fst (revert_sale (sales_number sale) st1) = Ok (set_status r available).
Proof.
  intros Hsell (Scr & Srs & Sbl & Ssplit & Sdel & Sdec & Sdate)
         (Ccr & Crs & C5 & Cparse) Hfresh Hl1 Hl2.
  apply sell_car_success in Hsell.
  destruct Hsell as (n & line & car & Hl & Hn & _ & _ & _ & Hlr & Hr & E).
  assert (Hfile : get_file st1 sales_txt
                  = Some (write_at (content_of st sales_txt)
                            (_get_file_line_count st sales_txt
                             * LINE_TOTAL_LENGTH)
                            (block (Sale_data sale)))).
  { rewrite E. rewrite get_file_put_line_other by discriminate.
    apply sale_recorded_file. }
  assert (Hex : path_exists st1 sales_txt = true).
  { unfold path_exists. rewrite Hfile. reflexivity. }
  assert (Hcount : _get_file_line_count st1 sales_txt
                   = S (_get_file_line_count st sales_txt)).
  { rewrite E. rewrite line_count_put_line_other by discriminate.
    apply sale_recorded_line_count. exact Hl. }
  assert (Hread : _read_fixed_length_line st1 sales_txt
                    (_get_file_line_count st sales_txt)
                  = Ok (Sale_data sale)).
  { rewrite E. rewrite read_line_put_other by discriminate.
    unfold sale_recorded. rewrite read_line_set_index.
    rewrite read_put_line_same by (try apply has_false; assumption).
    rewrite Srs. reflexivity. }
  assert (Hidx : dict_get str_eqb (_load_index st1 cars_index_txt)
                          (car_vin sale) = Some n).
  { rewrite E. rewrite load_index_put_line. unfold _load_index at 1.
    rewrite sale_recorded_cars_index. exact Hn. }
  assert (Hcarline : _read_fixed_length_line st1 cars_txt n
                     = Ok (Car_data r)).
  { rewrite E.
    rewrite read_put_line_same by (try apply has_false; assumption).
    rewrite Crs. reflexivity. }
  assert (Es : CarStatus_eqb (status r) sold = true).
  { apply CarStatus_eqb_spec. rewrite Hr. reflexivity. }
  clear E.
  rewrite revert_sale_unfold. unfold revert_sale_paths.
  rewrite Hex, Hcount. cbn [negb].
  rewrite seq_S. cbn [plus].
  rewrite revert_scan_skip.
  2:{ intros k Hk. apply in_seq in Hk.
      apply revert_scan_body_other; [exact Hex|].
      intros l Hlr'. apply (Hfresh k l); [lia|exact Hlr']. }
  cbn [revert_scan]. unfold revert_scan_body.
  rewrite Hread, Sbl, Ssplit. cbn [length Nat.eqb negb nth].
  rewrite Sdel, str_eqb_refl, Sdec, Sdate.
  cbn [sale_found sale_line_number sale_vin sale_cost sale_date negb].
  rewrite Hidx. unfold read_or_fail. rewrite Hcarline, C5, Cparse.
  cbn [Nat.eqb negb]. rewrite Es. cbn [negb].
  apply Nat.ltb_ge in Hl1, Hl2. rewrite Hl1, Hl2. reflexivity.
Qed.

Lemma revert_sale_success (sales_number_ : str) (st st' : Store)
  (r : Car) :
  revert_sale sales_number_ st = (Ok r, st') ->
  exists ln v c d m data,
    ln < _get_file_line_count st sales_txt
    /\ length (deleted_sale_data sales_number_ v c d) <= LINE_DATA_LENGTH
    /\ st' = put_line (sale_deleted st sales_number_ v ln c d)
                      cars_txt m data.
Proof.
  rewrite revert_sale_unfold. unfold revert_sale_paths.
  destruct (negb (path_exists st sales_txt)); [discriminate|].
  destruct (revert_scan _ _ _ _) as [vars|e0] eqn:Hscan; [|discriminate].
  destruct (negb (sale_found vars)); [discriminate|].
  destruct (sale_line_number vars) as [ln|] eqn:Hln; [|discriminate].
  destruct (sale_vin vars) as [v|]; [|discriminate].
  destruct (sale_cost vars) as [c|]; [|discriminate].
  destruct (sale_date vars) as [d|]; [|discriminate].
  destruct (dict_get _ _ v) as [m|]; [|discriminate].
  destruct (read_or_fail st cars_txt m) as [line|e0]; [|discriminate].
  destruct (negb (length (split PIPE line) =? 5)); [discriminate|].
  destruct (Car_of_parts (split PIPE line)) as [car|e0]; [|discriminate].
  destruct (negb (CarStatus_eqb (status car) sold)); [discriminate|].
  destruct (LINE_DATA_LENGTH <? length (deleted_sale_data _ _ _ _)) eqn:E;
    [discriminate|].
  destruct (LINE_DATA_LENGTH <? length (Car_data (set_status car available)));
    [discriminate|].
  intros H. assert (H2 := f_equal snd H). cbn [snd] in H2.
  apply Nat.ltb_ge in E.
  exists ln, v, c, d, m, (Car_data (set_status car available)).
  split; [|split; [exact E|symmetry; exact H2]].
  destruct (revert_scan_line _ _ _ _ Hscan Hln) as [H0|H0];
    [discriminate H0|].
  apply in_seq in H0. lia.
Qed.

(** X18.  The record of a reverted sale stays where it was and is marked:
    after a [revert_sale] that succeeded, one record of the sale file
    starts with [DELETED_], and the scans of [revert_sale] and of
    [top_models_by_sales] pass it over, whatever sale number is looked
    for and whatever has been counted so far. *)
Theorem reverted_sale_passed_over (sales_number_ : str) (st st' : Store)
  (r : Car) :
  revert_sale sales_number_ st = (Ok r, st') ->
  exists ln line,
    ln < _get_file_line_count st sales_txt
    /\ _read_fixed_length_line st' sales_txt ln = Ok line
    /\ startswith line DELETED_ = true
    /\ (forall number vars,
          revert_scan_body st' number vars ln = Continue vars)
    /\ (forall cars_index vars,
          top_scan_try st' cars_index vars ln = Ok None).
Proof.
  intros Hrev. apply revert_sale_success in Hrev.
  destruct Hrev as (ln & v & c & d & m & data & Hln & Hl & ->).
  assert (Hread : exists x,
             _read_fixed_length_line
               (put_line (sale_deleted st sales_number_ v ln c d)
                         cars_txt m data) sales_txt ln
             = Ok (DELETED_ ++ x)).
  { rewrite read_line_put_other by discriminate.
    assert (Hdata : deleted_sale_data sales_number_ v c d
                    = DELETED_
                      ++ (sales_number_
                          ++ PIPE :: join PIPE [v; str_of_Decimal c;
                                                isoformat d])).
    { unfold deleted_sale_data. rewrite join_cons.
      rewrite <- app_assoc. reflexivity. }
    assert (Hput : exists x,
               _read_fixed_length_line
                 (put_line st sales_txt ln
                           (deleted_sale_data sales_number_ v c d))
                 sales_txt ln
               = Ok (DELETED_ ++ x)).
    { rewrite Hdata. apply read_put_line_prefix.
      - apply has_false. reflexivity.
      - reflexivity.
      - rewrite <- Hdata. exact Hl. }
    unfold sale_deleted.
    destruct (dict_mem str_eqb (_load_index st sales_index_txt) v);
      [rewrite read_line_set_index|]; exact Hput. }
  destruct Hread as (x & Hread).
  assert (Hfirst : startswith (nth 0 (split PIPE (DELETED_ ++ x)) [])
                              DELETED_ = true).
  { destruct (@split_prefix PIPE DELETED_ x) as (y & rest & E).
    - apply has_false. reflexivity.
    - rewrite E. cbn [nth]. apply startswith_app. }
  exists ln, (DELETED_ ++ x).
  split; [exact Hln|]. split; [exact Hread|].
  split; [apply startswith_app|]. split.
  - intros number vars. unfold revert_scan_body. rewrite Hread.
    destruct (is_blank _); [reflexivity|].
    destruct (negb _); [reflexivity|].
    rewrite Hfirst. reflexivity.
  - intros cars_index vars. unfold top_scan_try. rewrite Hread.
    cbn [rbind]. rewrite startswith_app, orb_true_r. reflexivity.
Qed.
End Lookups.

(** ** Scans after a write *)

Lemma read_put_line_earlier (st : Store) (p : RecPath) (n m : nat)
  (data : str) :
  length data <= LINE_DATA_LENGTH ->
  n * LINE_TOTAL_LENGTH <= length (content_of st p) ->
  m < n ->
  ~ In CR (content_of st p) ->
  _read_fixed_length_line (put_line st p n data) p m
  = _read_fixed_length_line st p m.
Proof.
  intros Hl Hpos Hlt Hcr. unfold _read_fixed_length_line.
  rewrite get_file_put_line_same. unfold content_of in *.
  destruct (get_file st p) as [content|].
  2:{ cbn [length] in Hpos. unfold LINE_TOTAL_LENGTH in Hpos. lia. }
  f_equal. f_equal.
  assert (Hin : m * LINE_TOTAL_LENGTH + LINE_DATA_LENGTH
                <= n * LINE_TOTAL_LENGTH)
    by (unfold LINE_TOTAL_LENGTH, LINE_DATA_LENGTH; lia).
  assert (Hrec : ~ In CR (firstn LINE_DATA_LENGTH
                            (skipn (m * LINE_TOTAL_LENGTH) content))).
  { intros H. apply Hcr.
    rewrite <- (firstn_skipn (m * LINE_TOTAL_LENGTH) content).
    apply in_or_app. right.
    rewrite <- (firstn_skipn LINE_DATA_LENGTH
                  (skipn (m * LINE_TOTAL_LENGTH) content)).
    apply in_or_app. left. exact H. }
  assert (Hsame :
            firstn LINE_DATA_LENGTH
              (skipn (m * LINE_TOTAL_LENGTH)
                 (write_at content (n * LINE_TOTAL_LENGTH) (block data)))
            = firstn LINE_DATA_LENGTH
                (skipn (m * LINE_TOTAL_LENGTH) content)).
  { rewrite !firstn_skipn_comm. f_equal.
    apply firstn_write_at_le; [lia|exact Hpos]. }
  rewrite !read_at_local.
  - exact Hsame.
  - lia.
  - exact Hrec.
  - rewrite length_write_at. lia.
  - rewrite Hsame. exact Hrec.
Qed.

Lemma In_lstrip (c : ascii) (s : str) :
  isspace c = false -> In c s -> In c (lstrip s).
Proof.
  intros Hc. induction s as [|d s IH]; intros Hin; [contradiction|].
  simpl. destruct (isspace d) eqn:Ed; [|exact Hin].
  apply IH. destruct Hin as [E|Hin]; [|exact Hin].
  subst d. congruence.
Qed.

Lemma is_blank_false (c : ascii) (s : str) :
  isspace c = false -> In c s -> is_blank s = false.
Proof.
  intros Hc Hin. unfold is_blank.
  assert (H : In c (strip s)).
  { unfold strip, rstrip. apply -> in_rev. apply In_lstrip; [exact Hc|].
    apply -> in_rev. apply In_lstrip; assumption. }
  destruct (strip s); [contradiction|reflexivity].
Qed.

Lemma is_blank_fields (s : str) :
  1 < length (split PIPE s) -> is_blank s = false.
Proof.
  intros H. apply is_blank_false with (c := PIPE); [reflexivity|].
  destruct (has PIPE s) eqn:E.
  - unfold has in E. apply existsb_exists in E.
    destruct E as (x & Hx & Ex). apply Ascii.eqb_eq in Ex. subst x.
    exact Hx.
  - apply has_false in E. rewrite split_no_sep in H by exact E.
    cbn [length] in H. lia.
Qed.

Section Scans.
Context {lib : PyLib} {enum : CarStatusEnum} {key : SaleKey}.

Lemma get_cars_loop_app (st : Store) (status_ : CarStatus)
  (l1 l2 : list nat) (acc : list Car) :
  get_cars_loop st status_ (l1 ++ l2) acc
  = match get_cars_loop st status_ l1 acc with
    | Ok acc' => get_cars_loop st status_ l2 acc'
    | Raise e => Raise e
    end.
Proof.
  revert acc. induction l1 as [|n l1 IH]; intros acc; [reflexivity|].
  cbn [app get_cars_loop].
  destruct (get_cars_try st status_ n) as [[car|]|e]; try apply IH.
  destruct (is_ValueError e || is_IndexError e); [apply IH|reflexivity].
Qed.

Lemma get_cars_loop_ext (st st' : Store) (status_ : CarStatus)
  (lines : list nat) (acc : list Car) :
  (forall n, In n lines ->
             _read_fixed_length_line st' cars_txt n
             = _read_fixed_length_line st cars_txt n) ->
  get_cars_loop st' status_ lines acc = get_cars_loop st status_ lines acc.
Proof.
  revert acc. induction lines as [|n lines IH]; intros acc H; [reflexivity|].
  cbn [get_cars_loop]. unfold get_cars_try.
  rewrite (H n) by (left; reflexivity).
  assert (H' : forall k, In k lines ->
                         _read_fixed_length_line st' cars_txt k
                         = _read_fixed_length_line st cars_txt k)
    by (intros k Hk; apply H; right; exact Hk).
  destruct (_ <~ _ ;; _) as [[car|]|e]; try (apply IH; exact H').
  destruct (is_ValueError e || is_IndexError e);
    [apply IH; exact H'|reflexivity].
Qed.

(** X19.  A car that [add_car] has stored is listed last: when the car
    file held no carriage return and [get_cars] gave a list before the
    insert, it gives after it the same list, followed by the new car if
    the car has the status asked for. *)
Theorem get_cars_after_add_car (car r : Car) (st st1 : Store)
  (status_ : CarStatus) (cars : list Car) :
  add_car car st = (Ok r, st1) ->
  reads_back car ->
  ~ In CR (content_of st cars_txt) ->
  get_cars st status_ = Ok cars ->
  get_cars st1 status_
  = Ok (cars ++ if CarStatus_eqb (status car) status_ then [car] else []).
Proof.
  intros Hadd (Ccr & Crs & C5 & Cparse) Hcr Hget.
  apply add_car_success in Hadd. destruct Hadd as (_ & Hl & ->).
  set (cnt := _get_file_line_count st cars_txt) in *.
  assert (Hloop : get_cars_loop st status_ (seq 0 cnt) [] = Ok cars).
  { unfold get_cars in Hget.
    destruct (path_exists st cars_txt) eqn:Hex; cbn [negb] in Hget;
      [exact Hget|].
    unfold cnt, _get_file_line_count. rewrite Hex. exact Hget. }
  assert (Hpos : cnt * LINE_TOTAL_LENGTH <= length (content_of st cars_txt)).
  { unfold cnt. rewrite line_count_size, file_size_content.
    rewrite Nat.mul_comm. apply Nat.Div0.mul_div_le. }
  unfold get_cars.
  assert (Hex : path_exists (inserted st cars_txt cars_index_txt
                               (Car_index car) (Car_data car)) cars_txt
                = true).
  { unfold path_exists, inserted. rewrite get_file_set_index.
    rewrite get_file_put_line_same. reflexivity. }
  assert (Hcount : _get_file_line_count
                     (inserted st cars_txt cars_index_txt
                               (Car_index car) (Car_data car)) cars_txt
                   = S cnt).
  { unfold inserted. rewrite line_count_set_index.
    apply line_count_append. exact Hl. }
  rewrite Hex, Hcount. cbn [negb].
  rewrite seq_S, get_cars_loop_app. cbn [plus].
  rewrite (get_cars_loop_ext st).
  2:{ intros n Hn. apply in_seq in Hn. unfold inserted.
      rewrite read_line_set_index.
      apply read_put_line_earlier; [exact Hl|exact Hpos|lia|exact Hcr]. }
  rewrite Hloop. cbn [get_cars_loop]. unfold get_cars_try.
  rewrite read_inserted_same by assumption.
  rewrite Crs. cbn [rbind].
  rewrite is_blank_fields by (rewrite C5; lia).
  rewrite C5, Cparse. cbn [Nat.eqb negb rbind].
  destruct (CarStatus_eqb (status car) status_);
    [reflexivity|rewrite app_nil_r; reflexivity].
Qed.

Lemma info_scan_skip (st : Store) (vin_ : str) (lines rest : list nat)
  (vars : option datetime * option Decimal) :
  (forall k, In k lines -> info_scan_body st vin_ vars k = Continue vars) ->
  info_scan st vin_ (lines ++ rest) vars = info_scan st vin_ rest vars.
Proof.
  induction lines as [|k lines IH]; intros H; [reflexivity|].
  cbn [app info_scan]. rewrite (H k) by (left; reflexivity).
  apply IH. intros j Hj. apply H. right. exact Hj.
Qed.

Lemma info_scan_body_other (st : Store) (vin_ : str)
  (vars : option datetime * option Decimal) (k : nat) :
  path_exists st sales_txt = true ->
  (forall line, _read_fixed_length_line st sales_txt k = Ok line ->
                nth 1 (split PIPE line) [] <> vin_) ->
  info_scan_body st vin_ vars k = Continue vars.
Proof.
  intros Hex Hne. unfold info_scan_body.
  unfold _read_fixed_length_line in *. unfold path_exists in Hex.
  destruct (get_file st sales_txt) as [content|]; [|discriminate].
  destruct (is_blank _); [reflexivity|].
  destruct (negb _); [reflexivity|].
  destruct (str_eqb _ vin_) eqn:E; [|reflexivity].
  apply str_eqb_eq in E. exfalso. exact (Hne _ eq_refl E).
Qed.

(** X20.  A sale shows in the view of its car: when [get_car_info] gave
    a view for the VIN before a [sell_car] that succeeded, the records of
    the sale and of the sold car read back and no earlier record of the
    sale file is for that VIN, it gives after it the same view with the
    status [sold] and the date and cost of the sale. *)
Theorem get_car_info_after_sell_car (sale : Sale) (st st1 : Store)
  (r : Car) (info : CarFullInfo) :
  sell_car sale st = (Ok r, st1) ->
  get_car_info st (car_vin sale) = Ok (Some info) ->
  sale_reads_back sale ->
  reads_back r ->
  (forall k line,
      k < _get_file_line_count st sales_txt ->
      _read_fixed_length_line st1 sales_txt k = Ok line ->
      nth 1 (split PIPE line) [] <> car_vin sale) ->
  get_car_info st1 (car_vin sale)
  = Ok (Some (mkCarFullInfo
                (info_vin info) (info_car_model_name info)
                (info_car_model_brand info) (info_price info)
                (info_date_start info) sold
                (Some (sales_date sale)) (Some (cost sale)))).
Proof.
  intros Hsell Hinfo (Scr & Srs & Sbl & Ssplit & Sdel & Sdec & Sdate)
         (Ccr & Crs & C5 & Cparse) Hfresh.
  apply sell_car_success in Hsell.
  destruct Hsell
    as (n & line & car & Hl & Hn & Hline & Hcar & Hs & Hlr & Hr & E).
  assert (Hfile : get_file st1 sales_txt
                  = Some (write_at (content_of st sales_txt)
                            (_get_file_line_count st sales_txt
                             * LINE_TOTAL_LENGTH)
                            (block (Sale_data sale)))).
  { rewrite E. rewrite get_file_put_line_other by discriminate.
    apply sale_recorded_file. }
  assert (Hex : path_exists st1 sales_txt = true).
  { unfold path_exists. rewrite Hfile. reflexivity. }
  assert (Hcount : _get_file_line_count st1 sales_txt
                   = S (_get_file_line_count st sales_txt)).
  { rewrite E. rewrite line_count_put_line_other by discriminate.
    apply sale_recorded_line_count. exact Hl. }
  assert (Hread : _read_fixed_length_line st1 sales_txt
                    (_get_file_line_count st sales_txt)
                  = Ok (Sale_data sale)).
  { rewrite E. rewrite read_line_put_other by discriminate.
    unfold sale_recorded. rewrite read_line_set_index.
    rewrite read_put_line_same by (try apply has_false; assumption).
    rewrite Srs. reflexivity. }
  assert (Hidx : dict_get str_eqb (_load_index st1 cars_index_txt)
                          (car_vin sale) = Some n).
  { rewrite E. rewrite load_index_put_line. unfold _load_index at 1.
    rewrite sale_recorded_cars_index. exact Hn. }
  assert (Hcarline : _read_fixed_length_line st1 cars_txt n
                     = Ok (Car_data r)).
  { rewrite E.
    rewrite read_put_line_same by (try apply has_false; assumption).
    rewrite Crs. reflexivity. }
  assert (Hmidx : _load_index st1 models_index_txt
                  = _load_index st models_index_txt).
  { rewrite E. rewrite load_index_put_line. unfold sale_recorded.
    rewrite load_index_saved_other by discriminate.
    apply load_index_put_line. }
  assert (Hmread : forall k, _read_fixed_length_line st1 models_txt k
                             = _read_fixed_length_line st models_txt k).
  { intros k. rewrite E. rewrite read_line_put_other by discriminate.
    unfold sale_recorded. rewrite read_line_set_index.
    apply read_line_put_other. discriminate. }
  assert (Es : CarStatus_eqb (status r) sold = true).
  { apply CarStatus_eqb_spec. rewrite Hr. reflexivity. }
  assert (Hscan : info_scan st1 (car_vin sale)
                    (seq 0 (S (_get_file_line_count st sales_txt)))
                    (None, None)
                  = Ok (Some (sales_date sale), Some (cost sale))).
  { rewrite seq_S. cbn [plus]. rewrite info_scan_skip.
    2:{ intros k Hk. apply in_seq in Hk.
        apply info_scan_body_other; [exact Hex|].
        intros l Hlr'. apply (Hfresh k l); [lia|exact Hlr']. }
    cbn [info_scan].
    rewrite info_scan_body_match
      with (line := Sale_data sale) (c := cost sale) (d := sales_date sale);
      [reflexivity|exact Hread|exact Sbl|rewrite Ssplit; reflexivity
       |rewrite Ssplit; reflexivity|rewrite Ssplit; exact Sdec
       |rewrite Ssplit; exact Sdate]. }
  clear E.
  unfold get_car_info in Hinfo |- *.
  rewrite Hn, Hline in Hinfo. rewrite Hidx, Hcarline, C5, Cparse.
  cbn [Nat.eqb negb rbind].
  destruct (negb (length (split PIPE line) =? 5)); [discriminate|].
  rewrite Hcar in Hinfo. cbn [rbind] in Hinfo.
  rewrite Hmidx, Hex, Hcount, Hscan, Es.
  assert (Em : model r = model car) by (rewrite Hr; reflexivity).
  rewrite Em.
  destruct (dict_get str_eqb (_load_index st models_index_txt)
                     (str_of_int (model car))) as [ml|]; [|discriminate].
  rewrite Hmread.
  destruct (_read_fixed_length_line st models_txt ml) as [mline|e0].
  2:{ destruct (is_FileNotFoundError e0 || is_ValueError e0);
        discriminate. }
  destruct (negb (length (split PIPE mline) =? 3)); [discriminate|].
  destruct (int (nth 0 (split PIPE mline) [])) as [mid|e0];
    [|discriminate].
  rewrite Hs in Hinfo. cbn [rbind fst snd] in Hinfo |- *.
  injection Hinfo as <-. rewrite Hr. reflexivity.
Qed.
End Scans.

(** ** Unknown keys and untouched cars *)

Section Others.
Context {lib : PyLib} {enum : CarStatusEnum} {key : SaleKey}.

(** X21.  A sale number that no record of the sale file carries cannot be
    reverted: [revert_sale] raises [NotFound] and leaves the store as it
    was, also when there is no sale file. *)
Theorem revert_sale_unknown_number (sales_number_ : str) (st : Store) :
  (forall k line,
      k < _get_file_line_count st sales_txt ->
      _read_fixed_length_line st sales_txt k = Ok line ->
      nth 0 (split PIPE line) [] <> sales_number_) ->
  revert_sale sales_number_ st = (Raise (ValueError NotFound), st).
Proof.
  intros Hfresh. rewrite revert_sale_unfold. unfold revert_sale_paths.
  destruct (path_exists st sales_txt) eqn:Hex; cbn [negb]; [|reflexivity].
  replace (seq 0 (_get_file_line_count st sales_txt))
    with (seq 0 (_get_file_line_count st sales_txt) ++ [])
    by apply app_nil_r.
  rewrite revert_scan_skip.
  - reflexivity.
  - intros k Hk. apply in_seq in Hk.
    apply revert_scan_body_other; [exact Hex|].
    intros line Hline. apply (Hfresh k line); [lia|exact Hline].
Qed.

Lemma info_scan_ext (st st' : Store) (vin_ : str) (lines : list nat)
  (vars : option datetime * option Decimal) :
  (forall k, _read_fixed_length_line st' sales_txt k
             = _read_fixed_length_line st sales_txt k) ->
  info_scan st' vin_ lines vars = info_scan st vin_ lines vars.
Proof.
  intros H. revert vars.
  induction lines as [|k lines IH]; intros vars; [reflexivity|].
  cbn [info_scan]. unfold info_scan_body. rewrite H.
  destruct (match _read_fixed_length_line st sales_txt k with
            | Ok _ => _ | Raise _ => _ end); [apply IH| |]; reflexivity.
Qed.

(** X22.  Storing a car leaves the views of the other cars as they were:
    in a store whose index values are record numbers of their files and
    whose car file holds no carriage return, [get_car_info] gives for every
    other VIN after a successful [add_car] what it gave before. *)
Theorem get_car_info_other_after_add_car (car r : Car) (st st1 : Store)
  (v : str) :
  add_car car st = (Ok r, st1) ->
  v <> vin car ->
  ~ In CR (content_of st cars_txt) ->
  records_in_range st ->
  get_car_info st1 v = get_car_info st v.
Proof.
  intros Hadd Hv Hcr Hinv.
  apply add_car_success in Hadd. destruct Hadd as (_ & Hl & ->).
  set (st1 := inserted st cars_txt cars_index_txt (Car_index car)
                       (Car_data car)).
  assert (Hidx : dict_get str_eqb (_load_index st1 cars_index_txt) v
                 = dict_get str_eqb (_load_index st cars_index_txt) v).
  { unfold st1, inserted. rewrite load_index_saved.
    - apply (dict_get_set_other str_eqb_eq). unfold Car_index. congruence.
    - apply (NoDup_dict_set str_eqb_eq). apply NoDup_json_load. }
  assert (Hmidx : _load_index st1 models_index_txt
                  = _load_index st models_index_txt)
    by (apply load_index_inserted_other; discriminate).
  assert (Hmread : forall k, _read_fixed_length_line st1 models_txt k
                             = _read_fixed_length_line st models_txt k)
    by (intros k; apply read_inserted_other; discriminate).
  assert (Hsread : forall k, _read_fixed_length_line st1 sales_txt k
                             = _read_fixed_length_line st sales_txt k)
    by (intros k; apply read_inserted_other; discriminate).
  assert (Hsex : path_exists st1 sales_txt = path_exists st sales_txt).
  { unfold path_exists, st1, inserted. rewrite get_file_set_index.
    rewrite get_file_put_line_other by discriminate. reflexivity. }
  assert (Hscount : _get_file_line_count st1 sales_txt
                    = _get_file_line_count st sales_txt).
  { unfold st1, inserted. rewrite line_count_set_index.
    apply line_count_put_line_other. discriminate. }
  unfold get_car_info. rewrite Hidx.
  destruct (dict_get str_eqb (_load_index st cars_index_txt) v) as [n|] eqn:G;
    [|reflexivity].
  assert (Hn : n < _get_file_line_count st cars_txt).
  { apply (dict_get_In str_eqb_eq) in G.
    apply (@loaded_in_range st cars_index_txt (v, n) Hinv G). }
  assert (Hread : _read_fixed_length_line st1 cars_txt n
                  = _read_fixed_length_line st cars_txt n).
  { unfold st1, inserted. rewrite read_line_set_index.
    apply read_put_line_earlier; [exact Hl| |exact Hn|exact Hcr].
    rewrite line_count_size, file_size_content.
    rewrite Nat.mul_comm. apply Nat.Div0.mul_div_le. }
  rewrite Hread, Hmidx, Hsex, Hscount.
  destruct (_read_fixed_length_line st cars_txt n) as [line|e0];
    [|reflexivity].
  destruct (negb (length (split PIPE line) =? 5)); [reflexivity|].
  destruct (Car_of_parts (split PIPE line)) as [c|e0]; [|reflexivity].
  cbn [rbind].
  destruct (dict_get str_eqb (_load_index st models_index_txt)
                     (str_of_int (model c))) as [ml|]; [|reflexivity].
  rewrite Hmread.
  destruct (_read_fixed_length_line st models_txt ml) as [mline|e0];
    [|reflexivity].
  destruct (negb (length (split PIPE mline) =? 3)); [reflexivity|].
  destruct (int (nth 0 (split PIPE mline) [])) as [mid|e0]; [|reflexivity].
  cbn [rbind].
  rewrite (info_scan_ext st st1 v _ _ Hsread). reflexivity.
Qed.
End Others.
(** ** The service on the scenario of the specification *)

(** The decimals of the small instance are ordered as the rationals. *)
Lemma plain_decimal_order : @DecimalOrder Plain.lib.
Proof.
  constructor; cbn [Decimal Decimal_ltb Decimal_eqb Plain.lib];
    unfold Plain.Dec_ltb, Plain.Dec_eqb.
  - intros a b H. apply negb_true_iff in H. apply negb_false_iff.
    apply Qle_bool_iff. apply Qlt_le_weak. apply Qnot_le_lt.
    intros Hle. apply Qle_bool_iff in Hle. congruence.
  - intros a b c H1 H2. apply negb_false_iff in H1, H2.
    apply negb_false_iff. apply Qle_bool_iff.
    apply Qle_bool_iff in H1, H2. eapply Qle_trans; eassumption.
  - intros a b. rewrite Qeq_bool_iff, !negb_false_iff, !Qle_bool_iff.
    split.
    + intros E. rewrite E. split; apply Qle_refl.
    + intros [H1 H2]. apply Qle_antisym; assumption.
Qed.

Section Scenario.
Import Plain.

(** Closes [lhs = v] by evaluating [lhs]; the kernel redoes the evaluation
    when the proof is saved. *)
Ltac evaluate :=
  lazymatch goal with
  | |- _ = ?v => vm_cast_no_check (@eq_refl _ v)
  end.

(** C5, counterexample.  Data that ends in a space fits the record, is
    written, and is read back without the space. *)
Lemma write_then_read_trailing_space :
  length (lit "a ") <= LINE_DATA_LENGTH
  /\ exists st',
      _write_fixed_length_line cars_txt 0 (lit "a ") empty_store
      = (Ok tt, st')
      /\ _read_fixed_length_line st' cars_txt 0 = Ok (lit "a")
      /\ _read_fixed_length_line st' cars_txt 0 <> Ok (lit "a ").
Proof.
  split; [vm_compute; lia|].
  exists (after (_write_fixed_length_line cars_txt 0 (lit "a ")) empty_store).
  assert (R : _read_fixed_length_line
                (after (_write_fixed_length_line cars_txt 0 (lit "a "))
                       empty_store) cars_txt 0
              = Ok (lit "a")) by evaluate.
  split; [evaluate|]. split; [exact R|].
  rewrite R. discriminate.
Qed.

(** C1, counterexample.  The number "S-1" is in the sales index; a
    second sale under that number, of another car, is accepted: the call
    returns the car as sold and the sale file has a second record. *)
Lemma sell_car_accepts_existing_number :
  dict_mem str_eqb (_load_index st3' sales_index_txt)
           (Sale_index sale1_again) = true
  /\ outcome (sell_car sale1_again) st3' = Ok (set_status car2 sold)
  /\ outcome (sell_car sale1_again) st3'
     <> Raise (ValueError DuplicateKey)
  /\ _get_file_line_count st3' sales_txt = 1
  /\ _get_file_line_count (after (sell_car sale1_again) st3') sales_txt = 2.
Proof.
  split; [evaluate|].
  assert (E : outcome (sell_car sale1_again) st3'
              = Ok (set_status car2 sold)) by evaluate.
  split; [exact E|]. split; [rewrite E; discriminate|].
  split; evaluate.
Qed.


(** C2, on the scenario.  The car was sold as "S-1" for 41000.00, the
    sale reverted, the car sold again as "S-2" for 40000.00.  The car is
    sold, and [get_car_info] reports the cost and date of the tombstoned
    record of "S-1", the first record of the sale file with the VIN, not
    those of the live sale "S-2". *)
Theorem get_car_info_reads_tombstone :
  _read_fixed_length_line st5 sales_txt 0
  = Ok (lit "DELETED_S-1|5YJ3E1EA7KF000001|41000.00|2024-02-01T00:00:00")
  /\ _read_fixed_length_line st5 sales_txt 1
     = Ok (lit "S-2|5YJ3E1EA7KF000001|40000.00|2024-03-01T00:00:00")
  /\ get_car_info st5 vin1
     = Ok (Some (mkCarFullInfo vin1 (lit "Model X") (lit "Tesla")
                   (price car1) (date_start car1) sold
                   (Some (sales_date sale1)) (Some (cost sale1))))
  /\ sales_date sale1 <> sales_date sale2
  /\ cost sale1 <> cost sale2.
Proof.
  split; [evaluate|]. split; [evaluate|]. split; [evaluate|].
  split; discriminate.
Qed.

(** C8, on a car file with a bad record.  Record 0 is an available car;
    record 1 has five fields and the price "abc".  [Decimal("abc")]
    raises [decimal.InvalidOperation], which the [except] clause of the
    scan does not list: the record is not skipped, the scan is aborted
    and the car of record 0 is not returned. *)
Theorem get_cars_bad_price_aborts :
  _read_fixed_length_line st_bad_price cars_txt 0
  = Ok (lit "5YJ3E1EA7KF000001|1|42000.00|2024-01-01T00:00:00|available")
  /\ _read_fixed_length_line st_bad_price cars_txt 1 = Ok bad_price_record
  /\ _get_file_line_count st_bad_price cars_txt = 2
  /\ get_cars st_bad_price available = Raise InvalidOperation.
Proof.
  split; [evaluate|]. split; [evaluate|]. split; evaluate.
Qed.

(** The theorems above, at the scenario. *)

Lemma write_then_read_witness :
  exists st',
    _write_fixed_length_line sales_txt 0 (lit "S-1") empty_store
    = (Ok tt, st')
    /\ _read_fixed_length_line st' sales_txt 0 = Ok (lit "S-1").
Proof.
  destruct (proj2 (write_then_read sales_txt 0 (lit "S-1") empty_store))
    as (st' & W & _ & _ & R).
  { vm_compute. lia. }
  exists st'. split; [exact W|]. apply R.
  - simpl. intros [H|[H|[H|[]]]]; discriminate H.
  - reflexivity.
Defined.

Lemma sell_car_existing_key_witness :
  _get_file_line_count (snd (sell_car sale1_again st3')) sales_txt
  = S (_get_file_line_count st3' sales_txt)
  /\ length (_load_index (snd (sell_car sale1_again st3')) sales_index_txt)
     = length (_load_index st3' sales_index_txt).
Proof.
  destruct (sell_car_existing_key sale1_again st3') as [_ H].
  { evaluate. }
  destruct H as (_ & Hc & _ & Hl).
  { vm_compute. lia. }
  split; assumption.
Defined.




Lemma update_vin_same_witness :
  update_vin vin1 vin1 st2 = (Raise (ValueError DuplicateKey), st2).
Proof. apply update_vin_same. evaluate. Defined.


End Scenario.


(** ** The further properties on the scenario *)

Section ScenarioChecks.
Import Plain.

(** Closes [lhs = v] by evaluating [lhs]. *)
Ltac run :=
  lazymatch goal with
  | |- _ = ?v => vm_cast_no_check (@eq_refl _ v)
  end.

(** The records of the scenario read back. *)
Lemma car1_reads_back : reads_back car1.
Proof. unfold reads_back. split; [run|]. split; [run|]. split; run. Qed.

Lemma car1_sold_reads_back : reads_back (set_status car1 sold).
Proof. unfold reads_back. split; [run|]. split; [run|]. split; run. Qed.

Lemma car2_reads_back : reads_back car2.
Proof. unfold reads_back. split; [run|]. split; [run|]. split; run. Qed.

Lemma car2_sold_reads_back : reads_back (set_status car2 sold).
Proof. unfold reads_back. split; [run|]. split; [run|]. split; run. Qed.

Lemma car1_renamed_reads_back : reads_back (set_vin car1 vin2).
Proof. unfold reads_back. split; [run|]. split; [run|]. split; run. Qed.

Lemma model_x_reads_back : model_reads_back model_x.
Proof. unfold model_reads_back. split; [run|]. split; [run|]. split; run. Qed.

Lemma sale2_reads_back : sale_reads_back sale2.
Proof.
  unfold sale_reads_back. split; [run|]. split; [run|]. split; [run|].
  split; [run|]. split; [run|]. split; run.
Qed.

Lemma sale1_again_reads_back : sale_reads_back sale1_again.
Proof.
  unfold sale_reads_back. split; [run|]. split; [run|]. split; [run|].
  split; [run|]. split; [run|]. split; run.
Qed.

Lemma st2_in_range : records_in_range st2.
Proof.
  intros i kv Hin.
  destruct i; vm_compute in Hin;
    repeat (destruct Hin as [Hin|Hin]; [subst kv; vm_compute; lia|]);
    destruct Hin.
Qed.

Lemma append_then_read_witness :
  exists st',
    _append_fixed_length_line sales_txt (lit "S-1") empty_store
    = (Ok 0, st')
    /\ _read_fixed_length_line st' sales_txt 0 = Ok (lit "S-1").
Proof.
  destruct (proj1 (append_then_read sales_txt (lit "S-1") empty_store))
    as (st' & A & _ & _ & _ & R).
  { vm_compute. lia. }
  exists st'. split; [exact A|]. apply R.
  apply has_false. reflexivity.
Defined.

Lemma write_keeps_other_records_witness :
  exists st',
    _write_fixed_length_line cars_txt 1 (lit "x") st2' = (Ok tt, st')
    /\ _read_fixed_length_line st' cars_txt 0
       = _read_fixed_length_line st2' cars_txt 0.
Proof.
  destruct (@write_keeps_other_records st2' cars_txt 1 0 (lit "x")
              (content_of st2' cars_txt)) as (st' & W & R & _).
  { run. }
  { vm_compute. lia. }
  { vm_compute. lia. }
  { discriminate. }
  { intros _. apply has_false. run. }
  exists st'. split; [exact W|exact R].
Defined.

Lemma read_missing_or_past_end_witness :
  _read_fixed_length_line empty_store cars_txt 3 = Raise FileNotFoundError
  /\ _read_fixed_length_line st2 cars_txt 5 = Ok [].
Proof.
  split.
  - apply (proj1 (read_missing_or_past_end empty_store cars_txt 3)).
    reflexivity.
  - apply (proj2 (read_missing_or_past_end st2 cars_txt 5))
      with (content := content_of st2 cars_txt).
    + run.
    + left. vm_compute. lia.
Defined.

Lemma read_result_shape_witness :
  length car1_record <= LINE_DATA_LENGTH
  /\ ~ In CR car1_record /\ rstrip car1_record = car1_record.
Proof. apply (read_result_shape st2 cars_txt 0). run. Defined.

Lemma Car_record_reads_back_witness : reads_back car1.
Proof. apply Car_record_reads_back; run. Defined.

Lemma insert_once_witness :
  add_model model_x st1 = (Raise (ValueError DuplicateKey), st1)
  /\ add_car car1 st2 = (Raise (ValueError DuplicateKey), st2).
Proof.
  split.
  - apply (proj1 (insert_once empty_store)) with (m := model_x) (r := model_x);
      [run|reflexivity].
  - apply (proj2 (insert_once st1)) with (c := car1) (r := car1);
      [run|reflexivity].
Defined.

Lemma add_car_requires_model_witness :
  add_car car1 empty_store
  = (Raise (ValueError ReferenceNotFound), empty_store)
  /\ exists st',
      add_car car1 st1 = (Ok car1, st')
      /\ _get_file_line_count st' cars_txt = 1.
Proof.
  destruct (add_car_requires_model car1 empty_store) as [A B].
  { run. }
  split; [apply A; run|].
  destruct (B model_x model_x st1) as (st' & E & _ & C & _).
  { run. }
  { reflexivity. }
  { vm_compute. lia. }
  exists st'. split; [exact E|exact C].
Defined.

Lemma failure_keeps_store_witness :
  snd (add_model model_x st1) = st1
  /\ snd (add_car car1 st2) = st2
  /\ snd (update_vin vin2 vin1 st2) = st2.
Proof.
  destruct (failure_keeps_store st1) as (A & _ & _).
  destruct (failure_keeps_store st2) as (_ & B & C).
  split; [|split].
  - apply A with (m := model_x) (e := ValueError DuplicateKey). run.
  - apply B with (c := car1) (e := ValueError DuplicateKey). run.
  - apply C with (v := vin2) (w := vin1) (e := ValueError DuplicateKey). run.
Defined.

Lemma revert_sale_failure_keeps_store_witness :
  snd (revert_sale (lit "S-1") st2) = st2.
Proof.
  apply revert_sale_failure_keeps_store
    with (sales_number_ := lit "S-1") (e := ValueError NotFound);
    [run|discriminate].
Defined.

Lemma sell_car_after_add_car_witness :
  fst (sell_car sale1 st2) = Ok (set_status car1 sold).
Proof.
  apply sell_car_after_add_car with (r := car1) (st := st1).
  - run.
  - exact car1_reads_back.
  - run.
  - reflexivity.
  - vm_compute. lia.
  - vm_compute. lia.
Defined.

Lemma sell_car_twice_witness :
  fst (sell_car sale2 st3) = Raise (ValueError InvalidState).
Proof.
  apply sell_car_twice
    with (sale := sale1) (st := st2) (r := set_status car1 sold).
  - run.
  - exact car1_sold_reads_back.
  - reflexivity.
  - vm_compute. lia.
Defined.

Lemma get_car_info_after_update_vin_witness :
  get_car_info (after (update_vin vin1 vin2) st2) vin1 = Ok None
  /\ get_car_info (after (update_vin vin1 vin2) st2) vin2
     = Ok (Some (mkCarFullInfo vin2 (lit "Model X") (lit "Tesla")
                   (price car1) (date_start car1) available None None)).
Proof.
  destruct (get_car_info_after_update_vin vin1 vin2 st2
              (st' := after (update_vin vin1 vin2) st2)
              (r := set_vin car1 vin2)) as [A B].
  { run. }
  split; [exact A|].
  etransitivity; [apply B; [exact car1_renamed_reads_back|run]|].
  run.
Defined.

Lemma get_car_info_after_add_witness :
  get_car_info st2 (vin car1)
  = Ok (Some (mkCarFullInfo (vin car1) (name model_x) (brand model_x)
                (price car1) (date_start car1) (status car1) None None)).
Proof.
  apply get_car_info_after_add
    with (rm := model_x) (rc := car1) (st := empty_store) (st1 := st1).
  - run.
  - run.
  - reflexivity.
  - exact model_x_reads_back.
  - exact car1_reads_back.
  - run.
Defined.

Lemma revert_sale_after_sell_car_witness :
  fst (revert_sale (sales_number sale2) st5)
  = Ok (set_status (set_status car1 sold) available).
Proof.
  apply revert_sale_after_sell_car with (st := st4).
  - run.
  - exact sale2_reads_back.
  - exact car1_sold_reads_back.
  - intros k line Hk R.
    assert (C : _get_file_line_count st4 sales_txt = 1) by run.
    rewrite C in Hk. assert (k = 0) by lia. subst k.
    assert (R0 : _read_fixed_length_line st5 sales_txt 0
                 = Ok (lit "DELETED_S-1|5YJ3E1EA7KF000001|41000.00|2024-02-01T00:00:00"))
      by run.
    rewrite R0 in R. injection R as <-. vm_compute. discriminate.
  - vm_compute. lia.
  - vm_compute. lia.
Defined.

Lemma reverted_sale_passed_over_witness :
  exists ln line,
    ln < _get_file_line_count st3 sales_txt
    /\ _read_fixed_length_line st4 sales_txt ln = Ok line
    /\ startswith line DELETED_ = true.
Proof.
  destruct (reverted_sale_passed_over (lit "S-1") st3 (st' := st4)
              (r := set_status car1 available))
    as (ln & line & A & B & C & _).
  { run. }
  exists ln, line. split; [exact A|]. split; [exact B|exact C].
Defined.

Lemma get_cars_after_add_car_witness :
  get_cars st2' available
  = Ok ([car1]
        ++ if CarStatus_eqb (status car2) available then [car2] else []).
Proof.
  apply get_cars_after_add_car with (r := car2) (st := st2).
  - run.
  - exact car2_reads_back.
  - apply has_false. run.
  - run.
Defined.

Lemma get_car_info_after_sell_car_witness :
  get_car_info (after (sell_car sale1_again) st3') (car_vin sale1_again)
  = Ok (Some (mkCarFullInfo vin2 (lit "Model X") (lit "Tesla")
                (price car2) (date_start car2) sold
                (Some (sales_date sale1_again)) (Some (cost sale1_again)))).
Proof.
  apply get_car_info_after_sell_car
    with (st := st3') (r := set_status car2 sold)
         (info := mkCarFullInfo vin2 (lit "Model X") (lit "Tesla")
                    (price car2) (date_start car2) available None None).
  - run.
  - run.
  - exact sale1_again_reads_back.
  - exact car2_sold_reads_back.
  - intros k line Hk R.
    assert (C : _get_file_line_count st3' sales_txt = 1) by run.
    rewrite C in Hk. assert (k = 0) by lia. subst k.
    assert (R0 : _read_fixed_length_line
                   (after (sell_car sale1_again) st3') sales_txt 0
                 = Ok (lit "S-1|5YJ3E1EA7KF000001|41000.00|2024-02-01T00:00:00"))
      by run.
    rewrite R0 in R. injection R as <-. vm_compute. discriminate.
Defined.

Lemma revert_sale_unknown_number_witness :
  revert_sale (lit "S-9") st3 = (Raise (ValueError NotFound), st3).
Proof.
  apply revert_sale_unknown_number.
  intros k line Hk R.
  assert (C : _get_file_line_count st3 sales_txt = 1) by run.
  rewrite C in Hk. assert (k = 0) by lia. subst k.
  assert (R0 : _read_fixed_length_line st3 sales_txt 0
               = Ok (lit "S-1|5YJ3E1EA7KF000001|41000.00|2024-02-01T00:00:00"))
    by run.
  rewrite R0 in R. injection R as <-. vm_compute. discriminate.
Defined.

Lemma get_car_info_other_after_add_car_witness :
  get_car_info st2' vin1 = get_car_info st2 vin1.
Proof.
  apply get_car_info_other_after_add_car with (car := car2) (r := car2).
  - run.
  - discriminate.
  - apply has_false. run.
  - exact st2_in_range.
Defined.

Lemma get_cars_scan_order_witness :
  get_cars empty_store available = Ok []
  /\ get_cars st2 available
     = Ok (cars_with_status st2 available
             (seq 0 (_get_file_line_count st2 cars_txt))).
Proof.
  split.
  - apply (proj1 (get_cars_scan_order empty_store available)). reflexivity.
  - apply (proj2 (get_cars_scan_order st2 available)); [run|].
    intros n line Hn R _ _.
    assert (C : _get_file_line_count st2 cars_txt = 1) by run.
    rewrite C in Hn. assert (n = 0) by lia. subst n.
    assert (R0 : _read_fixed_length_line st2 cars_txt 0 = Ok car1_record)
      by run.
    rewrite R0 in R. injection R as <-. vm_compute. discriminate.
Defined.

End ScenarioChecks.
